(** * The xeus debug bridge of vscode-simple-jupyter-notebook

    A shallow embedding of [src/debugging.ts]: the [DebuggingManager]
    (document -> debugger map, breakpoint repair), the [XeusDebugAdapter]
    (cell <-> file maps, rewriting of DAP sources in both directions) and
    the [visitSources] walk over DAP messages.

    Conventions of the embedding.
    - JavaScript strings are [string]s of ASCII characters.
    - Numbers that are array indices or parsed integers are [nat] / [Z];
      [NaN] is [None].
    - A JavaScript [Map] keyed by strings is a [gmap string _]; the map
      keyed by document objects keeps insertion order (it is iterated) and
      is an association list on the document handle.
    - Objects that the code compares by reference carry a [handle].
    - [async] functions take the settlement of the promise they await as an
      argument and return their host calls as a list, in program order.
    - A [TypeError] raised by a property access on [undefined] is the
      [Throw] completion. *)

From Stdlib Require Import ZArith List String Ascii Bool Lia DecimalString DecimalNat.
From stdpp Require Import base gmap strings list.

Open Scope string_scope.
Open Scope list_scope.

(** ** JavaScript primitives used by the file *)

Module Js.

(** Completion of a call: normal, or an exception. *)
Inductive Completion (A : Type) : Type :=
| Normal (a : A)
| Throw (err : string).
Arguments Normal {A} a.
Arguments Throw {A} err.

(** Truthiness of [string | undefined]: defined and not empty. *)
Definition truthy (s : option string) : bool :=
  match s with
  | Some (String _ _) => true
  | _ => false
  end.

(** [s.indexOf(p) === 0]: [s] starts with [p]. *)
Definition startsWith (p s : string) : bool := String.prefix p s.

(** [n.toString()] for a non-negative integer [n]. *)
Definition toString (n : nat) : string :=
  NilEmpty.string_of_uint (Nat.to_uint n).

Fixpoint replicate (n : nat) (c : ascii) : string :=
  match n with
  | O => EmptyString
  | S k => String c (replicate k c)
  end.

(** [s.padStart(n, c)] with a one-character filler. *)
Definition padStart (n : nat) (c : ascii) (s : string) : string :=
  replicate (n - String.length s) c +:+ s.

(** White space skipped by [parseInt] (the ASCII part of StrWhiteSpaceChar). *)
Definition isWhiteSpace (c : ascii) : bool :=
  match nat_of_ascii c with
  | 9 | 10 | 11 | 12 | 13 | 32 => true
  | _ => false
  end.

Fixpoint skipWhiteSpace (s : string) : string :=
  match s with
  | String c r => if isWhiteSpace c then skipWhiteSpace r else s
  | EmptyString => s
  end.

(** Value of a character as a digit: 0-9, then a-z / A-Z for 10..35. *)
Definition digitValue (c : ascii) : option Z :=
  let n := Z.of_nat (nat_of_ascii c) in
  if (48 <=? n)%Z && (n <=? 57)%Z then Some (n - 48)%Z
  else if (97 <=? n)%Z && (n <=? 122)%Z then Some (n - 87)%Z
  else if (65 <=? n)%Z && (n <=? 90)%Z then Some (n - 55)%Z
  else None.

(** The longest prefix of radix-[r] digits, as a number; [acc] is the value
    read so far ([None]: no digit yet). *)
Fixpoint parseDigits (r : Z) (s : string) (acc : option Z) : option Z :=
  match s with
  | String c rest =>
      match digitValue c with
      | Some d =>
          if (d <? r)%Z
          then parseDigits r rest (Some (default 0%Z acc * r + d)%Z)
          else acc
      | None => acc
      end
  | EmptyString => acc
  end.

(** [parseInt(s)] with no radix argument. [None] is [NaN]. The result is
    the exact integer: the code only compares it with an array index, and
    rounding to a double cannot turn a different integer into an index
    (it is monotone and exact below 2^53); [-0 === 0]. *)
Definition parseInt (s : string) : option Z :=
  let s1 := skipWhiteSpace s in
  let '(sign, s2) :=
    match s1 with
    | String "-" r => ((-1)%Z, r)
    | String "+" r => (1%Z, r)
    | _ => (1%Z, s1)
    end in
  let '(radix, s3) :=
    match s2 with
    | String "0" (String x r) =>
        if (Ascii.eqb x "x" || Ascii.eqb x "X")%bool then (16%Z, r) else (10%Z, s2)
    | _ => (10%Z, s2)
    end in
  Z.mul sign <$> parseDigits radix s3 None.

(** [path.basename(p)] of Node (POSIX flavour, no extension argument):
    the last segment, trailing slashes ignored. The scan runs from the end
    of the string, here over the reversed character list: [seg] is the
    segment collected so far (already in reading order). *)
Fixpoint basenameScan (rev_chars : list ascii) (matchedSlash : bool) (seg : string) : string :=
  match rev_chars with
  | [] => seg
  | c :: r =>
      if Ascii.eqb c "/"
      then if matchedSlash then basenameScan r true seg else seg
      else basenameScan r false (String c seg)
  end.

Definition basename (p : string) : string :=
  basenameScan (rev (list_ascii_of_string p)) true EmptyString.

End Js.

Export Js.

(** ** The part of the [vscode] API the file works with *)

(** [vscode.Uri]. [Uri_toString] follows the layout of the host's formatter
    (scheme, [//] and authority, path, [?] query, [#] fragment); the
    percent-encoding of reserved characters is left out. *)
Record Uri : Type := mkUri {
  scheme : string;
  authority : string;
  path : string;
  query : string;
  fragment : string
}.

Definition nonEmpty (s : string) : bool :=
  match s with
  | EmptyString => false
  | String _ _ => true
  end.

Definition Uri_toString (u : Uri) : string :=
  (if nonEmpty (scheme u) then scheme u +:+ ":" else "")
  +:+ (if (nonEmpty (authority u) || String.eqb (scheme u) "file")%bool then "//" else "")
  +:+ authority u
  +:+ path u
  +:+ (if nonEmpty (query u) then "?" +:+ query u else "")
  +:+ (if nonEmpty (fragment u) then "#" +:+ fragment u else "").

(** [uri.with({ fragment })]. *)
Definition Uri_with_fragment (u : Uri) (f : string) : Uri :=
  {| scheme := scheme u; authority := authority u; path := path u;
     query := query u; fragment := f |}.

Record Position : Type := mkPosition { line : nat; character : nat }.
Record Range : Type := mkRange { range_start : Position; range_end : Position }.
Record Location : Type := mkLocation { uri : Uri; range : Range }.

(** [vscode.Breakpoint] and its two subclasses. *)
Record BreakpointState : Type := mkBreakpointState {
  enabled : bool;
  condition : option string;
  hitCondition : option string;
  logMessage : option string
}.

Inductive Breakpoint : Type :=
| SourceBreakpoint (location : Location) (state : BreakpointState)
| FunctionBreakpoint (functionName : string) (state : BreakpointState).

(** [new vscode.SourceBreakpoint(loc)]: the omitted constructor arguments
    take the host's defaults (enabled, nothing else). *)
Definition new_SourceBreakpoint (loc : Location) : Breakpoint :=
  SourceBreakpoint loc
    {| enabled := true; condition := None; hitCondition := None; logMessage := None |}.


Inductive CellKind : Type := Markdown | Code.

(** [vscode.NotebookCell]: [handle] stands for the identity of the cell
    object, [text] for [cell.document.getText()], [breakpointMargin] for
    [cell.metadata.breakpointMargin]. [cell_uri] is read-only in the API. *)
Record NotebookCell : Type := mkCell {
  handle : nat;
  cell_uri : Uri;
  cellKind : CellKind;
  text : string;
  breakpointMargin : option bool
}.

(** [vscode.NotebookDocument]; [doc_handle] is the identity of the object. *)
Record NotebookDocument : Type := mkDocument {
  doc_handle : nat;
  doc_uri : Uri;
  fileName : string;
  cells : list NotebookCell
}.

#[global] Instance Uri_eq_dec : EqDecision Uri.
Proof. solve_decision. Defined.
#[global] Instance Position_eq_dec : EqDecision Position.
Proof. solve_decision. Defined.
#[global] Instance Range_eq_dec : EqDecision Range.
Proof. solve_decision. Defined.
#[global] Instance Location_eq_dec : EqDecision Location.
Proof. solve_decision. Defined.
#[global] Instance BreakpointState_eq_dec : EqDecision BreakpointState.
Proof. solve_decision. Defined.
#[global] Instance Breakpoint_eq_dec : EqDecision Breakpoint.
Proof. solve_decision. Defined.

(** Calls on [vscode.debug] that change the host's breakpoint store. *)
Inductive DebugCall : Type :=
| removeBreakpoints (bs : list Breakpoint)
| addBreakpoints (bs : list Breakpoint).

(** The host's side of those calls on [vscode.debug.breakpoints]: the
    breakpoints handed to [removeBreakpoints] leave the store, those handed
    to [addBreakpoints] are appended. The host removes by object; equal
    content stands for the same object here, which makes no difference for
    [fixBreakpoints]: what it selects for removal depends on the content of
    a breakpoint only, so equal breakpoints are selected together. *)
Definition hostApply (c : DebugCall) (store : list Breakpoint) : list Breakpoint :=
  match c with
  | removeBreakpoints bs => filter (fun b => b ∉ bs) store
  | addBreakpoints bs => store ++ bs
  end.

Definition hostRun (cs : list DebugCall) (store : list Breakpoint) : list Breakpoint :=
  fold_left (fun st c => hostApply c st) cs store.

(** ** DebuggingManager.fixBreakpoints *)

(** [pos !== ix] for [pos = parseInt(...)]: [NaN] differs from every index. *)
Definition strictNe (pos : option Z) (ix : nat) : bool :=
  match pos with
  | Some z => negb (z =? Z.of_nat ix)%Z
  | None => true
  end.

(** The replacement address of the cell at index [ix]. *)
Definition fixedUri (cell : NotebookCell) (ix : nat) : Uri :=
  Uri_with_fragment (cell_uri cell) (padStart 8 "0" (toString ix)).

(** [doc.cells.forEach((cell, ix) => ...)] filling [map], from index [ix] on. *)
Fixpoint forEachCell (cs : list NotebookCell) (ix : nat) (map : gmap string Uri)
  : gmap string Uri :=
  match cs with
  | [] => map
  | cell :: rest =>
      let pos := parseInt (fragment (cell_uri cell)) in
      let map' :=
        if strictNe pos ix
        then <[Uri_toString (cell_uri cell) := fixedUri cell ix]> map
        else map in
      forEachCell rest (S ix) map'
  end.

Definition staleMap (doc : NotebookDocument) : gmap string Uri :=
  forEachCell (cells doc) 0 ∅.

(** The loop over [vscode.debug.breakpoints]; the result is
    [(removeBpt, addBpts)]. *)
Fixpoint scanBreakpoints (map : gmap string Uri) (bps : list Breakpoint)
  : list Breakpoint * list Breakpoint :=
  match bps with
  | [] => ([], [])
  | b :: rest =>
      let '(removeBpt, addBpts) := scanBreakpoints map rest in
      match b with
      | SourceBreakpoint location _ =>
          match map !! Uri_toString (uri location) with
          | Some s =>
              let loc := {| uri := s; range := range location |} in
              (b :: removeBpt, new_SourceBreakpoint loc :: addBpts)
          | None => (removeBpt, addBpts)
          end
      | FunctionBreakpoint _ _ => (removeBpt, addBpts)
      end
  end.

(** [fixBreakpoints(doc)], as the calls it makes on [vscode.debug], given the
    breakpoints the host holds. The document is only read. *)
Definition fixBreakpoints (doc : NotebookDocument) (breakpoints : list Breakpoint)
  : list DebugCall :=
  let map := staleMap doc in
  if (0 <? size map)%nat then
    let '(removeBpt, addBpts) := scanBreakpoints map breakpoints in
    (if (0 <? length removeBpt)%nat then [removeBreakpoints removeBpt] else [])
    ++ (if (0 <? length addBpts)%nat then [addBreakpoints addBpts] else [])
  else [].

(** ** Debugger and DebuggingManager.toggleDebugging *)

(** A [vscode.DebugSession] object, by identity. *)
Definition DebugSession : Type := nat.

(** State of the [session] promise of a [Debugger]. *)
Inductive Promise : Type :=
| Pending
| Fulfilled (s : DebugSession)
| Rejected (reason : string).

(** [class Debugger]: the document it was made for (by identity) and its
    [session] promise. *)
Record Debugger : Type := mkDebugger {
  document : nat;
  session : Promise
}.

(** What the manager asks of its collaborators, in program order.
    [updateUI d b] is the call [this.updateDebuggerUI(doc, b)] on the
    document with handle [d]. *)
Inductive HostCall : Type :=
| startDebugging (type name request __document : string)
| getDocumentKernel (doc : nat)
| executeCommand (command : string)
| showErrorMessage (message : string)
| consoleLog (message : string)
| updateUI (doc : nat) (showBreakpointsMargin : bool).

(** [await p]: a settled promise gives its own outcome; a pending one is
    settled by the host, whose answer is [host]. *)
Definition await (p : Promise) (host : Completion DebugSession) : Completion DebugSession :=
  match p with
  | Pending => host
  | Fulfilled s => Normal s
  | Rejected reason => Throw reason
  end.

(** The state of [p] once it has been awaited. *)
Definition settled (p : Promise) (host : Completion DebugSession) : Promise :=
  match await p host with
  | Normal s => Fulfilled s
  | Throw reason => Rejected reason
  end.

(** [Map<NotebookDocument, Debugger>] in insertion order, keyed by the
    identity of the document. *)
Definition DebuggerMap : Type := list (nat * Debugger).

Fixpoint Map_get (m : DebuggerMap) (doc : nat) : option Debugger :=
  match m with
  | [] => None
  | (k, dbg) :: rest => if Nat.eqb k doc then Some dbg else Map_get rest doc
  end.

Fixpoint Map_set (m : DebuggerMap) (doc : nat) (dbg : Debugger) : DebuggerMap :=
  match m with
  | [] => [(doc, dbg)]
  | (k, old) :: rest =>
      if Nat.eqb k doc then (k, dbg) :: rest else (k, old) :: Map_set rest doc dbg
  end.

Fixpoint Map_delete (m : DebuggerMap) (doc : nat) : DebuggerMap :=
  match m with
  | [] => []
  | (k, dbg) :: rest =>
      if Nat.eqb k doc then rest else (k, dbg) :: Map_delete rest doc
  end.

(** [updateDebuggerUI(doc, show)]: sets the margin flag of the code cells. *)
Definition updateDebuggerUI (doc : NotebookDocument) (showBreakpointsMargin : bool)
  : NotebookDocument :=
  {| doc_handle := doc_handle doc; doc_uri := doc_uri doc; fileName := fileName doc;
     cells :=
       map (fun cell =>
              match cellKind cell with
              | Code =>
                  {| handle := handle cell; cell_uri := cell_uri cell;
                     cellKind := cellKind cell; text := text cell;
                     breakpointMargin := Some showBreakpointsMargin |}
              | Markdown => cell
              end) (cells doc) |}.

(** [new Debugger(doc)]: a pending promise, and the start request. *)
Definition new_Debugger (doc : NotebookDocument) : Debugger * list HostCall :=
  ({| document := doc_handle doc; session := Pending |},
   [startDebugging "xeus" (basename (fileName doc)) "attach" (Uri_toString (doc_uri doc))]).

(** [dbg.stop()]. [activeDebugSession] is [vscode.debug.activeDebugSession],
    read before the promise is awaited. *)
Definition Debugger_stop (dbg : Debugger) (activeDebugSession : option DebugSession)
    (host : Completion DebugSession) : list HostCall * Completion unit :=
  match await (session dbg) host with
  | Normal s =>
      if decide (activeDebugSession = Some s)
      then ([executeCommand "workbench.action.debug.stop"], Normal ())
      else ([consoleLog "cannot stop debugger"], Normal ())
  | Throw reason => ([], Throw reason)
  end.

(** What an invocation leaves behind: the map, the calls made, and how the
    returned promise settles. *)
Record Outcome : Type := mkOutcome {
  notebookToDebugger : DebuggerMap;
  calls : list HostCall;
  completion : Completion unit
}.

(** [toggleDebugging(doc)]. [host] is how the host settles a pending session
    promise that the invocation awaits. *)
Definition toggleDebugging (m : DebuggerMap) (doc : NotebookDocument)
    (activeDebugSession : option DebugSession) (host : Completion DebugSession) : Outcome :=
  match Map_get m (doc_handle doc) with
  | Some dbg =>
      let '(cs, r) := Debugger_stop dbg activeDebugSession host in
      (* the map is not written; the promise of the stored object has been
         awaited, so it is settled now *)
      {| notebookToDebugger :=
           Map_set m (doc_handle doc)
             {| document := document dbg; session := settled (session dbg) host |};
         calls := cs;
         completion := r |}
  | None =>
      let '(dbg, cs0) := new_Debugger doc in
      let m1 := Map_set m (doc_handle doc) dbg in
      let cs1 := cs0 ++ [getDocumentKernel (doc_handle doc)] in
      (* [await dbg.session]: the promise of the stored object is settled *)
      let awaited := {| document := document dbg; session := settled (session dbg) host |} in
      let m2 := Map_set m1 (doc_handle doc) awaited in
      match await (session dbg) host with
      | Normal _ =>
          {| notebookToDebugger := m2;
             calls := cs1 ++ [updateUI (doc_handle doc) true];
             completion := Normal () |}
      | Throw err =>
          {| notebookToDebugger := m2;
             calls := cs1 ++ [showErrorMessage ("Can't start debugging (" +:+ err +:+ ")");
                              updateUI (doc_handle doc) false];
             completion := Normal () |}
      end
  end.

(** The [onDidTerminateDebugSession] listener: the loop over the entries of
    the map, [rest] being the entries still to visit. *)
Fixpoint terminateScan (m rest : DebuggerMap) (session0 : DebugSession)
    (host : Completion DebugSession) : Outcome :=
  match rest with
  | [] => {| notebookToDebugger := m; calls := []; completion := Normal () |}
  | (doc, dbg) :: rest' =>
      match await (session dbg) host with
      | Normal s =>
          if Nat.eqb session0 s
          then {| notebookToDebugger := Map_delete m doc;
                  calls := [updateUI doc false];
                  completion := Normal () |}
          else terminateScan m rest' session0 host
      | Throw reason =>
          {| notebookToDebugger := m; calls := []; completion := Throw reason |}
      end
  end.

Definition onDidTerminateDebugSession (m : DebuggerMap) (session0 : DebugSession)
    (host : Completion DebugSession) : Outcome :=
  terminateScan m m session0 host.

(** ** Debug adapter protocol messages *)

(** [DebugProtocol.Source]: the two members the hooks write, and one they
    leave alone. *)
Record Source : Type := mkSource {
  source_name : option string;
  source_path : option string;
  sourceReference : option Z
}.

(** [DebugProtocol.Breakpoint], [StackFrame] and [Scope]. *)
Record DapBreakpoint : Type := mkDapBreakpoint {
  verified : bool;
  bp_source : option Source;
  bp_line : option Z
}.

Record StackFrame : Type := mkStackFrame {
  frame_id : Z;
  frame_name : string;
  frame_source : option Source;
  frame_line : Z
}.

Record Scope : Type := mkScope {
  scope_name : string;
  variablesReference : Z;
  scope_source : option Source
}.

(** The object held by [body] or [arguments]: the members that
    [visitSources] reads, each possibly [undefined], and the remaining
    members as uninterpreted text. *)
Record Payload : Type := mkPayload {
  source : option Source;
  breakpoint : option DapBreakpoint;
  stackFrames : option (list StackFrame);
  sources : option (list Source);
  scopes : option (list Scope);
  breakpoints : option (list DapBreakpoint);
  members : list (string * string)
}.

(** [DebugProtocol.ProtocolMessage] with the members of its three
    refinements ([Request], [Response], [Event]), absent ones [None]. *)
Record ProtocolMessage : Type := mkMessage {
  seq : Z;
  type : string;
  command : option string;
  event : option string;
  arguments : option Payload;
  body : option Payload;
  success : option bool;
  request_seq : option Z
}.

#[global] Instance Source_eq_dec : EqDecision Source.
Proof. solve_decision. Defined.

Definition set_path (s : Source) (p : string) : Source :=
  {| source_name := source_name s; source_path := Some p;
     sourceReference := sourceReference s |}.

Definition set_name (s : Source) (n : string) : Source :=
  {| source_name := Some n; source_path := source_path s;
     sourceReference := sourceReference s |}.

Definition set_bp_source (bp : DapBreakpoint) (s : option Source) : DapBreakpoint :=
  {| verified := verified bp; bp_source := s; bp_line := bp_line bp |}.

Definition set_frame_source (f : StackFrame) (s : option Source) : StackFrame :=
  {| frame_id := frame_id f; frame_name := frame_name f; frame_source := s;
     frame_line := frame_line f |}.

Definition set_scope_source (sc : Scope) (s : option Source) : Scope :=
  {| scope_name := scope_name sc; variablesReference := variablesReference sc;
     scope_source := s |}.

Definition set_source (b : Payload) (s : option Source) : Payload :=
  {| source := s; breakpoint := breakpoint b; stackFrames := stackFrames b;
     sources := sources b; scopes := scopes b; breakpoints := breakpoints b;
     members := members b |}.

Definition set_breakpoint (b : Payload) (bp : option DapBreakpoint) : Payload :=
  {| source := source b; breakpoint := bp; stackFrames := stackFrames b;
     sources := sources b; scopes := scopes b; breakpoints := breakpoints b;
     members := members b |}.

Definition set_stackFrames (b : Payload) (l : option (list StackFrame)) : Payload :=
  {| source := source b; breakpoint := breakpoint b; stackFrames := l;
     sources := sources b; scopes := scopes b; breakpoints := breakpoints b;
     members := members b |}.

Definition set_sources (b : Payload) (l : option (list Source)) : Payload :=
  {| source := source b; breakpoint := breakpoint b; stackFrames := stackFrames b;
     sources := l; scopes := scopes b; breakpoints := breakpoints b;
     members := members b |}.

Definition set_scopes (b : Payload) (l : option (list Scope)) : Payload :=
  {| source := source b; breakpoint := breakpoint b; stackFrames := stackFrames b;
     sources := sources b; scopes := l; breakpoints := breakpoints b;
     members := members b |}.

Definition set_breakpoints (b : Payload) (l : option (list DapBreakpoint)) : Payload :=
  {| source := source b; breakpoint := breakpoint b; stackFrames := stackFrames b;
     sources := sources b; scopes := scopes b; breakpoints := l;
     members := members b |}.

Definition set_arguments (m : ProtocolMessage) (a : option Payload) : ProtocolMessage :=
  {| seq := seq m; type := type m; command := command m; event := event m;
     arguments := a; body := body m; success := success m;
     request_seq := request_seq m |}.

Definition set_body (m : ProtocolMessage) (b : option Payload) : ProtocolMessage :=
  {| seq := seq m; type := type m; command := command m; event := event m;
     arguments := arguments m; body := b; success := success m;
     request_seq := request_seq m |}.

(** ** visitSources *)

(** A hook writes into the [Source] object it is handed; handed [undefined]
    it has nothing to write into. *)
Definition Hook : Type := Source -> Source.

(** What a walk leaves behind: the arguments of the hook calls, in order,
    and the object after the hook's writes. *)
Definition Visit (A : Type) : Type := Completion (list (option Source) * A).

Definition TypeError : string := "TypeError".

(** [sourceHook(o.source)] for [o = event.body] or [o = request.arguments]. *)
Definition visit_source (sourceHook : Hook) (o : option Payload) : Visit (option Payload) :=
  match o with
  | Some b => Normal ([source b], Some (set_source b (sourceHook <$> source b)))
  | None => Throw TypeError
  end.

(** [sourceHook(event.body.breakpoint.source)]. *)
Definition visit_breakpoint_source (sourceHook : Hook) (o : option Payload)
  : Visit (option Payload) :=
  match o with
  | Some b =>
      match breakpoint b with
      | Some bp =>
          Normal ([bp_source bp],
                  Some (set_breakpoint b (Some (set_bp_source bp (sourceHook <$> bp_source bp)))))
      | None => Throw TypeError
      end
  | None => Throw TypeError
  end.

(** [l.forEach(x => sourceHook(get x))] on a member [l] of the body. *)
Definition visit_each {A : Type} (get : A -> option Source) (set : A -> option Source -> A)
    (sourceHook : Hook) (l : option (list A)) : Visit (option (list A)) :=
  match l with
  | Some xs => Normal (map get xs, Some (map (fun x => set x (sourceHook <$> get x)) xs))
  | None => Throw TypeError
  end.

(** [body.sources.forEach(source => sourceHook(source))]. *)
Definition visit_sources (sourceHook : Hook) (l : option (list Source))
  : Visit (option (list Source)) :=
  match l with
  | Some xs => Normal (map Some xs, Some (map sourceHook xs))
  | None => Throw TypeError
  end.

(** Rebuilds the visited object around the walked member. *)
Definition rebuild {A B : Type} (v : Visit A) (put : A -> B) : Visit B :=
  match v with
  | Normal (log, a) => Normal (log, put a)
  | Throw err => Throw err
  end.

(** [visitSources(msg, sourceHook)]. *)
Definition visitSources (msg : ProtocolMessage) (sourceHook : Hook) : Visit ProtocolMessage :=
  if String.eqb (type msg) "event" then
    match event msg with
    | Some ev =>
        if String.eqb ev "output" then
          rebuild (visit_source sourceHook (body msg)) (set_body msg)
        else if String.eqb ev "loadedSource" then
          rebuild (visit_source sourceHook (body msg)) (set_body msg)
        else if String.eqb ev "breakpoint" then
          rebuild (visit_breakpoint_source sourceHook (body msg)) (set_body msg)
        else Normal ([], msg)
    | None => Normal ([], msg)
    end
  else if String.eqb (type msg) "request" then
    match command msg with
    | Some cmd =>
        if String.eqb cmd "setBreakpoints" then
          rebuild (visit_source sourceHook (arguments msg)) (set_arguments msg)
        else if String.eqb cmd "breakpointLocations" then
          rebuild (visit_source sourceHook (arguments msg)) (set_arguments msg)
        else if String.eqb cmd "source" then
          rebuild (visit_source sourceHook (arguments msg)) (set_arguments msg)
        else if String.eqb cmd "gotoTargets" then
          rebuild (visit_source sourceHook (arguments msg)) (set_arguments msg)
        else Normal ([], msg)
    | None => Normal ([], msg)
    end
  else if String.eqb (type msg) "response" then
    match success msg, body msg with
    | Some true, Some b =>
        match command msg with
        | Some cmd =>
            if String.eqb cmd "stackTrace" then
              rebuild (visit_each frame_source set_frame_source sourceHook (stackFrames b))
                (fun l => set_body msg (Some (set_stackFrames b l)))
            else if String.eqb cmd "loadedSources" then
              rebuild (visit_sources sourceHook (sources b))
                (fun l => set_body msg (Some (set_sources b l)))
            else if String.eqb cmd "scopes" then
              rebuild (visit_each scope_source set_scope_source sourceHook (scopes b))
                (fun l => set_body msg (Some (set_scopes b l)))
            else if String.eqb cmd "setFunctionBreakpoints" then
              rebuild (visit_each bp_source set_bp_source sourceHook (breakpoints b))
                (fun l => set_body msg (Some (set_breakpoints b l)))
            else if String.eqb cmd "setBreakpoints" then
              rebuild (visit_each bp_source set_bp_source sourceHook (breakpoints b))
                (fun l => set_body msg (Some (set_breakpoints b l)))
            else Normal ([], msg)
        | None => Normal ([], msg)
        end
    | _, _ => Normal ([], msg)
    end
  else Normal ([], msg).

(** ** XeusDebugAdapter *)

(** The two maps of an adapter. The session, the kernel and the notebook
    document are fixed references; the cells the document has at the moment
    of a call are an argument of the call. *)
Record XeusDebugAdapter : Type := mkAdapter {
  fileToCell : gmap string NotebookCell;
  cellToFile : gmap string string
}.

Definition new_XeusDebugAdapter : XeusDebugAdapter :=
  {| fileToCell := ∅; cellToFile := ∅ |}.

(** Modelled from the spec: the envelope constructors [debugRequest] and
    [debugResponse] of [./messaging], which is not part of the sources at
    hand; a debug-request envelope and a debug-reply envelope around the
    protocol message. *)
Inductive Envelope : Type :=
| debugRequest (m : ProtocolMessage)
| debugResponse (m : ProtocolMessage).

(** What the adapter asks of the session, the kernel connection, the editor
    and the console, in program order. *)
Inductive AdapterCall : Type :=
| customRequest (command code : string)
| sendRaw (e : Envelope)
| fire (m : ProtocolMessage)
| console_log (err : string)
| console_assert (cond : bool) (message : string).

Definition is_customRequest (c : AdapterCall) : bool :=
  match c with
  | customRequest _ _ => true
  | _ => false
  end.

Definition is_sendRaw (c : AdapterCall) : bool :=
  match c with
  | sendRaw _ => true
  | _ => false
  end.

(** [cells.find(c => c.uri.toString() === uri)]. *)
Definition findCell (cs : list NotebookCell) (uri0 : string) : option NotebookCell :=
  List.find (fun c => String.eqb (Uri_toString (cell_uri c)) uri0) cs.

(** [dumpCell(uri)]. [reply] is how the session settles the [dumpCell]
    request: with the [sourcePath] of its response, or by throwing. *)
Definition dumpCell (a : XeusDebugAdapter) (notebookCells : list NotebookCell)
    (uri0 : string) (reply : Completion string) : XeusDebugAdapter * list AdapterCall :=
  match findCell notebookCells uri0 with
  | Some cell =>
      match reply with
      | Normal sourcePath =>
          ({| fileToCell := <[sourcePath := cell]> (fileToCell a);
              cellToFile := <[Uri_toString (cell_uri cell) := sourcePath]> (cellToFile a) |},
           [customRequest "dumpCell" (text cell)])
      | Throw err =>
          (a, [customRequest "dumpCell" (text cell); console_log err])
      end
  | None => (a, [])
  end.

(** The hook of [handleMessage]: Source paths from VS Code to Xeus. *)
Definition toXeus (cellToFile0 : gmap string string) : Hook :=
  fun source0 =>
    if truthy (source_path source0) then
      match cellToFile0 !! default "" (source_path source0) with
      | Some p => if nonEmpty p then set_path source0 p else source0
      | None => source0
      end
    else source0.

(** [cells.indexOf(cell)]: the first position holding this very object;
    [None] is [-1]. *)
Fixpoint indexOf (cs : list NotebookCell) (cell : NotebookCell) : option nat :=
  match cs with
  | [] => None
  | c :: rest =>
      if Nat.eqb (handle c) (handle cell) then Some 0
      else S <$> indexOf rest cell
  end.

(** The hook of the kernel subscription: Sources from Xeus to VS Code.
    [notebookCells] is [cell.notebook.cells] at the time of the call; every
    cell of [fileToCell] was found in the adapter's document, which is its
    [notebook]. *)
Definition toVSCode (fileToCell0 : gmap string NotebookCell)
    (notebookCells : list NotebookCell) : Hook :=
  fun source0 =>
    if truthy (source_path source0) then
      match fileToCell0 !! default "" (source_path source0) with
      | Some cell =>
          let name := basename (path (cell_uri cell)) in
          let name' :=
            match indexOf notebookCells cell with
            | Some cellIndex => name +:+ ", Cell " +:+ toString (cellIndex + 1)
            | None => name
            end in
          set_path (set_name source0 name') (Uri_toString (cell_uri cell))
      | None => source0
      end
    else source0.

(** The first step of [handleMessage]: intercept a 'setBreakpoints' request
    and dump the cell its source names. *)
Definition intercept (a : XeusDebugAdapter) (notebookCells : list NotebookCell)
    (reply : Completion string) (message : ProtocolMessage)
  : Completion (XeusDebugAdapter * list AdapterCall) :=
  if (String.eqb (type message) "request"
      && bool_decide (command message = Some "setBreakpoints"))%bool then
    match arguments message with
    | Some args =>
        match source args with
        | Some s =>
            if (truthy (source_path s)
                && startsWith "vscode-notebook-cell:" (default "" (source_path s)))%bool
            then Normal (dumpCell a notebookCells (default "" (source_path s)) reply)
            else Normal (a, [])
        | None => Normal (a, [])
        end
    | None => Throw TypeError
    end
  else Normal (a, []).

(** [handleMessage(message)], editor to kernel: the maps afterwards, the
    calls made, and how the returned promise settles. *)
Definition handleMessage (a : XeusDebugAdapter) (notebookCells : list NotebookCell)
    (reply : Completion string) (message : ProtocolMessage)
  : XeusDebugAdapter * list AdapterCall * Completion unit :=
  (* intercept 'setBreakpoints' request *)
  match intercept a notebookCells reply message with
  | Throw err => (a, [], Throw err)
  | Normal (a1, cs1) =>
      (* map Source paths from VS Code to Xeus *)
      match visitSources message (toXeus (cellToFile a1)) with
      | Throw err => (a1, cs1, Throw err)
      | Normal (_, message') =>
          if String.eqb (type message') "request" then
            (a1, cs1 ++ [sendRaw (debugRequest message')], Normal ())
          else if String.eqb (type message') "response" then
            (a1, cs1 ++ [sendRaw (debugResponse message')], Normal ())
          else
            (a1,
             cs1 ++ [console_assert false ("Unknown message type to send " +:+ type message')],
             Normal ())
      end
  end.

(** A message of the kernel connection. *)
Record JupyterMessage : Type := mkJupyterMessage {
  msg_type : string;
  content : ProtocolMessage
}.

Definition debugEvents : list string := ["debug_request"; "debug_reply"; "debug_event"].

Definition isDebugMessage (msg : JupyterMessage) : bool :=
  bool_decide (msg_type msg ∈ debugEvents).

(** The subscription of the constructor, kernel to editor, on one message. *)
Definition onKernelMessage (a : XeusDebugAdapter) (notebookCells : list NotebookCell)
    (evt : JupyterMessage) : list AdapterCall * Completion unit :=
  if isDebugMessage evt then
    match visitSources (content evt) (toVSCode (fileToCell a) notebookCells) with
    | Normal (_, m) => ([fire m], Normal ())
    | Throw err => ([], Throw err)
    end
  else ([], Normal ()).

(** ** The reachable-fields table of the specification

    The second reading of the source visitor, from the table of the
    specification: a message has a kind and a sub-kind, a row of the table
    names the source locations of that kind and sub-kind, and the hook is
    invoked on those. It is compared with [visitSources] below. *)

Inductive MessageKind : Type := event_kind | request_kind | response_success_kind.

Inductive Accessor : Type :=
| body_source
| body_breakpoint_source
| arguments_source
| each_stackFrames_source
| each_sources
| each_scopes_source
| each_breakpoints_source.

#[global] Instance MessageKind_eq_dec : EqDecision MessageKind.
Proof. solve_decision. Defined.

Definition sourceTable : list (MessageKind * string * Accessor) :=
  [ (event_kind, "output", body_source);
    (event_kind, "loadedSource", body_source);
    (event_kind, "breakpoint", body_breakpoint_source);
    (request_kind, "setBreakpoints", arguments_source);
    (request_kind, "breakpointLocations", arguments_source);
    (request_kind, "source", arguments_source);
    (request_kind, "gotoTargets", arguments_source);
    (response_success_kind, "stackTrace", each_stackFrames_source);
    (response_success_kind, "loadedSources", each_sources);
    (response_success_kind, "scopes", each_scopes_source);
    (response_success_kind, "setFunctionBreakpoints", each_breakpoints_source);
    (response_success_kind, "setBreakpoints", each_breakpoints_source) ].

(** Kind and sub-kind of a message; a response counts when it succeeded and
    carries a body. *)
Definition kindOf (msg : ProtocolMessage) : option (MessageKind * string) :=
  if decide (type msg = "event") then pair event_kind <$> event msg
  else if decide (type msg = "request") then pair request_kind <$> command msg
  else if decide (type msg = "response") then
    match success msg, body msg with
    | Some true, Some _ => pair response_success_kind <$> command msg
    | _, _ => None
    end
  else None.

Fixpoint lookupRow (t : list (MessageKind * string * Accessor)) (k : MessageKind * string)
  : option Accessor :=
  match t with
  | [] => None
  | (k', acc) :: rest => if decide (k' = k) then Some acc else lookupRow rest k
  end.

Definition tableRow (msg : ProtocolMessage) : option Accessor :=
  kindOf msg ≫= lookupRow sourceTable.

(** The walk an accessor stands for. *)
Definition walk (acc : Accessor) (msg : ProtocolMessage) (sourceHook : Hook)
  : Visit ProtocolMessage :=
  let in_body {A} (get : Payload -> option (list A)) (set : Payload -> option (list A) -> Payload)
        (v : option (list A) -> Visit (option (list A))) : Visit ProtocolMessage :=
    match body msg with
    | Some b => rebuild (v (get b)) (fun l => set_body msg (Some (set b l)))
    | None => Throw TypeError
    end in
  match acc with
  | body_source => rebuild (visit_source sourceHook (body msg)) (set_body msg)
  | body_breakpoint_source =>
      rebuild (visit_breakpoint_source sourceHook (body msg)) (set_body msg)
  | arguments_source => rebuild (visit_source sourceHook (arguments msg)) (set_arguments msg)
  | each_stackFrames_source =>
      in_body stackFrames set_stackFrames (visit_each frame_source set_frame_source sourceHook)
  | each_sources => in_body sources set_sources (visit_sources sourceHook)
  | each_scopes_source =>
      in_body scopes set_scopes (visit_each scope_source set_scope_source sourceHook)
  | each_breakpoints_source =>
      in_body breakpoints set_breakpoints (visit_each bp_source set_bp_source sourceHook)
  end.

Definition visitByTable (msg : ProtocolMessage) (sourceHook : Hook) : Visit ProtocolMessage :=
  match tableRow msg with
  | Some acc => walk acc msg sourceHook
  | None => Normal ([], msg)
  end.

(** The member an accessor reads is there, as the protocol requires of a
    message of that kind and sub-kind. *)
Definition present (acc : Accessor) (msg : ProtocolMessage) : bool :=
  match acc with
  | body_source => bool_decide (is_Some (body msg))
  | body_breakpoint_source => bool_decide (is_Some (body msg ≫= breakpoint))
  | arguments_source => bool_decide (is_Some (arguments msg))
  | each_stackFrames_source => bool_decide (is_Some (body msg ≫= stackFrames))
  | each_sources => bool_decide (is_Some (body msg ≫= sources))
  | each_scopes_source => bool_decide (is_Some (body msg ≫= scopes))
  | each_breakpoints_source => bool_decide (is_Some (body msg ≫= breakpoints))
  end.

(** A message that has the members the protocol requires for its kind. *)
Definition conforms (msg : ProtocolMessage) : bool :=
  match tableRow msg with
  | Some acc => present acc msg
  | None => true
  end.

(** Every [Source] object of a message, visited or not. *)
Definition optList {A : Type} (o : option A) : list A :=
  match o with
  | Some a => [a]
  | None => []
  end.

Definition payloadSources (o : option Payload) : list Source :=
  match o with
  | Some b =>
      optList (source b)
      ++ optList (breakpoint b ≫= bp_source)
      ++ omap frame_source (default [] (stackFrames b))
      ++ default [] (sources b)
      ++ omap scope_source (default [] (scopes b))
      ++ omap bp_source (default [] (breakpoints b))
  | None => []
  end.

Definition allSources (msg : ProtocolMessage) : list Source :=
  payloadSources (arguments msg) ++ payloadSources (body msg).

(** ** Sequences of materializations *)

(** One call of [dumpCell]: the cells of the document at that moment, the
    address asked for, and the session's answer. *)
Record Materialization : Type := mkMaterialization {
  at_cells : list NotebookCell;
  address : string;
  answer : Completion string
}.

Definition materialize (a : XeusDebugAdapter) (m : Materialization) : XeusDebugAdapter :=
  fst (dumpCell a (at_cells m) (address m) (answer m)).

Definition materializeAll (a : XeusDebugAdapter) (ms : list Materialization)
  : XeusDebugAdapter :=
  fold_left materialize ms a.

(** The bijective correspondence of the specification: every
    address -> file entry is matched by the file -> cell entry of the same
    cell, and every file -> cell entry by the address -> file entry of that
    cell. Keys of a map are unique, so a matching entry is the only one. *)
Definition bijective (a : XeusDebugAdapter) : Prop :=
  (∀ addr f, cellToFile a !! addr = Some f →
     ∃ cell, fileToCell a !! f = Some cell ∧ Uri_toString (cell_uri cell) = addr)
  ∧ (∀ f cell, fileToCell a !! f = Some cell →
       cellToFile a !! Uri_toString (cell_uri cell) = Some f).

(** The weaker link that the two maps always have: the files of one are
    keys of the other, and the cells of the other have their address as a
    key of the first. *)
Definition linked (a : XeusDebugAdapter) : Prop :=
  (∀ addr f, cellToFile a !! addr = Some f → is_Some (fileToCell a !! f))
  ∧ (∀ f cell, fileToCell a !! f = Some cell →
       is_Some (cellToFile a !! Uri_toString (cell_uri cell))).

(** The session names files after cells: [pathOf] gives the file of each
    address, and every answer that succeeds for a cell of the document is
    the file of the address asked for. *)
Definition answersBy (pathOf : string -> string) (ms : list Materialization) : Prop :=
  Forall (fun m => ∀ p, answer m = Normal p → p = pathOf (address m)) ms.

(** The invariant behind the bijection when files are named after addresses
    by [pathOf]. *)
Definition namedBy (pathOf : string → string) (a : XeusDebugAdapter) : Prop :=
  (∀ addr f, cellToFile a !! addr = Some f →
     f = pathOf addr
     ∧ ∃ cell, fileToCell a !! f = Some cell ∧ Uri_toString (cell_uri cell) = addr)
  ∧ (∀ f cell, fileToCell a !! f = Some cell →
       f = pathOf (Uri_toString (cell_uri cell))
       ∧ cellToFile a !! Uri_toString (cell_uri cell) = Some f).

(** ** Auxiliary readings used in the statements *)

(** The address of a cell, as the maps key it. *)
Definition addressOf (cell : NotebookCell) : string := Uri_toString (cell_uri cell).

(** The cell at index [ix] carries a fragment that is not its index. *)
Definition mismatched (cell : NotebookCell) (ix : nat) : bool :=
  strictNe (parseInt (fragment (cell_uri cell))) ix.

(** The corrected address of a stored breakpoint, when it is a source
    breakpoint anchored to a stale address. *)
Definition staleTarget (map : gmap string Uri) (b : Breakpoint) : option Uri :=
  match b with
  | SourceBreakpoint location _ => map !! Uri_toString (uri location)
  | FunctionBreakpoint _ _ => None
  end.

(** The breakpoint that replaces a stale one. *)
Definition reanchored (map : gmap string Uri) (b : Breakpoint) : option Breakpoint :=
  match b with
  | SourceBreakpoint location _ =>
      (fun s => new_SourceBreakpoint {| uri := s; range := range location |})
        <$> map !! Uri_toString (uri location)
  | FunctionBreakpoint _ _ => None
  end.


(** The state a freshly constructed breakpoint has. *)
Definition defaultState : BreakpointState :=
  {| enabled := true; condition := None; hitCondition := None; logMessage := None |}.

(** ** Sample data: a notebook whose first cell was deleted *)

Definition cellUri (f : string) : Uri :=
  {| scheme := "vscode-notebook-cell"; authority := ""; path := "/work/nb.ipynb";
     query := ""; fragment := f |}.

Definition nbUri : Uri :=
  {| scheme := "file"; authority := ""; path := "/work/nb.ipynb"; query := ""; fragment := "" |}.

Definition cellA : NotebookCell :=
  {| handle := 11; cell_uri := cellUri "00000001"; cellKind := Code;
     text := "x = 1"; breakpointMargin := None |}.

Definition cellB : NotebookCell :=
  {| handle := 12; cell_uri := cellUri "00000002"; cellKind := Code;
     text := "y = x + 1"; breakpointMargin := None |}.

(** Cells with fragments 1 and 2 now sit at indices 0 and 1. *)
Definition shiftedDoc : NotebookDocument :=
  {| doc_handle := 1; doc_uri := nbUri; fileName := "/work/nb.ipynb"; cells := [cellA; cellB] |}.

(** Cells with fragments 0 and 2: the middle one of three was deleted. *)
Definition cell0 : NotebookCell :=
  {| handle := 10; cell_uri := cellUri "00000000"; cellKind := Code;
     text := "import m"; breakpointMargin := None |}.

Definition gapDoc : NotebookDocument :=
  {| doc_handle := 2; doc_uri := nbUri; fileName := "/work/nb.ipynb"; cells := [cell0; cellB] |}.

Definition line3 : Range :=
  {| range_start := {| line := 3; character := 0 |};
     range_end := {| line := 3; character := 0 |} |}.

(** A disabled conditional breakpoint in the cell with fragment 2, and a
    function breakpoint. *)
Definition bpB : Breakpoint :=
  SourceBreakpoint {| uri := cellUri "00000002"; range := line3 |}
    {| enabled := false; condition := Some "x > 0"; hitCondition := None;
       logMessage := None |}.

Definition bpF : Breakpoint :=
  FunctionBreakpoint "main"
    {| enabled := true; condition := None; hitCondition := None; logMessage := None |}.

(** ** Sample data: materializations and messages *)

Definition fileB : string := "/tmp/xeus_var_tmp/7f3a91.py".

Definition fileB' : string := "/tmp/xeus_var_tmp/c40e22.py".

(** The session answers the dump of [cell0] and of [cellB] with one and the
    same file. *)
Definition sameFileTwice : list Materialization :=
  [ {| at_cells := [cell0; cellB]; address := addressOf cell0; answer := Normal fileB |};
    {| at_cells := [cell0; cellB]; address := addressOf cellB; answer := Normal fileB |} ].

(** The session answers two dumps of [cellB] with two files. *)
Definition sameCellTwice : list Materialization :=
  [ {| at_cells := [cell0; cellB]; address := addressOf cellB; answer := Normal fileB |};
    {| at_cells := [cell0; cellB]; address := addressOf cellB; answer := Normal fileB' |} ].

(** Two cells, two files, and a dump that fails in between. *)
Definition distinctFiles : list Materialization :=
  [ {| at_cells := [cell0; cellB]; address := addressOf cell0; answer := Normal fileB' |};
    {| at_cells := [cell0; cellB]; address := addressOf cellB; answer := Throw "Error: timeout" |};
    {| at_cells := [cell0; cellB]; address := addressOf cellB; answer := Normal fileB |} ].

(** A naming of files after addresses, for [distinctFiles]. *)
Definition fileOf (addr : string) : string :=
  if String.eqb addr (addressOf cellB) then fileB
  else if String.eqb addr (addressOf cell0) then fileB'
  else "/tmp/xeus_var_tmp/other/" +:+ addr.

Definition noPayload : Payload :=
  {| source := None; breakpoint := None; stackFrames := None; sources := None;
     scopes := None; breakpoints := None; members := [] |}.

Definition sourceAt (p : string) : Source :=
  {| source_name := None; source_path := Some p; sourceReference := None |}.

(** A [setBreakpoints] request for the source at [p]. *)
Definition setBreakpointsRequest (p : string) : ProtocolMessage :=
  {| seq := 5; type := "request"; command := Some "setBreakpoints"; event := None;
     arguments := Some (set_source noPayload (Some (sourceAt p)));
     body := None; success := None; request_seq := None |}.

(** A [loadedSource] event for the source at [p]. *)
Definition loadedSourceEvent (p : string) : JupyterMessage :=
  {| msg_type := "debug_event";
     content :=
       {| seq := 9; type := "event"; command := None; event := Some "loadedSource";
          arguments := None;
          body := Some (set_source noPayload (Some (sourceAt p)));
          success := None; request_seq := None |} |}.

(** A [stopped] event: an event that is neither a request nor a response,
    handed to [handleMessage]. *)
Definition stoppedEvent : ProtocolMessage :=
  {| seq := 12; type := "event"; command := None; event := Some "stopped";
     arguments := None; body := Some noPayload; success := None; request_seq := None |}.

(** The message an envelope carries. *)
Definition enveloped (e : Envelope) : ProtocolMessage :=
  match e with
  | debugRequest m => m
  | debugResponse m => m
  end.

(** Each source of the message after a walk is the source at the same
    place before it, as it was or as the hook left it. *)
Definition touchedBy (hook : Hook) : Source → Source → Prop :=
  fun s s' => s' = s ∨ s' = hook s.

(** The characters ["0"] to ["9"]. *)
Definition isDecimalDigit (c : ascii) : bool :=
  ((48 <=? nat_of_ascii c)%nat && (nat_of_ascii c <=? 57)%nat)%bool.

(** ** The source locations a row of the table names

    Written out on the members of the message, apart from the walk: the
    sources at the places an accessor names, in order ([None] when the
    member that holds them is missing), and the message with a hook's
    writes at those places. *)

Definition located (acc : Accessor) (msg : ProtocolMessage) : option (list (option Source)) :=
  match acc with
  | body_source =>
      match body msg with
      | Some b => Some [source b]
      | None => None
      end
  | body_breakpoint_source =>
      match body msg with
      | Some b =>
          match breakpoint b with
          | Some bp => Some [bp_source bp]
          | None => None
          end
      | None => None
      end
  | arguments_source =>
      match arguments msg with
      | Some args => Some [source args]
      | None => None
      end
  | each_stackFrames_source =>
      match body msg with
      | Some b =>
          match stackFrames b with
          | Some frames => Some (frame_source <$> frames)
          | None => None
          end
      | None => None
      end
  | each_sources =>
      match body msg with
      | Some b =>
          match sources b with
          | Some ss => Some (Some <$> ss)
          | None => None
          end
      | None => None
      end
  | each_scopes_source =>
      match body msg with
      | Some b =>
          match scopes b with
          | Some scs => Some (scope_source <$> scs)
          | None => None
          end
      | None => None
      end
  | each_breakpoints_source =>
      match body msg with
      | Some b =>
          match breakpoints b with
          | Some bps => Some (bp_source <$> bps)
          | None => None
          end
      | None => None
      end
  end.

Definition rewritten (acc : Accessor) (hook : Hook) (msg : ProtocolMessage) : ProtocolMessage :=
  match acc with
  | body_source =>
      match body msg with
      | Some b => set_body msg (Some (set_source b (hook <$> source b)))
      | None => msg
      end
  | body_breakpoint_source =>
      match body msg with
      | Some b =>
          match breakpoint b with
          | Some bp =>
              set_body msg
                (Some (set_breakpoint b (Some (set_bp_source bp (hook <$> bp_source bp)))))
          | None => msg
          end
      | None => msg
      end
  | arguments_source =>
      match arguments msg with
      | Some args => set_arguments msg (Some (set_source args (hook <$> source args)))
      | None => msg
      end
  | each_stackFrames_source =>
      match body msg with
      | Some b =>
          match stackFrames b with
          | Some frames =>
              set_body msg
                (Some (set_stackFrames b
                         (Some ((fun f => set_frame_source f (hook <$> frame_source f))
                                  <$> frames))))
          | None => msg
          end
      | None => msg
      end
  | each_sources =>
      match body msg with
      | Some b =>
          match sources b with
          | Some ss => set_body msg (Some (set_sources b (Some (hook <$> ss))))
          | None => msg
          end
      | None => msg
      end
  | each_scopes_source =>
      match body msg with
      | Some b =>
          match scopes b with
          | Some scs =>
              set_body msg
                (Some (set_scopes b
                         (Some ((fun sc => set_scope_source sc (hook <$> scope_source sc))
                                  <$> scs))))
          | None => msg
          end
      | None => msg
      end
  | each_breakpoints_source =>
      match body msg with
      | Some b =>
          match breakpoints b with
          | Some bps =>
              set_body msg
                (Some (set_breakpoints b
                         (Some ((fun bp => set_bp_source bp (hook <$> bp_source bp))
                                  <$> bps))))
          | None => msg
          end
      | None => msg
      end
  end.

(** ** Sample data: a reply with stack frames, and messages that lack a member *)

(** A successful [stackTrace] reply with a frame in the file of [cellB], a
    frame in a library file and a frame without source. *)
Definition stackTraceReply : ProtocolMessage :=
  {| seq := 21; type := "response"; command := Some "stackTrace"; event := None;
     arguments := None;
     body := Some (set_stackFrames noPayload
                     (Some [ {| frame_id := 1; frame_name := "f";
                                frame_source := Some (sourceAt fileB); frame_line := 2 |};
                             {| frame_id := 2; frame_name := "g";
                                frame_source :=
                                  Some (sourceAt "/usr/lib/python3/site-packages/m.py");
                                frame_line := 40 |};
                             {| frame_id := 3; frame_name := "<module>";
                                frame_source := None; frame_line := 1 |} ]));
     success := Some true; request_seq := Some 5%Z |}.

(** The reply as a message of the kernel connection. *)
Definition stackTraceReplyMessage : JupyterMessage :=
  {| msg_type := "debug_reply"; content := stackTraceReply |}.

(** An [output] event that has no body, and a [source] request that has no
    arguments. *)
Definition outputEventNoBody : ProtocolMessage :=
  {| seq := 30; type := "event"; command := None; event := Some "output";
     arguments := None; body := None; success := None; request_seq := None |}.

Definition sourceRequestNoArguments : ProtocolMessage :=
  {| seq := 31; type := "request"; command := Some "source"; event := None;
     arguments := None; body := None; success := None; request_seq := None |}.

(** ** The other callbacks of the DebuggingManager *)

(** [getDebuggerByUri(docUri)]. [uriOf d] is [doc.uri.toString()] of the
    document object with handle [d]. *)
Fixpoint getDebuggerByUri (uriOf : nat → string) (m : DebuggerMap) (docUri : string)
  : option Debugger :=
  match m with
  | [] => None
  | (doc, dbg) :: rest =>
      if String.eqb docUri (uriOf doc) then Some dbg
      else getDebuggerByUri uriOf rest docUri
  end.

(** [dbg.resolve(session)] and [dbg.reject(reason)]: they call the two
    functions of the promise, which settle it when it is pending and do
    nothing when it is settled. *)
Definition Debugger_resolve (dbg : Debugger) (s : DebugSession) : Debugger :=
  {| document := document dbg;
     session := match session dbg with
                | Pending => Fulfilled s
                | p => p
                end |}.

Definition Debugger_reject (dbg : Debugger) (reason : string) : Debugger :=
  {| document := document dbg;
     session := match session dbg with
                | Pending => Rejected reason
                | p => p
                end |}.

(** A call on the debugger object that [getDebuggerByUri] returns changes
    the object the map holds: [f] is applied to the debugger of the first
    entry whose document has the address [docUri]. *)
Fixpoint onFound (uriOf : nat → string) (m : DebuggerMap) (docUri : string)
    (f : Debugger → Debugger) : DebuggerMap :=
  match m with
  | [] => []
  | (doc, dbg) :: rest =>
      if String.eqb docUri (uriOf doc) then (doc, f dbg) :: rest
      else (doc, dbg) :: onFound uriOf rest docUri f
  end.

(** The reason of the rejection when the kernel is gone, as [`${err}`]
    prints [new Error('Kernel appears to have been stopped')]. *)
Definition kernelStopped : string := "Error: Kernel appears to have been stopped".

(** The factory [createDebugAdapterDescriptor] registered for 'xeus'.
    [__document] is [session.configuration.__document], [kernel] tells
    whether [getDocumentKernel] returns a kernel. The result is the map, the
    calls, and the document handed to the new adapter with that adapter,
    or [None] when the factory returns nothing. *)
Definition createDebugAdapterDescriptor (uriOf : nat → string) (m : DebuggerMap)
    (session0 : DebugSession) (__document : string) (kernel : bool)
  : DebuggerMap * list HostCall * option (nat * XeusDebugAdapter) :=
  match getDebuggerByUri uriOf m __document with
  | Some dbg =>
      if kernel then
        (onFound uriOf m __document (fun d => Debugger_resolve d session0),
         [getDocumentKernel (document dbg)],
         Some (document dbg, new_XeusDebugAdapter))
      else
        (onFound uriOf m __document (fun d => Debugger_reject d kernelStopped),
         [getDocumentKernel (document dbg)],
         None)
  | None => (m, [], None)
  end.

(** The [onDidCloseNotebookDocument] listener: what it leaves behind, and
    the calls of the breakpoint repair it runs, given the breakpoints the
    host holds. *)
Definition onDidCloseNotebookDocument (m : DebuggerMap) (document0 : NotebookDocument)
    (activeDebugSession : option DebugSession) (host : Completion DebugSession)
    (breakpoints : list Breakpoint) : Outcome * list DebugCall :=
  match Map_get m (doc_handle document0) with
  | Some dbg =>
      let '(cs, r) := Debugger_stop dbg activeDebugSession host in
      let m' :=
        Map_set m (doc_handle document0)
          {| document := document dbg; session := settled (session dbg) host |} in
      match r with
      | Normal _ =>
          ({| notebookToDebugger := m'; calls := cs; completion := Normal () |},
           fixBreakpoints document0 breakpoints)
      | Throw err =>
          ({| notebookToDebugger := m'; calls := cs; completion := Throw err |}, [])
      end
  | None =>
      ({| notebookToDebugger := m; calls := []; completion := Normal () |},
       fixBreakpoints document0 breakpoints)
  end.

(** ** Runs of an adapter *)

(** One call of [handleMessage]: the cells of the document at that moment,
    the answer the session has for a [dumpCell] request, and the message. *)
Record Handled : Type := mkHandled {
  handled_cells : list NotebookCell;
  handled_reply : Completion string;
  handled_message : ProtocolMessage
}.

Definition handleOne (a : XeusDebugAdapter) (h : Handled) : XeusDebugAdapter :=
  (handleMessage a (handled_cells h) (handled_reply h) (handled_message h)).1.1.

(** The adapter after a sequence of calls of [handleMessage]. *)
Definition handleAll (a : XeusDebugAdapter) (hs : list Handled) : XeusDebugAdapter :=
  fold_left handleOne hs a.

(** What every run keeps: the keys of [cellToFile] are cell addresses, each
    is sent to a file that [fileToCell] knows, and the cells of
    [fileToCell] have their address in [cellToFile]. *)
Definition wellKeyed (a : XeusDebugAdapter) : Prop :=
  (∀ k f, cellToFile a !! k = Some f →
     startsWith "vscode-notebook-cell:" k = true ∧ is_Some (fileToCell a !! f))
  ∧ (∀ f cell, fileToCell a !! f = Some cell → is_Some (cellToFile a !! addressOf cell)).

(** ** The command of the earlier activation code

    [activate] of the second source file registers the command
    'simple-jupyter-notebook.toggleDebugging', which keeps the debugging
    flag on the kernel of the document. *)

(** The command on the active document [activeNotebookDocument] (if any),
    [kernel] being the [isDebugging] flag of the kernel that
    [getDocumentKernel] returns (if any): the flag and the document
    afterwards, and the calls made. *)
Definition toggleDebuggingCommand (activeNotebookDocument : option NotebookDocument)
    (kernel : option bool) : option bool * option NotebookDocument * list HostCall :=
  match activeNotebookDocument with
  | None => (kernel, None, [showErrorMessage "No active notebook document to debug"])
  | Some doc =>
      match kernel with
      | None =>
          (None, Some doc,
           [getDocumentKernel (doc_handle doc);
            showErrorMessage "Kernel appears to have been stopped"])
      | Some isDebugging =>
          let isDebugging' := negb isDebugging in
          (Some isDebugging',
           Some (updateDebuggerUI doc isDebugging'),
           getDocumentKernel (doc_handle doc)
             :: (if isDebugging'
                 then [startDebugging "xeus" "xeus debugging" "attach"
                         (Uri_toString (doc_uri doc))]
                 else [executeCommand "workbench.action.debug.stop"]))
      end
  end.

(** The command invoked [n] times on the same document and kernel. *)
Fixpoint toggleTimes (n : nat) (doc : NotebookDocument) (isDebugging : bool)
  : bool * NotebookDocument :=
  match n with
  | O => (isDebugging, doc)
  | S k =>
      match toggleDebuggingCommand (Some doc) (Some isDebugging) with
      | (Some b, Some doc', _) => toggleTimes k doc' b
      | _ => (isDebugging, doc)
      end
  end.

(** * Properties *)

(** ** Breakpoint repair *)

Section FixBreakpoints.

Implicit Types (cs : list NotebookCell) (map : gmap string Uri) (bps : list Breakpoint).

Lemma forEachCell_other cs : ∀ ix map addr,
  (∀ j cell, cs !! j = Some cell → mismatched cell (ix + j) = true → addressOf cell ≠ addr) →
  forEachCell cs ix map !! addr = map !! addr.
Proof.
  induction cs as [|c rest IH]; intros ix map addr Hne; [done|].
  cbn [forEachCell]. rewrite IH.
  - fold (mismatched c ix). destruct (mismatched c ix) eqn:Hm; [|done].
    apply lookup_insert_ne. apply (Hne 0 c); [done|]. by rewrite Nat.add_0_r.
  - intros j cell Hj Hm. apply (Hne (S j) cell); [done|].
    by rewrite Nat.add_succ_r.
Qed.

Lemma forEachCell_hit cs : ∀ ix map j cell,
  NoDup (addressOf <$> cs) →
  cs !! j = Some cell → mismatched cell (ix + j) = true →
  forEachCell cs ix map !! addressOf cell = Some (fixedUri cell (ix + j)).
Proof.
  induction cs as [|c rest IH]; intros ix map j cell Hnd Hj Hm; [done|].
  rewrite fmap_cons in Hnd. apply NoDup_cons in Hnd as [Hc Hnd].
  destruct j as [|j]; cbn [forEachCell].
  - injection Hj as ->. rewrite Nat.add_0_r in *.
    fold (mismatched cell ix). rewrite Hm.
    rewrite forEachCell_other.
    + apply lookup_insert_eq.
    + intros j c' Hj _ Heq. apply Hc. rewrite <- Heq.
      apply list_elem_of_fmap. exists c'. split; [done|].
      by eapply list_elem_of_lookup_2.
  - rewrite Nat.add_succ_r in *. by apply (IH (S ix)).
Qed.

Lemma forEachCell_inv cs : ∀ ix map addr u,
  forEachCell cs ix map !! addr = Some u →
  map !! addr = Some u
  ∨ ∃ j cell, cs !! j = Some cell ∧ mismatched cell (ix + j) = true
              ∧ addr = addressOf cell ∧ u = fixedUri cell (ix + j).
Proof.
  induction cs as [|c rest IH]; intros ix map addr u H; [by left|].
  cbn [forEachCell] in H. apply IH in H as [H | (j & cell & Hj & Hm & -> & ->)].
  - fold (mismatched c ix) in H. destruct (mismatched c ix) eqn:Hm; [|by left].
    destruct (decide (addressOf c = addr)) as [<-|Hne].
    + unfold addressOf in H. rewrite lookup_insert_eq in H. injection H as <-.
      right. exists 0, c. by rewrite Nat.add_0_r.
    + unfold addressOf in Hne. rewrite lookup_insert_ne in H by done. by left.
  - right. exists (S j), cell. by rewrite Nat.add_succ_r.
Qed.

Lemma scan_removed map bps :
  (scanBreakpoints map bps).1 = List.filter (fun b => bool_decide (is_Some (staleTarget map b))) bps.
Proof.
  induction bps as [|b rest IH]; [done|].
  cbn [scanBreakpoints List.filter].
  destruct (scanBreakpoints map rest) as [rm ad]. cbn [fst] in IH. subst rm.
  destruct b as [loc st|fn st]; cbn [staleTarget].
  - destruct (map !! Uri_toString (uri loc)) as [s|]; cbn; done.
  - done.
Qed.

Lemma scan_added map bps :
  (scanBreakpoints map bps).2 = omap (reanchored map) bps.
Proof.
  induction bps as [|b rest IH]; [done|].
  cbn [scanBreakpoints omap list_omap].
  destruct (scanBreakpoints map rest) as [rm ad]. cbn [snd] in IH. subst ad.
  destruct b as [loc st|fn st]; cbn [reanchored].
  - destruct (map !! Uri_toString (uri loc)) as [s|]; cbn; done.
  - done.
Qed.

Lemma scan_lengths map bps :
  length (scanBreakpoints map bps).1 = length (scanBreakpoints map bps).2.
Proof.
  induction bps as [|b rest IH]; [done|].
  cbn [scanBreakpoints]. destruct (scanBreakpoints map rest) as [rm ad].
  destruct b as [loc st|fn st]; [|done].
  destruct (map !! Uri_toString (uri loc)); cbn in *; lia.
Qed.

Lemma scan_clean map bps :
  Forall (fun b => staleTarget map b = None) bps →
  scanBreakpoints map bps = ([], []).
Proof.
  induction 1 as [|b rest Hb _ IH]; [done|].
  cbn [scanBreakpoints]. rewrite IH.
  destruct b as [loc st|fn st]; [|done].
  cbn in Hb. by rewrite Hb.
Qed.

(** The calls of a repair, from the two lists of the scan. *)
Lemma fixBreakpoints_calls doc bps :
  fixBreakpoints doc bps =
    match (scanBreakpoints (staleMap doc) bps).1 with
    | [] => []
    | _ :: _ => [removeBreakpoints (scanBreakpoints (staleMap doc) bps).1;
                 addBreakpoints (scanBreakpoints (staleMap doc) bps).2]
    end.
Proof.
  unfold fixBreakpoints.
  pose proof (scan_lengths (staleMap doc) bps) as Hlen.
  destruct (0 <? size (staleMap doc))%nat eqn:Hsz.
  - destruct (scanBreakpoints (staleMap doc) bps) as [rm ad]. cbn [fst snd] in *.
    destruct rm, ad; cbn in *; try done; lia.
  - apply Nat.ltb_ge in Hsz. assert (staleMap doc = ∅) as ->.
    { apply map_size_empty_iff. lia. }
    rewrite scan_clean; [done|].
    apply Forall_forall. intros [loc st|fn st] _; [apply lookup_empty|done].
Qed.

End FixBreakpoints.

Example fixBreakpoints_shiftedDoc :
  fixBreakpoints shiftedDoc [bpF; bpB] =
    [removeBreakpoints [bpB];
     addBreakpoints [SourceBreakpoint {| uri := cellUri "00000001"; range := line3 |} defaultState]].
Proof. vm_compute. reflexivity. Qed.

Example fixBreakpoints_gapDoc :
  fixBreakpoints gapDoc [bpF; bpB] =
    [removeBreakpoints [bpB];
     addBreakpoints [SourceBreakpoint {| uri := cellUri "00000001"; range := line3 |} defaultState]].
Proof. vm_compute. reflexivity. Qed.

(** ** Fragments: printing an index and reading it back *)

Section Fragments.

Implicit Types (s : string) (c : ascii) (d : Decimal.uint).

Lemma isDecimalDigit_cases c :
  isDecimalDigit c = true →
  c ∈ ["0"; "1"; "2"; "3"; "4"; "5"; "6"; "7"; "8"; "9"]%char.
Proof.
  destruct c as [[] [] [] [] [] [] [] []]; try discriminate; intros _;
    repeat first [ by left | right ].
Qed.

Lemma parseInt_decimal c s :
  isDecimalDigit c = true → (∀ x r, s = String x r → isDecimalDigit x = true) →
  parseInt (String c s) = parseDigits 10 (String c s) None.
Proof.
  intros Hc Hs. apply isDecimalDigit_cases in Hc.
  assert (Hmul : ∀ o : option Z, Z.mul 1 <$> o = o).
  { intros [z|]; cbn; [|done]. f_equal. by destruct z. }
  repeat (apply elem_of_cons in Hc as [->|Hc]); [..|by apply elem_of_nil in Hc];
    try (unfold parseInt; cbn [skipWhiteSpace isWhiteSpace]; cbn; apply Hmul).
  destruct s as [|x r].
  - unfold parseInt. cbn. done.
  - specialize (Hs x r eq_refl). apply isDecimalDigit_cases in Hs.
    repeat (apply elem_of_cons in Hs as [->|Hs]); [..|by apply elem_of_nil in Hs];
      unfold parseInt; cbn [skipWhiteSpace isWhiteSpace]; cbn; apply Hmul.
Qed.

Lemma parseDigits_uint d : ∀ acc : nat,
  parseDigits 10 (NilEmpty.string_of_uint d) (Some (Z.of_nat acc))
  = Some (Z.of_nat (Nat.of_uint_acc d acc)).
Proof.
  induction d as [|d IH|d IH|d IH|d IH|d IH|d IH|d IH|d IH|d IH|d IH]; intros acc;
    [done|..];
    cbn -[Nat.tail_mul Z.of_nat Z.mul Z.add];
    rewrite <- IH; do 2 f_equal; rewrite Nat.tail_mul_spec;
    match goal with
    | |- context [Z.of_nat (nat_of_ascii ?c)] =>
        let v := eval vm_compute in (Z.of_nat (nat_of_ascii c)) in
        change (Z.of_nat (nat_of_ascii c)) with v
    end; lia.
Qed.

Lemma parseDigits_start d :
  d ≠ Decimal.Nil →
  parseDigits 10 (NilEmpty.string_of_uint d) None
  = parseDigits 10 (NilEmpty.string_of_uint d) (Some 0%Z).
Proof. by destruct d. Qed.

Lemma parseDigits_zeros k s :
  parseDigits 10 (replicate k "0" +:+ s) (Some 0%Z) = parseDigits 10 s (Some 0%Z).
Proof. induction k as [|k IH]; [done|]. cbn. exact IH. Qed.

Lemma string_of_uint_digits d x r :
  NilEmpty.string_of_uint d = String x r → isDecimalDigit x = true.
Proof. destruct d; cbn; intros [= <- _]; done. Qed.

Lemma to_uint_nonNil (n : nat) : Nat.to_uint n ≠ Decimal.Nil.
Proof.
  intros H. pose proof (DecimalNat.Unsigned.of_to n) as Hn. rewrite H in Hn.
  cbn in Hn. subst n. discriminate H.
Qed.

(** The fragment written for index [ix] reads back as [ix]. *)
Lemma parseInt_padStart (k ix : nat) :
  parseInt (padStart k "0" (toString ix)) = Some (Z.of_nat ix).
Proof.
  unfold padStart, toString.
  pose proof (to_uint_nonNil ix) as Hnn.
  pose proof (DecimalNat.Unsigned.of_to ix) as Hof. unfold Nat.of_uint in Hof.
  set (d := Nat.to_uint ix) in *.
  assert (Hval : parseDigits 10 (NilEmpty.string_of_uint d) (Some 0%Z) = Some (Z.of_nat ix)).
  { etrans; [apply (parseDigits_uint d 0)|]. by rewrite Hof. }
  destruct (k - String.length (NilEmpty.string_of_uint d))%nat as [|z].
  - change (parseInt (NilEmpty.string_of_uint d) = Some (Z.of_nat ix)).
    destruct (NilEmpty.string_of_uint d) as [|c s] eqn:Hs; [by destruct d|].
    rewrite parseInt_decimal.
    + rewrite <- Hs in Hval |- *. rewrite parseDigits_start by done. exact Hval.
    + by eapply string_of_uint_digits.
    + intros x r ->. destruct d; try done; cbn in Hs; injection Hs as _ Hs;
        by eapply string_of_uint_digits.
  - change (parseInt (String "0" (replicate z "0" +:+ NilEmpty.string_of_uint d))
            = Some (Z.of_nat ix)).
    rewrite parseInt_decimal.
    + change (parseDigits 10 (replicate z "0" +:+ NilEmpty.string_of_uint d) (Some 0%Z)
              = Some (Z.of_nat ix)).
      rewrite parseDigits_zeros. exact Hval.
    + done.
    + intros x r Hx. destruct z; simpl in Hx.
      * by eapply string_of_uint_digits.
      * by injection Hx as <- _.
Qed.

Lemma length_append (s1 s2 : string) :
  String.length (s1 +:+ s2) = (String.length s1 + String.length s2)%nat.
Proof. induction s1 as [|x s1 IH]; simpl; [done|]. by rewrite IH. Qed.

Lemma length_replicate (k : nat) (c : ascii) : String.length (replicate k c) = k.
Proof. induction k as [|k IH]; simpl; [done|]. by rewrite IH. Qed.

Lemma length_string_of_uint d :
  String.length (NilEmpty.string_of_uint d) = Decimal.nb_digits d.
Proof. induction d; simpl; congruence. Qed.

Lemma of_uint_acc_split d : ∀ acc : nat,
  Nat.of_uint_acc d acc = (acc * 10 ^ Decimal.nb_digits d + Nat.of_uint_acc d 0)%nat.
Proof.
  induction d as [|d IH|d IH|d IH|d IH|d IH|d IH|d IH|d IH|d IH|d IH]; intros acc;
    [cbn; lia|..];
    cbn [Nat.of_uint_acc Decimal.nb_digits];
    match goal with
    | |- Nat.of_uint_acc d ?x = (_ + Nat.of_uint_acc d ?y)%nat => rewrite (IH x), (IH y)
    end;
    rewrite !Nat.tail_mul_spec, Nat.pow_succ_r'; lia.
Qed.

(** The digits of a number have no leading zero, except for ["0"] itself. *)
Lemma to_uint_head (n : nat) d : Nat.to_uint n = Decimal.D0 d → d = Decimal.Nil.
Proof.
  intros H.
  pose proof (DecimalNat.Unsigned.to_of (Nat.to_uint n)) as Hn.
  rewrite DecimalNat.Unsigned.of_to, H in Hn.
  destruct d; [done|..]; exfalso;
    pose proof (DecimalFacts.nb_digits_nzhead (Decimal.D0 d)) as Hle;
    unfold Decimal.unorm in Hn; cbn [Decimal.nzhead] in Hn, Hle;
    match type of Hn with
    | _ = match ?h with _ => _ end =>
        destruct h eqn:Hh; try discriminate Hn;
        apply (f_equal Decimal.nb_digits) in Hn; cbn in Hn, Hle; lia
    | _ => apply (f_equal Decimal.nb_digits) in Hn; cbn in Hn; lia
    end.
Qed.

Lemma toString_length (n k : nat) :
  (0 < k)%nat → (n < 10 ^ k)%nat → (String.length (toString n) <= k)%nat.
Proof.
  intros Hk Hn. unfold toString. rewrite length_string_of_uint.
  pose proof (DecimalNat.Unsigned.of_to n) as Hof. unfold Nat.of_uint in Hof.
  pose proof (to_uint_head n) as Hhead.
  destruct (Nat.to_uint n) as [|d|d|d|d|d|d|d|d|d|d] eqn:Hd;
    [cbn; lia| rewrite (Hhead d eq_refl); cbn; lia |..];
    cbn [Nat.of_uint_acc Decimal.nb_digits] in *;
    rewrite of_uint_acc_split, Nat.tail_mul_spec in Hof;
    destruct (Nat.le_gt_cases (S (Decimal.nb_digits d)) k) as [|Hgt]; try done;
    exfalso;
    assert (10 ^ k <= 10 ^ Decimal.nb_digits d)%nat by (apply Nat.pow_le_mono_r; lia);
    nia.
Qed.

(** Up to index 99999999 the corrected fragment has exactly 8 digits. *)
Lemma padStart_width (ix : nat) :
  (ix < 10 ^ 8)%nat → String.length (padStart 8 "0" (toString ix)) = 8%nat.
Proof.
  intros Hix. unfold padStart. rewrite length_append, length_replicate.
  pose proof (toString_length ix 8) as Hlen.
  assert (String.length (toString ix) <= 8)%nat by (apply Hlen; [lia|done]). lia.
Qed.

(** A cell that carries the corrected address at its index is in place. *)
Lemma fixedUri_in_place cell ix :
  mismatched {| handle := handle cell; cell_uri := fixedUri cell ix;
                cellKind := cellKind cell; text := text cell;
                breakpointMargin := breakpointMargin cell |} ix = false.
Proof.
  unfold mismatched, fixedUri. cbn. rewrite parseInt_padStart. cbn.
  by rewrite Z.eqb_refl.
Qed.

End Fragments.

(** C8: for a document whose cells have distinct addresses, [fixBreakpoints]
    maps the address of every cell whose fragment is not its index to the
    same URI with the fragment replaced by the index padded with zeros to
    8 digits (a fragment that reads back as the index, and has exactly 8
    digits up to index 99999999), and maps nothing else; every stored
    source breakpoint at a
    stale address is removed and a breakpoint at the corrected address with
    the same range is added; and the calls are at most one
    [removeBreakpoints] with all removals followed by one [addBreakpoints]
    with all additions. *)
Theorem fixBreakpoints_reanchors (doc : NotebookDocument) (store : list Breakpoint) :
  NoDup (addressOf <$> cells doc) →
  let map := staleMap doc in
  let removeBpt := (scanBreakpoints map store).1 in
  let addBpts := (scanBreakpoints map store).2 in
  (∀ ix cell, cells doc !! ix = Some cell → mismatched cell ix = true →
     map !! addressOf cell
     = Some (Uri_with_fragment (cell_uri cell) (padStart 8 "0" (toString ix))))
  ∧ (∀ ix, parseInt (padStart 8 "0" (toString ix)) = Some (Z.of_nat ix)
           ∧ ((ix < 10 ^ 8)%nat → String.length (padStart 8 "0" (toString ix)) = 8%nat))
  ∧ (∀ addr u, map !! addr = Some u →
       ∃ ix cell, cells doc !! ix = Some cell ∧ mismatched cell ix = true
                  ∧ addr = addressOf cell
                  ∧ u = Uri_with_fragment (cell_uri cell) (padStart 8 "0" (toString ix)))
  ∧ (∀ loc st u, SourceBreakpoint loc st ∈ store →
       map !! Uri_toString (uri loc) = Some u →
       SourceBreakpoint loc st ∈ removeBpt
       ∧ new_SourceBreakpoint {| uri := u; range := range loc |} ∈ addBpts)
  ∧ (∀ b, b ∈ removeBpt ↔ b ∈ store ∧ is_Some (staleTarget map b))
  ∧ addBpts = omap (reanchored map) removeBpt
  ∧ fixBreakpoints doc store =
      match removeBpt with
      | [] => []
      | _ :: _ => [removeBreakpoints removeBpt; addBreakpoints addBpts]
      end.
Proof.
  intros Hnd map removeBpt addBpts. subst map removeBpt addBpts.
  split; [|split; [|split; [|split; [|split; [|split]]]]].
  - intros ix cell Hix Hm. apply (forEachCell_hit _ 0 ∅ ix cell Hnd Hix Hm).
  - intros ix. split; [apply parseInt_padStart|apply padStart_width].
  - intros addr u H. apply forEachCell_inv in H as [H|H]; [|done].
    by rewrite lookup_empty in H.
  - intros loc st u Hin Hu. split.
    + rewrite scan_removed. apply list_elem_of_In, filter_In.
      split; [by apply list_elem_of_In|]. apply bool_decide_eq_true. cbn. by eexists.
    + rewrite scan_added. apply list_elem_of_omap. eexists. split; [done|].
      cbn. by rewrite Hu.
  - intros b. rewrite scan_removed.
    by rewrite list_elem_of_In, filter_In, bool_decide_eq_true, <- list_elem_of_In.
  - rewrite scan_added, scan_removed.
    induction store as [|b rest IH]; [done|].
    cbn [omap list_omap List.filter].
    destruct (reanchored (staleMap doc) b) as [b'|] eqn:Hr.
    + assert (Hs : is_Some (staleTarget (staleMap doc) b)).
      { destruct b as [loc st|]; [|done]. cbn in *.
        destruct (staleMap doc !! Uri_toString (uri loc)); [by eexists|done]. }
      rewrite (bool_decide_eq_true_2 _ Hs). cbn [omap list_omap]. rewrite Hr.
      f_equal. apply IH.
    + assert (Hs : ¬ is_Some (staleTarget (staleMap doc) b)).
      { destruct b as [loc st|]; [|by intros [? ?]]. cbn in *.
        destruct (staleMap doc !! Uri_toString (uri loc)); [done|by intros [? ?]]. }
      rewrite (bool_decide_eq_false_2 _ Hs). apply IH.
  - apply fixBreakpoints_calls.
Qed.

Lemma fixBreakpoints_reanchors_witness :
  NoDup (addressOf <$> cells shiftedDoc)
  ∧ staleMap shiftedDoc !! addressOf cellB = Some (cellUri "00000001")
  ∧ fixBreakpoints shiftedDoc [bpF; bpB] =
      [removeBreakpoints [bpB];
       addBreakpoints [new_SourceBreakpoint {| uri := cellUri "00000001"; range := line3 |}]].
Proof.
  assert (Hnd : NoDup (addressOf <$> cells shiftedDoc)).
  { apply (bool_decide_unpack _). vm_compute. exact I. }
  destruct (fixBreakpoints_reanchors shiftedDoc [bpF; bpB] Hnd)
    as (H1 & _ & _ & _ & _ & _ & H6).
  split; [exact Hnd|]. split.
  - apply (H1 1 cellB); vm_compute; reflexivity.
  - rewrite H6. vm_compute. reflexivity.
Defined.



Example reanchored_breakpoint_is_fresh :
  hostRun (fixBreakpoints shiftedDoc [bpF; bpB]) [bpF; bpB]
  = [bpF; SourceBreakpoint {| uri := cellUri "00000001"; range := line3 |}
            {| enabled := true; condition := None; hitCondition := None;
               logMessage := None |}].
Proof. vm_compute. reflexivity. Qed.

(** After a repair, the store the host is left with. *)
Lemma hostRun_fixBreakpoints doc store :
  Forall (fun b => staleTarget (staleMap doc) b = None
                   ∨ b ∈ (scanBreakpoints (staleMap doc) store).2)
    (hostRun (fixBreakpoints doc store) store).
Proof.
  rewrite fixBreakpoints_calls.
  destruct (scanBreakpoints (staleMap doc) store).1 as [|b0 rm] eqn:E.
  - cbn. apply Forall_forall. intros b Hb. left.
    destruct (staleTarget (staleMap doc) b) as [u|] eqn:Hu; [|done].
    assert (b ∈ (scanBreakpoints (staleMap doc) store).1) as Hin.
    { rewrite scan_removed. apply list_elem_of_In, filter_In.
      split; [by apply list_elem_of_In|]. apply bool_decide_eq_true. by eexists. }
    rewrite E in Hin. by apply not_elem_of_nil in Hin.
  - rewrite <- E. clear E. cbn [hostRun fold_left hostApply].
    apply Forall_app. split.
    + apply Forall_forall. intros b [Hnot Hb]%list_elem_of_filter. left.
      destruct (staleTarget (staleMap doc) b) as [u|] eqn:Hu; [|done].
      destruct Hnot. rewrite scan_removed. apply list_elem_of_In, filter_In.
      split; [by apply list_elem_of_In|]. apply bool_decide_eq_true. by eexists.
    + apply Forall_forall. intros b Hb. by right.
Qed.

(** C4, as the code has it: [fixBreakpoints] only reads the document, so a
    second run meets the same stale addresses; it makes no call when no
    corrected address is itself a stale address. *)
Theorem fixBreakpoints_second_run (doc : NotebookDocument) (store : list Breakpoint) :
  (∀ addr u, staleMap doc !! addr = Some u → staleMap doc !! Uri_toString u = None) →
  fixBreakpoints doc (hostRun (fixBreakpoints doc store) store) = [].
Proof.
  intros Hstable. rewrite (fixBreakpoints_calls doc (hostRun _ _)).
  rewrite scan_clean; [done|].
  eapply Forall_impl; [apply hostRun_fixBreakpoints|].
  intros b [Hb|Hb]; [done|].
  rewrite scan_added in Hb. apply list_elem_of_omap in Hb as (b0 & _ & Hb).
  destruct b0 as [loc st|]; [|done]. cbn in Hb.
  destruct (staleMap doc !! Uri_toString (uri loc)) as [s|] eqn:Hs; [|done].
  injection Hb as <-. cbn. by eapply Hstable.
Qed.

Lemma fixBreakpoints_second_run_witness :
  fixBreakpoints gapDoc (hostRun (fixBreakpoints gapDoc [bpF; bpB]) [bpF; bpB]) = [].
Proof.
  apply (fixBreakpoints_second_run gapDoc [bpF; bpB]).
  intros addr u H.
  apply forEachCell_inv in H as [H|(j & cell & Hj & Hm & -> & ->)].
  - by rewrite lookup_empty in H.
  - destruct j as [|[|j]]; [| |done].
    + injection Hj as <-. vm_compute in Hm. discriminate Hm.
    + injection Hj as <-. vm_compute. reflexivity.
Defined.

(** C4, refuted as stated: after the first cell of a notebook was deleted,
    the cells still carry fragments 1 and 2 after a repair, and a second
    repair moves the repaired breakpoint once more, to fragment 0. *)
Lemma fixBreakpoints_not_idempotent :
  mismatched cellA 0 = true
  ∧ fixBreakpoints shiftedDoc (hostRun (fixBreakpoints shiftedDoc [bpB]) [bpB])
    = [removeBreakpoints [new_SourceBreakpoint {| uri := cellUri "00000001"; range := line3 |}];
       addBreakpoints [new_SourceBreakpoint {| uri := cellUri "00000000"; range := line3 |}]]
  ∧ fixBreakpoints shiftedDoc (hostRun (fixBreakpoints shiftedDoc [bpB]) [bpB]) ≠ [].
Proof.
  split; [vm_compute; reflexivity|]. split; [vm_compute; reflexivity|].
  vm_compute. discriminate.
Qed.

(** ** Session start and the document -> debugger map *)

Section Toggle.

Implicit Types (m : DebuggerMap) (doc : NotebookDocument).

Lemma Map_get_set m k dbg : Map_get (Map_set m k dbg) k = Some dbg.
Proof.
  induction m as [|[k' d] rest IH]; cbn.
  - by rewrite Nat.eqb_refl.
  - destruct (Nat.eqb k' k) eqn:E; cbn; rewrite E; [done|exact IH].
Qed.

Lemma Map_get_set_ne m k k' dbg :
  k ≠ k' → Map_get (Map_set m k dbg) k' = Map_get m k'.
Proof.
  intros Hne. induction m as [|[k0 d] rest IH]; cbn.
  - by apply Nat.eqb_neq in Hne as ->.
  - destruct (Nat.eqb k0 k) eqn:E; cbn.
    + apply Nat.eqb_eq in E as ->. by apply Nat.eqb_neq in Hne as ->.
    + destruct (Nat.eqb k0 k'); [done|exact IH].
Qed.

Lemma Map_get_delete m k : NoDup m.*1 → Map_get (Map_delete m k) k = None.
Proof.
  induction m as [|[k' d] rest IH]; intros Hnd; [done|].
  cbn in Hnd. apply NoDup_cons in Hnd as [Hk Hnd]. cbn.
  destruct (Nat.eqb k' k) eqn:E; cbn.
  - apply Nat.eqb_eq in E as ->.
    clear IH Hnd. induction rest as [|[k0 d0] rest IH]; [done|].
    cbn in *. destruct (Nat.eqb k0 k) eqn:E0.
    + apply Nat.eqb_eq in E0 as ->. destruct Hk. by left.
    + apply IH. intros H. apply Hk. by right.
  - rewrite E. by apply IH.
Qed.

(** A start that fails leaves the document registered, with a rejected
    session; the invocation itself completes normally, having shown the
    error and disabled the margin. *)
Lemma toggleDebugging_start_rejected m doc active err :
  Map_get m (doc_handle doc) = None →
  let out := toggleDebugging m doc active (Throw err) in
  Map_get (notebookToDebugger out) (doc_handle doc)
  = Some {| document := doc_handle doc; session := Rejected err |}
  ∧ completion out = Normal ()
  ∧ calls out =
      [startDebugging "xeus" (basename (fileName doc)) "attach" (Uri_toString (doc_uri doc));
       getDocumentKernel (doc_handle doc);
       showErrorMessage ("Can't start debugging (" +:+ err +:+ ")");
       updateUI (doc_handle doc) false].
Proof.
  intros Hnone. unfold toggleDebugging. rewrite Hnone. cbn.
  by rewrite Map_get_set.
Qed.

(** With the rejected session still registered, the next invocation for
    the same document takes the stop branch and throws: no new session is
    requested. *)
Lemma toggleDebugging_after_rejected m doc active host err :
  Map_get m (doc_handle doc) = Some {| document := doc_handle doc; session := Rejected err |} →
  let out := toggleDebugging m doc active host in
  completion out = Throw err ∧ calls out = []
  ∧ Map_get (notebookToDebugger out) (doc_handle doc)
    = Some {| document := doc_handle doc; session := Rejected err |}.
Proof.
  intros Hget. unfold toggleDebugging. rewrite Hget. cbn.
  by rewrite Map_get_set.
Qed.

(** The sibling path: when the host reports the end of a session, the
    entry of its document is deleted together with the margin update. *)
Lemma onDidTerminate_deletes (d : nat) dbg rest s host :
  session dbg = Fulfilled s →
  NoDup ((d, dbg) :: rest).*1 →
  let out := onDidTerminateDebugSession ((d, dbg) :: rest) s host in
  Map_get (notebookToDebugger out) d = None
  ∧ calls out = [updateUI d false]
  ∧ completion out = Normal ().
Proof.
  intros Hs Hnd. unfold onDidTerminateDebugSession. cbn [terminateScan].
  rewrite Hs. cbn [await]. rewrite Nat.eqb_refl. cbn [notebookToDebugger calls completion].
  split; [|done]. by apply Map_get_delete.
Qed.

End Toggle.

(** C1, evaluated on the code: no session is registered for the document,
    the host rejects the start; after the invocation has completed the map
    still holds an entry for the document, whose session is rejected, and
    toggling once more throws instead of starting a session. *)
Theorem toggleDebugging_failed_start_stays_registered :
  Map_get [] (doc_handle gapDoc) = None
  ∧ completion (toggleDebugging [] gapDoc None (Throw "Error: Kernel appears to have been stopped"))
    = Normal ()
  ∧ notebookToDebugger
      (toggleDebugging [] gapDoc None (Throw "Error: Kernel appears to have been stopped"))
    = [(2, {| document := 2;
              session := Rejected "Error: Kernel appears to have been stopped" |})]
  ∧ completion
      (toggleDebugging
         (notebookToDebugger
            (toggleDebugging [] gapDoc None (Throw "Error: Kernel appears to have been stopped")))
         gapDoc None (Normal 7))
    = Throw "Error: Kernel appears to have been stopped".
Proof. vm_compute. repeat split. Qed.

(** ** The source visitor *)

Section Visitor.

Implicit Types (msg : ProtocolMessage) (hook : Hook).

Ltac rows :=
  cbn [sourceTable lookupRow];
  repeat case_decide; simplify_eq; try (vm_compute; reflexivity);
  repeat match goal with
         | |- context [String.eqb ?a ?b] =>
             destruct (String.eqb_spec a b) as [->|?]; [congruence|]
         end;
  done.

Lemma lookupRow_event ev :
  lookupRow sourceTable (event_kind, ev) =
    if String.eqb ev "output" then Some body_source
    else if String.eqb ev "loadedSource" then Some body_source
    else if String.eqb ev "breakpoint" then Some body_breakpoint_source
    else None.
Proof. unfold sourceTable. rows. Qed.

Lemma lookupRow_request cmd :
  lookupRow sourceTable (request_kind, cmd) =
    if String.eqb cmd "setBreakpoints" then Some arguments_source
    else if String.eqb cmd "breakpointLocations" then Some arguments_source
    else if String.eqb cmd "source" then Some arguments_source
    else if String.eqb cmd "gotoTargets" then Some arguments_source
    else None.
Proof. unfold sourceTable. rows. Qed.

Lemma lookupRow_response cmd :
  lookupRow sourceTable (response_success_kind, cmd) =
    if String.eqb cmd "stackTrace" then Some each_stackFrames_source
    else if String.eqb cmd "loadedSources" then Some each_sources
    else if String.eqb cmd "scopes" then Some each_scopes_source
    else if String.eqb cmd "setFunctionBreakpoints" then Some each_breakpoints_source
    else if String.eqb cmd "setBreakpoints" then Some each_breakpoints_source
    else None.
Proof. unfold sourceTable. rows. Qed.

(** The nested switches agree with the table. *)
Lemma visitSources_by_table msg hook : visitSources msg hook = visitByTable msg hook.
Proof.
  unfold visitSources, visitByTable, tableRow, kindOf.
  destruct (String.eqb_spec (type msg) "event") as [Ht|Hne1].
  { rewrite decide_True by done.
    destruct (event msg) as [ev|]; [|done]. cbn [fmap option_fmap option_map mbind option_bind].
    rewrite lookupRow_event.
    repeat (destruct (String.eqb ev _); [done|]). done. }
  rewrite decide_False by done.
  destruct (String.eqb_spec (type msg) "request") as [Ht|Hne2].
  { rewrite decide_True by done.
    destruct (command msg) as [cmd|]; [|done]. cbn [fmap option_fmap option_map mbind option_bind].
    rewrite lookupRow_request.
    repeat (destruct (String.eqb cmd _); [done|]). done. }
  rewrite decide_False by done.
  destruct (String.eqb_spec (type msg) "response") as [Ht|Hne3].
  { rewrite decide_True by done.
    destruct (success msg) as [[|]|]; [|done|done].
    destruct (body msg) as [b|] eqn:Hb; [|done].
    destruct (command msg) as [cmd|]; [|done]. cbn [fmap option_fmap option_map mbind option_bind].
    rewrite lookupRow_response.
    repeat (destruct (String.eqb cmd _); [cbn [walk]; by rewrite Hb|]). done. }
  by rewrite decide_False by done.
Qed.

Ltac open_walk :=
  unfold walk, rebuild, visit_source, visit_breakpoint_source, visit_each, visit_sources;
  cbn;
  repeat match goal with
         | |- context [match ?o with Some _ => _ | None => _ end] =>
             match type of o with
             | option Payload => destruct o as [[src bp fr ss scs bps ms]|]
             | option _ => destruct o
             end; cbn
         end;
  first [ discriminate | intros [= <- <-] ].

(** Walking with a hook that writes nothing gives the message back. *)
Lemma map_set_get {A} (get : A → option Source) (set : A → option Source → A) (xs : list A) :
  (∀ x, set x (get x) = x) →
  map (fun x => set x ((fun s : Source => s) <$> get x)) xs = xs.
Proof.
  intros Hsg. induction xs as [|x xs IH]; [done|]. cbn [map]. rewrite IH. f_equal.
  destruct (get x) eqn:E; cbn; rewrite <- E; apply Hsg.
Qed.

Lemma walk_identity acc msg log msg' :
  walk acc msg (fun s => s) = Normal (log, msg') → msg' = msg.
Proof.
  destruct msg as [sq ty cmd ev args bd suc rs].
  destruct acc; open_walk;
    unfold set_body, set_arguments, set_source, set_breakpoint, set_stackFrames,
      set_sources, set_scopes, set_breakpoints; cbn;
    repeat f_equal.
  all: try (by match goal with |- _ <$> ?o = ?o => destruct o end).
  all: try (by apply map_set_get; intros []).
  all: try (by apply map_id).
  by destruct d as [v [s|] ln].
Qed.

Lemma touchedBy_refl hook (l : list Source) : Forall2 (touchedBy hook) l l.
Proof. induction l; constructor; [by left|done]. Qed.

Lemma touchedBy_optList hook (o : option Source) :
  Forall2 (touchedBy hook) (optList o) (optList (hook <$> o)).
Proof. destruct o; cbn; [constructor; [by right|constructor]|constructor]. Qed.

Lemma touchedBy_map hook (xs : list Source) : Forall2 (touchedBy hook) xs (map hook xs).
Proof. induction xs; cbn; constructor; [by right|done]. Qed.

Lemma touchedBy_omap {A} hook (get : A → option Source) (set : A → option Source → A)
    (xs : list A) :
  (∀ x o, get (set x o) = o) →
  Forall2 (touchedBy hook) (omap get xs)
    (omap get (map (fun x => set x (hook <$> get x)) xs)).
Proof.
  intros Hgs. induction xs as [|x xs IH]; [constructor|].
  cbn [map omap list_omap]. rewrite Hgs.
  destruct (get x); cbn; [constructor; [by right|done]|done].
Qed.

Lemma walk_pointwise acc msg hook log msg' :
  walk acc msg hook = Normal (log, msg') →
  Forall2 (touchedBy hook) (allSources msg) (allSources msg').
Proof.
  destruct msg as [sq ty cmd ev args bd suc rs].
  destruct acc; open_walk;
    unfold allSources; cbn;
    repeat (apply Forall2_app);
    first [ apply touchedBy_refl | apply touchedBy_optList | apply touchedBy_map
          | by apply touchedBy_omap ].
Qed.

Lemma visitSources_pointwise msg hook log msg' :
  visitSources msg hook = Normal (log, msg') →
  Forall2 (touchedBy hook) (allSources msg) (allSources msg').
Proof.
  rewrite visitSources_by_table. unfold visitByTable.
  destruct (tableRow msg) as [acc|].
  - apply walk_pointwise.
  - intros [= <- <-]. apply touchedBy_refl.
Qed.

Lemma visitSources_identity msg log msg' :
  visitSources msg (fun s => s) = Normal (log, msg') → msg' = msg.
Proof.
  rewrite visitSources_by_table. unfold visitByTable.
  destruct (tableRow msg) as [acc|].
  - apply walk_identity.
  - by intros [= <- <-].
Qed.

(** What the walk of a row does, on the members of the message. *)
Lemma walk_located acc msg hook l :
  located acc msg = Some l →
  walk acc msg hook = Normal (l, rewritten acc hook msg)
  ∧ located acc (rewritten acc hook msg)
    = Some (map (fun o : option Source => hook <$> o) l).
Proof.
  destruct msg as [sq ty cmd ev args bd suc rs].
  destruct acc; unfold located, rewritten, walk, rebuild, visit_source,
    visit_breakpoint_source, visit_each, visit_sources; cbn;
    repeat match goal with
           | |- context [match ?o with Some _ => _ | None => _ end] =>
               match type of o with
               | option Payload => destruct o as [[src bp fr ss scs bps ms]|]
               | option _ => destruct o
               end; cbn
           end;
    first [ discriminate | intros [= <-] ]; cbn;
    (split; [reflexivity|]); f_equal;
    rewrite <- ?list_fmap_compose; try reflexivity;
    change (map ?f ?x) with (f <$> x); rewrite <- ?list_fmap_compose; reflexivity.
Qed.

Lemma walk_missing acc msg hook :
  located acc msg = None → walk acc msg hook = Throw TypeError.
Proof.
  destruct msg as [sq ty cmd ev args bd suc rs].
  destruct acc; unfold located, walk, rebuild, visit_source,
    visit_breakpoint_source, visit_each, visit_sources; cbn;
    repeat match goal with
           | |- context [match ?o with Some _ => _ | None => _ end] =>
               match type of o with
               | option Payload => destruct o as [[src bp fr ss scs bps ms]|]
               | option _ => destruct o
               end; cbn
           end; done.
Qed.

Lemma visitSources_located msg hook acc l :
  tableRow msg = Some acc → located acc msg = Some l →
  visitSources msg hook = Normal (l, rewritten acc hook msg).
Proof.
  intros Hrow Hl. rewrite visitSources_by_table. unfold visitByTable. rewrite Hrow.
  by apply walk_located.
Qed.

Lemma visitSources_missing msg hook acc :
  tableRow msg = Some acc → located acc msg = None →
  visitSources msg hook = Throw TypeError.
Proof.
  intros Hrow Hl. rewrite visitSources_by_table. unfold visitByTable. rewrite Hrow.
  by apply walk_missing.
Qed.

Lemma present_located acc msg : present acc msg = bool_decide (is_Some (located acc msg)).
Proof.
  destruct acc; unfold present, located; destruct (body msg) as [b|]; cbn;
    try destruct (arguments msg); cbn;
    repeat match goal with
           | |- context [match ?o with Some _ => _ | None => _ end] => destruct o; cbn
           end;
    first [ reflexivity | apply bool_decide_ext; split; intros [x Hx]; by eauto ].
Qed.

Lemma visitSources_throws msg hook :
  conforms msg = false → visitSources msg hook = Throw TypeError.
Proof.
  unfold conforms. destruct (tableRow msg) as [acc|] eqn:Hrow; [|done].
  rewrite present_located. intros Hp%bool_decide_eq_false.
  apply (visitSources_missing msg hook acc Hrow).
  destruct (located acc msg); [|done]. by destruct Hp.
Qed.

(** The rows, one kind at a time. *)
Lemma tableRow_event msg ev :
  type msg = "event" → event msg = Some ev →
  tableRow msg = lookupRow sourceTable (event_kind, ev).
Proof. intros Ht He. unfold tableRow, kindOf. by rewrite Ht, He. Qed.

Lemma tableRow_request msg cmd :
  type msg = "request" → command msg = Some cmd →
  tableRow msg = lookupRow sourceTable (request_kind, cmd).
Proof. intros Ht Hc. unfold tableRow, kindOf. by rewrite Ht, Hc. Qed.

Lemma tableRow_response msg cmd b :
  type msg = "response" → success msg = Some true → body msg = Some b →
  command msg = Some cmd →
  tableRow msg = lookupRow sourceTable (response_success_kind, cmd).
Proof. intros Ht Hs Hb Hc. unfold tableRow, kindOf. by rewrite Ht, Hs, Hb, Hc. Qed.

End Visitor.

(** C9: the hook is invoked on the source locations that the table lists
    for the kind and sub-kind of the message, in order, and on nothing
    else. Row by row: on [body.source] of an [output] or [loadedSource]
    event, on [body.breakpoint.source] of a [breakpoint] event, on
    [arguments.source] of a [setBreakpoints], [breakpointLocations],
    [source] or [gotoTargets] request, and, for a response that succeeded
    and has a body, on the source of each stack frame of [stackTrace], on
    each source of [loadedSources], on the source of each scope of [scopes]
    and on the source of each breakpoint of [setFunctionBreakpoints] and
    [setBreakpoints]; the message returned has the hook's result at those
    places and is otherwise the message given. In general the calls are
    the sources that the row of the message locates and the message
    returned carries the hook's results there; when the member that holds
    them is missing, reading it throws a TypeError before any hook call; a
    hook that writes nothing gives the message back; the switches agree
    with the walk by the table; a message whose kind and sub-kind have no
    row, and a response that did not succeed, are returned as they are with
    no hook call. *)
Theorem visitSources_closed_table (msg : ProtocolMessage) (hook : Hook) :
  (∀ ev b, type msg = "event" → event msg = Some ev →
     ev ∈ ["output"; "loadedSource"] → body msg = Some b →
     visitSources msg hook
     = Normal ([source b], set_body msg (Some (set_source b (hook <$> source b)))))
  ∧ (∀ b bp, type msg = "event" → event msg = Some "breakpoint" →
       body msg = Some b → breakpoint b = Some bp →
       visitSources msg hook
       = Normal ([bp_source bp],
                 set_body msg
                   (Some (set_breakpoint b
                            (Some (set_bp_source bp (hook <$> bp_source bp)))))))
  ∧ (∀ cmd args, type msg = "request" → command msg = Some cmd →
       cmd ∈ ["setBreakpoints"; "breakpointLocations"; "source"; "gotoTargets"] →
       arguments msg = Some args →
       visitSources msg hook
       = Normal ([source args],
                 set_arguments msg (Some (set_source args (hook <$> source args)))))
  ∧ (∀ b frames, type msg = "response" → success msg = Some true → body msg = Some b →
       command msg = Some "stackTrace" → stackFrames b = Some frames →
       visitSources msg hook
       = Normal (frame_source <$> frames,
                 set_body msg
                   (Some (set_stackFrames b
                            (Some ((fun f => set_frame_source f (hook <$> frame_source f))
                                     <$> frames))))))
  ∧ (∀ b ss, type msg = "response" → success msg = Some true → body msg = Some b →
       command msg = Some "loadedSources" → sources b = Some ss →
       visitSources msg hook
       = Normal (Some <$> ss, set_body msg (Some (set_sources b (Some (hook <$> ss))))))
  ∧ (∀ b scs, type msg = "response" → success msg = Some true → body msg = Some b →
       command msg = Some "scopes" → scopes b = Some scs →
       visitSources msg hook
       = Normal (scope_source <$> scs,
                 set_body msg
                   (Some (set_scopes b
                            (Some ((fun sc => set_scope_source sc (hook <$> scope_source sc))
                                     <$> scs))))))
  ∧ (∀ cmd b bps, type msg = "response" → success msg = Some true → body msg = Some b →
       command msg = Some cmd → cmd ∈ ["setFunctionBreakpoints"; "setBreakpoints"] →
       breakpoints b = Some bps →
       visitSources msg hook
       = Normal (bp_source <$> bps,
                 set_body msg
                   (Some (set_breakpoints b
                            (Some ((fun bp => set_bp_source bp (hook <$> bp_source bp))
                                     <$> bps))))))
  ∧ (∀ acc l, tableRow msg = Some acc → located acc msg = Some l →
       visitSources msg hook = Normal (l, rewritten acc hook msg)
       ∧ located acc (rewritten acc hook msg)
         = Some (map (fun o : option Source => hook <$> o) l))
  ∧ (∀ acc, tableRow msg = Some acc → located acc msg = None →
       visitSources msg hook = Throw TypeError)
  ∧ visitSources msg hook = visitByTable msg hook
  ∧ (∀ log msg', visitSources msg (fun s => s) = Normal (log, msg') → msg' = msg)
  ∧ (tableRow msg = None → visitSources msg hook = Normal ([], msg))
  ∧ (type msg = "response" → success msg ≠ Some true →
     visitSources msg hook = Normal ([], msg)).
Proof.
  split; [|split; [|split; [|split; [|split; [|split; [|split; [|split; [|split]]]]]]]].
  - intros ev b Ht He Hin Hb.
    assert (Hrow : tableRow msg = Some body_source).
    { rewrite (tableRow_event msg ev Ht He).
      repeat (apply elem_of_cons in Hin as [->|Hin]); [done..|by apply elem_of_nil in Hin]. }
    rewrite (visitSources_located msg hook body_source [source b] Hrow);
      unfold located, rewritten; by rewrite Hb.
  - intros b bp Ht He Hb Hbp.
    rewrite (visitSources_located msg hook body_breakpoint_source [bp_source bp]);
      [|by rewrite (tableRow_event msg "breakpoint" Ht He)|];
      unfold located, rewritten; by rewrite Hb, Hbp.
  - intros cmd args Ht Hc Hin Hargs.
    assert (Hrow : tableRow msg = Some arguments_source).
    { rewrite (tableRow_request msg cmd Ht Hc).
      repeat (apply elem_of_cons in Hin as [->|Hin]); [done..|by apply elem_of_nil in Hin]. }
    rewrite (visitSources_located msg hook arguments_source [source args] Hrow);
      unfold located, rewritten; by rewrite Hargs.
  - intros b frames Ht Hs Hb Hc Hfr.
    rewrite (visitSources_located msg hook each_stackFrames_source (frame_source <$> frames));
      [|by rewrite (tableRow_response msg "stackTrace" b Ht Hs Hb Hc)|];
      unfold located, rewritten; by rewrite Hb, Hfr.
  - intros b ss Ht Hs Hb Hc Hss.
    rewrite (visitSources_located msg hook each_sources (Some <$> ss));
      [|by rewrite (tableRow_response msg "loadedSources" b Ht Hs Hb Hc)|];
      unfold located, rewritten; by rewrite Hb, Hss.
  - intros b scs Ht Hs Hb Hc Hscs.
    rewrite (visitSources_located msg hook each_scopes_source (scope_source <$> scs));
      [|by rewrite (tableRow_response msg "scopes" b Ht Hs Hb Hc)|];
      unfold located, rewritten; by rewrite Hb, Hscs.
  - intros cmd b bps Ht Hs Hb Hc Hin Hbps.
    assert (Hrow : tableRow msg = Some each_breakpoints_source).
    { rewrite (tableRow_response msg cmd b Ht Hs Hb Hc).
      repeat (apply elem_of_cons in Hin as [->|Hin]); [done..|by apply elem_of_nil in Hin]. }
    rewrite (visitSources_located msg hook each_breakpoints_source (bp_source <$> bps) Hrow);
      unfold located, rewritten; by rewrite Hb, Hbps.
  - intros acc l Hrow Hl. split; [by apply visitSources_located|].
    by apply (walk_located acc msg hook l).
  - intros acc Hrow Hl. by apply (visitSources_missing msg hook acc).
  - split; [apply visitSources_by_table|]. split; [apply visitSources_identity|]. split.
    + intros Hrow. rewrite visitSources_by_table. unfold visitByTable. by rewrite Hrow.
    + intros Ht Hs. unfold visitSources. rewrite Ht. cbn.
      destruct (success msg) as [[|]|]; done.
Qed.

Lemma visitSources_closed_table_witness :
  visitSources stackTraceReply (fun s => set_name s "renamed")
  = Normal ([Some (sourceAt fileB);
             Some (sourceAt "/usr/lib/python3/site-packages/m.py");
             None],
            set_body stackTraceReply
              (Some (set_stackFrames noPayload
                       (Some [ {| frame_id := 1; frame_name := "f";
                                  frame_source := Some (set_name (sourceAt fileB) "renamed");
                                  frame_line := 2 |};
                               {| frame_id := 2; frame_name := "g";
                                  frame_source :=
                                    Some (set_name
                                            (sourceAt "/usr/lib/python3/site-packages/m.py")
                                            "renamed");
                                  frame_line := 40 |};
                               {| frame_id := 3; frame_name := "<module>";
                                  frame_source := None; frame_line := 1 |} ])))).
Proof.
  destruct (visitSources_closed_table stackTraceReply (fun s => set_name s "renamed"))
    as (_ & _ & _ & H & _).
  exact (H _ _ eq_refl eq_refl eq_refl eq_refl eq_refl).
Defined.

(** ** Cell materialization *)

Section Materialize.

Implicit Types (a : XeusDebugAdapter) (cs : list NotebookCell).

Lemma findCell_address cs addr cell :
  findCell cs addr = Some cell → addressOf cell = addr.
Proof.
  unfold findCell. intros H%find_some. destruct H as [_ H].
  by apply String.eqb_eq in H.
Qed.

(** A dump that fails leaves both maps as they were. *)
Lemma dumpCell_failure a cs addr err :
  (dumpCell a cs addr (Throw err)).1 = a.
Proof. unfold dumpCell. by destruct (findCell cs addr). Qed.

(** A dump that succeeds writes both entries. *)
Lemma dumpCell_success a cs addr cell f :
  findCell cs addr = Some cell →
  (dumpCell a cs addr (Normal f)).1
  = {| fileToCell := <[f := cell]> (fileToCell a);
       cellToFile := <[addr := f]> (cellToFile a) |}.
Proof.
  intros Hfind. pose proof (findCell_address _ _ _ Hfind) as Ha.
  unfold dumpCell. rewrite Hfind. cbn. unfold addressOf in Ha. by rewrite Ha.
Qed.

(** A dump for an address that is not a cell of the document does nothing. *)
Lemma dumpCell_unknown a cs addr reply :
  findCell cs addr = None → dumpCell a cs addr reply = (a, []).
Proof. intros Hfind. unfold dumpCell. by rewrite Hfind. Qed.

(** One step, as a case distinction. *)
Lemma materialize_cases a m :
  materialize a m = a
  ∨ ∃ cell f, answer m = Normal f ∧ addressOf cell = address m
              ∧ materialize a m
                = {| fileToCell := <[f := cell]> (fileToCell a);
                     cellToFile := <[address m := f]> (cellToFile a) |}.
Proof.
  unfold materialize.
  destruct (findCell (at_cells m) (address m)) as [cell|] eqn:Hfind.
  - destruct (answer m) as [f|err] eqn:Hans.
    + right. exists cell, f. split; [done|]. split; [by eapply findCell_address|].
      by apply dumpCell_success.
    + left. apply dumpCell_failure.
  - left. by rewrite dumpCell_unknown.
Qed.

Lemma linked_step a m : linked a → linked (materialize a m).
Proof.
  intros [Hcf Hfc].
  destruct (materialize_cases a m) as [->|(cell & f & _ & Haddr & ->)]; [done|].
  split; cbn.
  - intros addr f' H. destruct (decide (f = f')) as [->|Hne].
    + rewrite lookup_insert_eq. by eexists.
    + rewrite lookup_insert_ne by done.
      destruct (decide (address m = addr)) as [<-|Hne'].
      * rewrite lookup_insert_eq in H. congruence.
      * rewrite lookup_insert_ne in H by done. by eapply Hcf.
  - intros f' cell' H. destruct (decide (address m = Uri_toString (cell_uri cell'))) as [<-|Hne].
    + rewrite lookup_insert_eq. by eexists.
    + rewrite lookup_insert_ne by done.
      destruct (decide (f = f')) as [<-|Hne'].
      * rewrite lookup_insert_eq in H. injection H as <-. by destruct Hne.
      * rewrite lookup_insert_ne in H by done. by eapply Hfc.
Qed.

Lemma linked_all ms : ∀ a, linked a → linked (materializeAll a ms).
Proof.
  induction ms as [|m ms IH]; intros a Ha; [done|].
  cbn. apply IH. by apply linked_step.
Qed.

Lemma namedBy_step pathOf a m :
  Inj (=) (=) pathOf →
  (∀ p, answer m = Normal p → p = pathOf (address m)) →
  namedBy pathOf a → namedBy pathOf (materialize a m).
Proof.
  intros Hinj Hans [Hcf Hfc].
  destruct (materialize_cases a m) as [->|(cell & f & Hf & Haddr & ->)]; [done|].
  apply Hans in Hf as ->. unfold addressOf in Haddr.
  split; cbn.
  - intros addr f' H. destruct (decide (address m = addr)) as [<-|Hne].
    + rewrite lookup_insert_eq in H. injection H as <-. split; [done|].
      exists cell. by rewrite lookup_insert_eq.
    + rewrite lookup_insert_ne in H by done.
      destruct (Hcf _ _ H) as [-> (cell' & Hc' & Ha')]. split; [done|].
      exists cell'. split; [|done]. rewrite lookup_insert_ne; [done|].
      intros Heq. by apply Hinj in Heq.
  - intros f' cell' H. destruct (decide (pathOf (address m) = f')) as [<-|Hne].
    + rewrite lookup_insert_eq in H. injection H as <-.
      split; [by rewrite Haddr|]. rewrite Haddr. apply lookup_insert_eq.
    + rewrite lookup_insert_ne in H by done.
      destruct (Hfc _ _ H) as [-> Hc']. split; [done|].
      rewrite lookup_insert_ne; [done|]. intros Heq. apply Hne. by rewrite Heq.
Qed.

Lemma namedBy_all pathOf ms : ∀ a,
  Inj (=) (=) pathOf → answersBy pathOf ms →
  namedBy pathOf a → namedBy pathOf (materializeAll a ms).
Proof.
  induction ms as [|m ms IH]; intros a Hinj Hans Ha; [done|].
  apply Forall_cons in Hans as [Hm Hms].
  cbn. apply IH; [done..|]. by apply namedBy_step.
Qed.

Lemma namedBy_bijective pathOf a : namedBy pathOf a → bijective a.
Proof.
  intros [Hcf Hfc]. split.
  - intros addr f H. by destruct (Hcf _ _ H).
  - intros f cell H. by destruct (Hfc _ _ H).
Qed.

End Materialize.

(** C3, as the code has it: a dump that fails writes neither map and a dump
    that succeeds writes both entries together; after any sequence of dumps
    the files of [cellToFile] are keys of [fileToCell] and the cells of
    [fileToCell] have their address as a key of [cellToFile]; and the two
    maps are a bijective correspondence when the session names the files
    after the addresses, different addresses getting different files. *)
Theorem materializations_correspond (ms : list Materialization) :
  (∀ a cs addr err, (dumpCell a cs addr (Throw err)).1 = a)
  ∧ (∀ a cs addr cell f, findCell cs addr = Some cell →
       (dumpCell a cs addr (Normal f)).1
       = {| fileToCell := <[f := cell]> (fileToCell a);
            cellToFile := <[addr := f]> (cellToFile a) |})
  ∧ linked (materializeAll new_XeusDebugAdapter ms)
  ∧ (∀ pathOf, Inj (=) (=) pathOf → answersBy pathOf ms →
       bijective (materializeAll new_XeusDebugAdapter ms)).
Proof.
  split; [apply dumpCell_failure|]. split; [apply dumpCell_success|]. split.
  - apply linked_all. split; intros ? ? H; cbn in H; by rewrite lookup_empty in H.
  - intros pathOf Hinj Hans. apply (namedBy_bijective pathOf).
    apply namedBy_all; [done..|].
    split; intros ? ? H; cbn in H; by rewrite lookup_empty in H.
Qed.

Lemma fileOf_inj : Inj (=) (=) fileOf.
Proof.
  intros x y. unfold fileOf.
  destruct (String.eqb_spec x (addressOf cellB)) as [->|Hx1];
    destruct (String.eqb_spec y (addressOf cellB)) as [->|Hy1]; [done|..];
    try (destruct (String.eqb_spec x (addressOf cell0)) as [->|Hx0]);
    try (destruct (String.eqb_spec y (addressOf cell0)) as [->|Hy0]);
    try done;
    intros H; vm_compute in H; try discriminate H.
  by injection H as ->.
Qed.

Lemma materializations_correspond_witness :
  bijective (materializeAll new_XeusDebugAdapter distinctFiles)
  ∧ cellToFile (materializeAll new_XeusDebugAdapter distinctFiles) !! addressOf cellB
    = Some fileB.
Proof.
  split; [|vm_compute; reflexivity].
  destruct (materializations_correspond distinctFiles) as (_ & _ & _ & Hbij).
  apply (Hbij fileOf); [apply fileOf_inj|].
  repeat constructor; cbn; intros p [= <-]; vm_compute; reflexivity.
Defined.

(** C3, refuted as stated: two cells with the same file. [cellToFile] sends
    the address of [cell0] to the file, but [fileToCell] sends that file to
    [cellB]. *)
Lemma same_file_breaks_bijection :
  ¬ bijective (materializeAll new_XeusDebugAdapter sameFileTwice).
Proof.
  intros [Hcf _].
  destruct (Hcf (addressOf cell0) fileB) as (cell & Hcell & Haddr).
  - vm_compute. reflexivity.
  - vm_compute in Hcell. injection Hcell as <-. vm_compute in Haddr. discriminate Haddr.
Qed.

(** The other direction: one cell dumped twice with two files leaves the
    first file in [fileToCell] with no matching [cellToFile] entry. *)
Lemma same_cell_breaks_bijection :
  ¬ bijective (materializeAll new_XeusDebugAdapter sameCellTwice).
Proof.
  intros [_ Hfc].
  specialize (Hfc fileB cellB). vm_compute in Hfc.
  specialize (Hfc eq_refl). discriminate Hfc.
Qed.

(** ** Rewriting sources *)

Section Hooks.

Implicit Types (cs : list NotebookCell) (s : Source).

(** [indexOf] finds the first position that holds the same cell object. *)
Lemma indexOf_Some cs cell i :
  indexOf cs cell = Some i ↔
  (∃ c, cs !! i = Some c ∧ handle c = handle cell)
  ∧ (∀ j c, (j < i)%nat → cs !! j = Some c → handle c ≠ handle cell).
Proof.
  revert i. induction cs as [|c0 rest IH]; intros i; cbn [indexOf].
  - split; [done|]. by intros [(c & H & _) _].
  - destruct (Nat.eqb_spec (handle c0) (handle cell)) as [Heq|Hne].
    + split.
      * intros [= <-]. split; [by exists c0|]. intros j c Hj. lia.
      * intros [(c & Hc & Hh) Hfirst]. destruct i as [|i]; [done|].
        exfalso. apply (Hfirst 0 c0); [lia|done|done].
    + split.
      * intros H. destruct i as [|i].
        { destruct (indexOf rest cell); discriminate H. }
        assert (Hi : indexOf rest cell = Some i).
        { destruct (indexOf rest cell); [by injection H as ->|discriminate H]. }
        apply IH in Hi as [Hex Hfirst]. split; [done|].
        intros [|j] c Hj Hc; [by injection Hc as <-|].
        apply (Hfirst j c); [lia|done].
      * intros [(c & Hc & Hh) Hfirst]. destruct i as [|i].
        { injection Hc as ->. done. }
        assert (Hi : indexOf rest cell = Some i); [|by rewrite Hi].
        apply IH. split; [by exists c|].
        intros j c' Hj Hc'. apply (Hfirst (S j) c'); [lia|done].
Qed.

Lemma indexOf_None cs cell :
  indexOf cs cell = None ↔ ∀ c, c ∈ cs → handle c ≠ handle cell.
Proof.
  induction cs as [|c0 rest IH]; cbn [indexOf].
  - split; [|done]. intros _ c Hc. by apply not_elem_of_nil in Hc.
  - destruct (Nat.eqb_spec (handle c0) (handle cell)) as [Heq|Hne].
    + split; [done|]. intros H. exfalso. apply (H c0); [by left|done].
    + split.
      * intros H c [->|Hc]%elem_of_cons; [done|]. apply IH; [|done].
        by destruct (indexOf rest cell).
      * intros H. assert (Hi : indexOf rest cell = None); [|by rewrite Hi].
        apply IH. intros c Hc. apply H. by right.
Qed.

(** The hooks leave a source without a mapped path as it is. *)
Lemma toXeus_unmapped (cellToFile0 : gmap string string) s :
  (∀ p, source_path s = Some p → cellToFile0 !! p = None) → toXeus cellToFile0 s = s.
Proof.
  intros Hun. unfold toXeus. destruct (source_path s) as [p|] eqn:Hp; [|done].
  destruct (truthy (Some p)); [|done]. cbn. by rewrite (Hun p eq_refl).
Qed.

Lemma toVSCode_unmapped (fileToCell0 : gmap string NotebookCell) cs s :
  (∀ p, source_path s = Some p → fileToCell0 !! p = None) →
  toVSCode fileToCell0 cs s = s.
Proof.
  intros Hun. unfold toVSCode. destruct (source_path s) as [p|] eqn:Hp; [|done].
  destruct (truthy (Some p)); [|done]. cbn. by rewrite (Hun p eq_refl).
Qed.

(** The editor-facing rewrite of a source with a mapped path. *)
Lemma toVSCode_mapped (fileToCell0 : gmap string NotebookCell) cs s p cell :
  source_path s = Some p → nonEmpty p = true → fileToCell0 !! p = Some cell →
  toVSCode fileToCell0 cs s =
    {| source_name :=
         Some match indexOf cs cell with
              | Some cellIndex =>
                  basename (path (cell_uri cell)) +:+ ", Cell " +:+ toString (cellIndex + 1)
              | None => basename (path (cell_uri cell))
              end;
       source_path := Some (Uri_toString (cell_uri cell));
       sourceReference := sourceReference s |}.
Proof.
  intros Hp Hne Hcell. unfold toVSCode. rewrite Hp.
  destruct p; [done|]. cbn. rewrite Hcell. unfold set_path, set_name. cbn.
  by destruct (indexOf cs cell).
Qed.

(** The interception makes no call on the kernel connection. *)
Lemma intercept_calls a cs reply msg a1 pre :
  intercept a cs reply msg = Normal (a1, pre) →
  Forall (fun c => is_sendRaw c = false) pre.
Proof.
  unfold intercept.
  destruct (_ && _)%bool; [|by intros [= <- <-]].
  destruct (arguments msg) as [args|]; [|done].
  destruct (source args) as [s0|]; [|by intros [= <- <-]].
  destruct (_ && _)%bool; [|by intros [= <- <-]].
  intros [= H]. revert H. unfold dumpCell.
  destruct (findCell _ _); [destruct reply|]; intros [= <- <-]; by repeat constructor.
Qed.

(** What the forwarded or emitted message is built from. *)
Lemma handleMessage_sent a cs reply msg a' calls r e :
  handleMessage a cs reply msg = (a', calls, r) → sendRaw e ∈ calls →
  ∃ log, visitSources msg (toXeus (cellToFile a')) = Normal (log, enveloped e).
Proof.
  unfold handleMessage.
  destruct (intercept a cs reply msg) as [[a1 pre]|err] eqn:Hi;
    [|intros [= <- <- <-]; by intros ?%elem_of_nil].
  assert (Hpre : sendRaw e ∉ pre).
  { intros Hin. apply intercept_calls in Hi. rewrite Forall_forall in Hi.
    by specialize (Hi _ Hin). }
  destruct (visitSources msg (toXeus (cellToFile a1))) as [[log msg']|err] eqn:Hv;
    [|by intros [= <- <- <-]].
  destruct (String.eqb (type msg') "request");
    [|destruct (String.eqb (type msg') "response")];
    intros [= <- <- <-] [Hin|Hin]%elem_of_app; try done;
    apply list_elem_of_singleton in Hin; try discriminate Hin;
    injection Hin as ->; by exists log.
Qed.

Lemma onKernelMessage_fired a cs evt m :
  fire m ∈ (onKernelMessage a cs evt).1 →
  ∃ log, visitSources (content evt) (toVSCode (fileToCell a) cs) = Normal (log, m).
Proof.
  unfold onKernelMessage. destruct (isDebugMessage evt); [|by intros ?%elem_of_nil].
  destruct (visitSources _ _) as [[log m']|err]; cbn; [|by intros ?%elem_of_nil].
  intros [= ->]%list_elem_of_singleton. by exists log.
Qed.

End Hooks.

(** C6: in both directions, a source whose path has no entry in the map of
    that direction is left as it is, path and name and all: by the hook, and
    so in the message that is sent to the kernel or emitted to the editor,
    whose sources are one by one those of the message that came in, each
    unchanged when its path is unmapped (towards the kernel, unmapped in
    [cellToFile] as it is when the sources are rewritten, after the
    interception of a 'setBreakpoints' request). *)
Theorem unmapped_source_unchanged (a : XeusDebugAdapter) (notebookCells : list NotebookCell) :
  (∀ s, (∀ p, source_path s = Some p → cellToFile a !! p = None) →
        toXeus (cellToFile a) s = s)
  ∧ (∀ s, (∀ p, source_path s = Some p → fileToCell a !! p = None) →
          toVSCode (fileToCell a) notebookCells s = s)
  ∧ (∀ reply msg a' calls r e,
       handleMessage a notebookCells reply msg = (a', calls, r) → sendRaw e ∈ calls →
       Forall2 (fun s s' => (∀ p, source_path s = Some p → cellToFile a' !! p = None) → s' = s)
         (allSources msg) (allSources (enveloped e)))
  ∧ (∀ evt m, fire m ∈ (onKernelMessage a notebookCells evt).1 →
       Forall2 (fun s s' => (∀ p, source_path s = Some p → fileToCell a !! p = None) → s' = s)
         (allSources (content evt)) (allSources m)).
Proof.
  split; [intros s; apply toXeus_unmapped|].
  split; [intros s; apply toVSCode_unmapped|]. split.
  - intros reply msg a' calls r e Hh Hin.
    destruct (handleMessage_sent _ _ _ _ _ _ _ _ Hh Hin) as [log Hv].
    eapply Forall2_impl; [by eapply visitSources_pointwise|].
    intros s s' [->| ->] Hun; [done|]. by apply toXeus_unmapped.
  - intros evt m Hin.
    destruct (onKernelMessage_fired _ _ _ _ Hin) as [log Hv].
    eapply Forall2_impl; [by eapply visitSources_pointwise|].
    intros s s' [->| ->] Hun; [done|]. by apply toVSCode_unmapped.
Qed.

Lemma unmapped_source_unchanged_witness :
  toXeus (cellToFile (materializeAll new_XeusDebugAdapter distinctFiles))
    (sourceAt "/usr/lib/python3/site-packages/m.py")
  = sourceAt "/usr/lib/python3/site-packages/m.py"
  ∧ toVSCode (fileToCell (materializeAll new_XeusDebugAdapter distinctFiles)) [cell0; cellB]
      (sourceAt "/usr/lib/python3/site-packages/m.py")
    = sourceAt "/usr/lib/python3/site-packages/m.py".
Proof.
  destruct (unmapped_source_unchanged
              (materializeAll new_XeusDebugAdapter distinctFiles) [cell0; cellB])
    as (H1 & H2 & _).
  split; [apply H1|apply H2]; intros p [= <-]; vm_compute; reflexivity.
Defined.

(** C5, as the code has it: a kernel-originated source whose non-empty path
    is a key of [fileToCell] gets the address of the cell as its path and,
    as its name, the base name of the cell's path, followed by ", Cell N"
    when the cell is in its document at the time of the rewrite, N being one
    more than the first position that holds the cell in the cells the
    document has then; the name is the base name alone when the cell is no
    longer in the document. This holds of every debug message of the kernel
    and every place of it that is visited: when such a source is the [i]th
    of the sources that the row of the message locates, the message is
    emitted to the editor with the hook's writes at the places of the row,
    and the [i]th source located in the emitted message is the source so
    renamed and re-addressed. In particular a [loadedSource] event is
    emitted with its source rewritten so, and a [stackTrace] reply with the
    source of its [i]th frame rewritten so. *)
Theorem toVSCode_names_cell (a : XeusDebugAdapter) (notebookCells : list NotebookCell)
    (s : Source) (p : string) (cell : NotebookCell) :
  source_path s = Some p → nonEmpty p = true → fileToCell a !! p = Some cell →
  toVSCode (fileToCell a) notebookCells s =
    {| source_name :=
         Some match indexOf notebookCells cell with
              | Some cellIndex =>
                  basename (path (cell_uri cell)) +:+ ", Cell " +:+ toString (cellIndex + 1)
              | None => basename (path (cell_uri cell))
              end;
       source_path := Some (Uri_toString (cell_uri cell));
       sourceReference := sourceReference s |}
  ∧ (∀ i, indexOf notebookCells cell = Some i ↔
          (∃ c, notebookCells !! i = Some c ∧ handle c = handle cell)
          ∧ (∀ j c, (j < i)%nat → notebookCells !! j = Some c → handle c ≠ handle cell))
  ∧ (indexOf notebookCells cell = None ↔ ∀ c, c ∈ notebookCells → handle c ≠ handle cell)
  ∧ (∀ evt b, isDebugMessage evt = true → type (content evt) = "event" →
       event (content evt) = Some "loadedSource" → body (content evt) = Some b →
       source b = Some s →
       onKernelMessage a notebookCells evt
       = ([fire (set_body (content evt)
                   (Some (set_source b (Some (toVSCode (fileToCell a) notebookCells s)))))],
          Normal ()))
  ∧ (∀ evt acc l i, isDebugMessage evt = true → tableRow (content evt) = Some acc →
       located acc (content evt) = Some l → l !! i = Some (Some s) →
       onKernelMessage a notebookCells evt
       = ([fire (rewritten acc (toVSCode (fileToCell a) notebookCells) (content evt))],
          Normal ())
       ∧ ∃ l', located acc (rewritten acc (toVSCode (fileToCell a) notebookCells) (content evt))
               = Some l'
               ∧ length l' = length l
               ∧ l' !! i
                 = Some (Some
                     {| source_name :=
                          Some match indexOf notebookCells cell with
                               | Some cellIndex =>
                                   basename (path (cell_uri cell)) +:+ ", Cell "
                                   +:+ toString (cellIndex + 1)
                               | None => basename (path (cell_uri cell))
                               end;
                        source_path := Some (Uri_toString (cell_uri cell));
                        sourceReference := sourceReference s |}))
  ∧ (∀ evt b frames i f, isDebugMessage evt = true → type (content evt) = "response" →
       success (content evt) = Some true → body (content evt) = Some b →
       command (content evt) = Some "stackTrace" → stackFrames b = Some frames →
       frames !! i = Some f → frame_source f = Some s →
       ∃ frames',
         onKernelMessage a notebookCells evt
         = ([fire (set_body (content evt) (Some (set_stackFrames b (Some frames'))))],
            Normal ())
         ∧ length frames' = length frames
         ∧ frames' !! i
           = Some (set_frame_source f
                     (Some
                        {| source_name :=
                             Some match indexOf notebookCells cell with
                                  | Some cellIndex =>
                                      basename (path (cell_uri cell)) +:+ ", Cell "
                                      +:+ toString (cellIndex + 1)
                                  | None => basename (path (cell_uri cell))
                                  end;
                           source_path := Some (Uri_toString (cell_uri cell));
                           sourceReference := sourceReference s |}))).
Proof.
  intros Hp Hne Hcell.
  pose proof (toVSCode_mapped _ notebookCells _ _ _ Hp Hne Hcell) as Hs'.
  split; [exact Hs'|].
  split; [intros i; apply indexOf_Some|].
  split; [apply indexOf_None|].
  split; [|split].
  - intros evt b Hdbg Ht Hev Hb Hs.
    unfold onKernelMessage, visitSources. rewrite Hdbg, Ht, Hev, Hb. cbn. by rewrite Hs.
  - intros evt acc l i Hdbg Hrow Hl Hi. split.
    + unfold onKernelMessage. rewrite Hdbg.
      by rewrite (visitSources_located _ (toVSCode (fileToCell a) notebookCells) acc l Hrow Hl).
    + destruct (walk_located acc (content evt) (toVSCode (fileToCell a) notebookCells) l Hl)
        as [_ Hl'].
      eexists. split; [exact Hl'|]. split; [by rewrite length_map|].
      change (map ?f l) with (f <$> l). rewrite list_lookup_fmap, Hi. cbn. by rewrite Hs'.
  - intros evt b frames i f Hdbg Ht Hsuc Hb Hc Hfr Hi Hf.
    exists ((fun f0 => set_frame_source f0
                         (toVSCode (fileToCell a) notebookCells <$> frame_source f0))
              <$> frames).
    split; [|split].
    + unfold onKernelMessage, visitSources. rewrite Hdbg, Ht, Hsuc, Hb, Hc. cbn.
      by rewrite Hfr.
    + by rewrite length_fmap.
    + rewrite list_lookup_fmap, Hi. cbn. by rewrite Hf, <- Hs'.
Qed.

Lemma toVSCode_names_cell_witness :
  toVSCode (fileToCell (materializeAll new_XeusDebugAdapter distinctFiles)) [cellB; cell0]
    (sourceAt fileB)
  = {| source_name := Some "nb.ipynb, Cell 1";
       source_path := Some "vscode-notebook-cell:/work/nb.ipynb#00000002";
       sourceReference := None |}
  ∧ toVSCode (fileToCell (materializeAll new_XeusDebugAdapter distinctFiles)) [cell0; cellB]
      (sourceAt fileB)
    = {| source_name := Some "nb.ipynb, Cell 2";
         source_path := Some "vscode-notebook-cell:/work/nb.ipynb#00000002";
         sourceReference := None |}
  ∧ onKernelMessage (materializeAll new_XeusDebugAdapter distinctFiles) [cell0; cellB]
      stackTraceReplyMessage
    = ([fire
          (set_body stackTraceReply
             (Some (set_stackFrames noPayload
                      (Some [ {| frame_id := 1; frame_name := "f";
                                 frame_source :=
                                   Some {| source_name := Some "nb.ipynb, Cell 2";
                                           source_path :=
                                             Some "vscode-notebook-cell:/work/nb.ipynb#00000002";
                                           sourceReference := None |};
                                 frame_line := 2 |};
                              {| frame_id := 2; frame_name := "g";
                                 frame_source :=
                                   Some (sourceAt "/usr/lib/python3/site-packages/m.py");
                                 frame_line := 40 |};
                              {| frame_id := 3; frame_name := "<module>";
                                 frame_source := None; frame_line := 1 |} ]))))],
       Normal ()).
Proof.
  split; [|split].
  - destruct (toVSCode_names_cell
                (materializeAll new_XeusDebugAdapter distinctFiles) [cellB; cell0]
                (sourceAt fileB) fileB cellB) as (H & _);
      [reflexivity|reflexivity|vm_compute; reflexivity|].
    rewrite H. vm_compute. reflexivity.
  - destruct (toVSCode_names_cell
                (materializeAll new_XeusDebugAdapter distinctFiles) [cell0; cellB]
                (sourceAt fileB) fileB cellB) as (H & _);
      [reflexivity|reflexivity|vm_compute; reflexivity|].
    rewrite H. vm_compute. reflexivity.
  - destruct (toVSCode_names_cell
                (materializeAll new_XeusDebugAdapter distinctFiles) [cell0; cellB]
                (sourceAt fileB) fileB cellB) as (_ & _ & _ & _ & H & _);
      [reflexivity|reflexivity|vm_compute; reflexivity|].
    destruct (H stackTraceReplyMessage each_stackFrames_source
                [Some (sourceAt fileB);
                 Some (sourceAt "/usr/lib/python3/site-packages/m.py");
                 None] 0%nat) as [Hfire _];
      [vm_compute; reflexivity|vm_compute; reflexivity|reflexivity|reflexivity|].
    rewrite Hfire. vm_compute. reflexivity.
Defined.

(** C5, refuted as stated: [cellB] was materialized and then deleted from
    the notebook; a [loadedSource] event for its file is emitted with the
    name "nb.ipynb", which is not of the form "nb.ipynb, Cell N". *)
Lemma deleted_cell_has_no_suffix :
  fileToCell (materializeAll new_XeusDebugAdapter distinctFiles) !! fileB = Some cellB
  ∧ onKernelMessage (materializeAll new_XeusDebugAdapter distinctFiles) [cell0]
      (loadedSourceEvent fileB)
    = ([fire (set_body (content (loadedSourceEvent fileB))
                (Some (set_source noPayload
                         (Some {| source_name := Some "nb.ipynb";
                                  source_path := Some (addressOf cellB);
                                  sourceReference := None |}))))],
       Normal ())
  ∧ ∀ n : nat, "nb.ipynb" ≠ basename (path (cell_uri cellB)) +:+ ", Cell " +:+ toString n.
Proof.
  split; [vm_compute; reflexivity|]. split; [vm_compute; reflexivity|].
  intros n H. vm_compute in H. discriminate H.
Qed.

(** ** Dispatch to the kernel *)

Section Dispatch.

Implicit Types (a : XeusDebugAdapter) (msg : ProtocolMessage).

Lemma walk_type acc msg hook log msg' :
  walk acc msg hook = Normal (log, msg') → type msg' = type msg.
Proof.
  destruct acc; unfold walk, rebuild, visit_source, visit_breakpoint_source, visit_each,
    visit_sources;
    repeat match goal with
           | |- context [match ?o with Some _ => _ | None => _ end] => destruct o
           end;
    first [ discriminate | by intros [= <- <-] ].
Qed.

Lemma visitSources_type msg hook log msg' :
  visitSources msg hook = Normal (log, msg') → type msg' = type msg.
Proof.
  rewrite visitSources_by_table. unfold visitByTable.
  destruct (tableRow msg); [apply walk_type|by intros [= <- <-]].
Qed.

(** On a message that has the members its kind requires, the walk does
    not throw. *)
Lemma visitSources_total msg hook :
  conforms msg = true → ∃ log msg', visitSources msg hook = Normal (log, msg').
Proof.
  rewrite visitSources_by_table. unfold visitByTable, conforms.
  destruct (tableRow msg) as [acc|]; [|by eexists _, _].
  destruct acc; cbn [present]; intros H%bool_decide_eq_true; destruct H as [x Hx];
    unfold walk, rebuild, visit_source, visit_breakpoint_source, visit_each, visit_sources.
  all: destruct (body msg) as [b|]; try discriminate Hx;
    try (destruct (arguments msg); try discriminate Hx); cbn in Hx; try rewrite Hx;
    by eexists _, _.
Qed.

Lemma tableRow_setBreakpoints msg :
  type msg = "request" → command msg = Some "setBreakpoints" →
  tableRow msg = Some arguments_source.
Proof. intros Ht Hc. unfold tableRow, kindOf. rewrite Ht, Hc. vm_compute. reflexivity. Qed.

Lemma intercept_total a cs reply msg :
  conforms msg = true →
  ∃ a1 pre, intercept a cs reply msg = Normal (a1, pre)
            ∧ (type msg ≠ "request" → a1 = a ∧ pre = []).
Proof.
  intros Hc. unfold intercept.
  destruct (String.eqb_spec (type msg) "request") as [Ht|Hne]; cbn [andb];
    [|by eexists _, _].
  case_bool_decide as Hcmd; [|by eexists _, _].
  unfold conforms in Hc. rewrite (tableRow_setBreakpoints msg Ht Hcmd) in Hc.
  apply bool_decide_eq_true in Hc as [args Hargs]. rewrite Hargs.
  destruct (source args) as [s|]; [|by eexists _, _].
  destruct (_ && _)%bool; [|by eexists _, _].
  destruct (dumpCell _ _ _ _) as [a1 pre]. by eexists _, _.
Qed.

(** On a message that lacks a member its kind requires, the interception
    either throws on the missing arguments of a 'setBreakpoints' request or
    does nothing. *)
Lemma intercept_missing a cs reply msg :
  conforms msg = false →
  intercept a cs reply msg = Throw TypeError ∨ intercept a cs reply msg = Normal (a, []).
Proof.
  intros Hc. unfold intercept.
  destruct (String.eqb_spec (type msg) "request") as [Ht|Hne]; cbn [andb]; [|by right].
  case_bool_decide as Hcmd; [|by right].
  unfold conforms in Hc. rewrite (tableRow_setBreakpoints msg Ht Hcmd) in Hc.
  cbn [present] in Hc. apply bool_decide_eq_false in Hc.
  destruct (arguments msg); [|by left]. by destruct Hc.
Qed.

End Dispatch.

(** C7, as the code has it: on a message that has the members the protocol
    requires of its kind, [handleMessage] completes without throwing; a
    request is sent to the kernel as a debug-request envelope and a response
    as a debug-reply envelope, both around the message as the walk left it
    and as the last call; a message of any other kind is asserted on,
    changes no map and makes no other call, so nothing is sent to the
    kernel. On a message that lacks such a member, of whatever kind,
    [handleMessage] throws a TypeError: the returned promise is rejected, no
    map has changed, and nothing was sent, asserted or logged. *)
Theorem handleMessage_dispatch (a : XeusDebugAdapter) (notebookCells : list NotebookCell)
    (reply : Completion string) (msg : ProtocolMessage) :
  (conforms msg = true →
   ∃ a1 pre log msg',
     intercept a notebookCells reply msg = Normal (a1, pre)
     ∧ Forall (fun c => is_sendRaw c = false) pre
     ∧ visitSources msg (toXeus (cellToFile a1)) = Normal (log, msg')
     ∧ handleMessage a notebookCells reply msg
       = (a1,
          pre ++ [if decide (type msg = "request") then sendRaw (debugRequest msg')
                  else if decide (type msg = "response") then sendRaw (debugResponse msg')
                  else console_assert false ("Unknown message type to send " +:+ type msg)],
          Normal ())
     ∧ (type msg ≠ "request" → a1 = a ∧ pre = []))
  ∧ (conforms msg = false →
     handleMessage a notebookCells reply msg = (a, [], Throw TypeError)).
Proof.
  split.
  - intros Hc.
    destruct (intercept_total a notebookCells reply msg Hc) as (a1 & pre & Hi & Hother).
    destruct (visitSources_total msg (toXeus (cellToFile a1)) Hc) as (log & msg' & Hv).
    exists a1, pre, log, msg'.
    split; [done|]. split; [by eapply intercept_calls|]. split; [done|]. split; [|done].
    unfold handleMessage. rewrite Hi, Hv. rewrite (visitSources_type _ _ _ _ Hv).
    destruct (String.eqb_spec (type msg) "request") as [Ht|Hne1].
    { by rewrite decide_True. }
    rewrite decide_False by done.
    destruct (String.eqb_spec (type msg) "response") as [Ht|Hne2].
    { by rewrite decide_True. }
    by rewrite decide_False.
  - intros Hc. unfold handleMessage.
    destruct (intercept_missing a notebookCells reply msg Hc) as [-> | ->]; [done|].
    by rewrite (visitSources_throws msg _ Hc).
Qed.

Lemma handleMessage_dispatch_witness :
  (conforms stoppedEvent = true
   ∧ handleMessage (materializeAll new_XeusDebugAdapter distinctFiles) [cell0; cellB]
       (Normal fileB) stoppedEvent
     = (materializeAll new_XeusDebugAdapter distinctFiles,
        [console_assert false "Unknown message type to send event"],
        Normal ()))
  ∧ (conforms sourceRequestNoArguments = false
     ∧ handleMessage (materializeAll new_XeusDebugAdapter distinctFiles) [cell0; cellB]
         (Normal fileB) sourceRequestNoArguments
       = (materializeAll new_XeusDebugAdapter distinctFiles, [], Throw TypeError)).
Proof.
  assert (Hc : conforms stoppedEvent = true) by (vm_compute; reflexivity).
  assert (Hn : conforms sourceRequestNoArguments = false) by (vm_compute; reflexivity).
  split; (split; [assumption|]).
  - destruct (proj1 (handleMessage_dispatch
                       (materializeAll new_XeusDebugAdapter distinctFiles)
                       [cell0; cellB] (Normal fileB) stoppedEvent) Hc)
      as (a1 & pre & log & msg' & _ & _ & _ & -> & Hother).
    destruct Hother as [-> ->]; [discriminate|]. reflexivity.
  - exact (proj2 (handleMessage_dispatch
                    (materializeAll new_XeusDebugAdapter distinctFiles)
                    [cell0; cellB] (Normal fileB) sourceRequestNoArguments) Hn).
Defined.

(** C7, refuted as stated: an [output] event that has no body is a message
    of a kind other than request and response, and a [source] request that
    has no arguments is a request; on either [handleMessage] throws a
    TypeError, so the exception reaches the host through the rejected
    promise, the event is not asserted on and the request is not sent. *)
Lemma message_without_member_throws :
  (type outputEventNoBody = "event"
   ∧ handleMessage (materializeAll new_XeusDebugAdapter distinctFiles) [cell0; cellB]
       (Normal fileB) outputEventNoBody
     = (materializeAll new_XeusDebugAdapter distinctFiles, [], Throw TypeError))
  ∧ (type sourceRequestNoArguments = "request"
     ∧ handleMessage (materializeAll new_XeusDebugAdapter distinctFiles) [cell0; cellB]
         (Normal fileB) sourceRequestNoArguments
       = (materializeAll new_XeusDebugAdapter distinctFiles, [], Throw TypeError)).
Proof. repeat split; vm_compute; reflexivity. Qed.

Example handleMessage_request :
  (handleMessage (materializeAll new_XeusDebugAdapter distinctFiles) [cell0; cellB]
     (Throw "Error: timeout") (setBreakpointsRequest (addressOf cellB))).1.2
  = [customRequest "dumpCell" "y = x + 1";
     console_log "Error: timeout";
     sendRaw (debugRequest (setBreakpointsRequest fileB))].
Proof. vm_compute. reflexivity. Qed.

(** ** Materialization on [setBreakpoints] *)

(** C2, as the code has it: every [setBreakpoints] request whose source path
    is a notebook-cell address of a cell of the document makes exactly one
    [dumpCell] request, as its first call, and forwards the request as its
    last call, whatever the maps already hold; the forwarded request carries
    the file the session answered with, or, when the dump failed, what the
    maps held before. *)
Theorem setBreakpoints_dumps_every_time (a : XeusDebugAdapter)
    (notebookCells : list NotebookCell) (reply : Completion string)
    (msg : ProtocolMessage) (args : Payload) (s : Source) (p : string) (cell : NotebookCell) :
  type msg = "request" → command msg = Some "setBreakpoints" →
  arguments msg = Some args → source args = Some s → source_path s = Some p →
  startsWith "vscode-notebook-cell:" p = true →
  findCell notebookCells p = Some cell →
  ∃ logged msg',
    handleMessage a notebookCells reply msg
    = ((dumpCell a notebookCells p reply).1,
       customRequest "dumpCell" (text cell) :: logged ++ [sendRaw (debugRequest msg')],
       Normal ())
    ∧ Forall (fun c => is_customRequest c = false ∧ is_sendRaw c = false) logged
    ∧ (∀ f, reply = Normal f → nonEmpty f = true →
         msg' = set_arguments msg (Some (set_source args (Some (set_path s f)))))
    ∧ (∀ err, reply = Throw err →
         msg' = set_arguments msg
                  (Some (set_source args (Some (toXeus (cellToFile a) s))))).
Proof.
  intros Ht Hcmd Hargs Hsrc Hp Hpre Hfind.
  assert (Htr : truthy (Some p) = true) by (destruct p; [discriminate Hpre|done]).
  pose proof (findCell_address _ _ _ Hfind) as Haddr. unfold addressOf in Haddr.
  unfold handleMessage, intercept. rewrite Ht, Hcmd, Hargs, Hsrc, Hp. cbn [default].
  rewrite String.eqb_refl, bool_decide_eq_true_2 by done. cbn [andb from_option id].
  rewrite Htr, Hpre. cbn [andb].
  unfold dumpCell. rewrite Hfind.
  unfold visitSources. rewrite Ht, Hcmd. cbn -[toXeus]. rewrite Hargs. cbn -[toXeus].
  rewrite Ht. cbn -[toXeus]. rewrite Hsrc.
  destruct reply as [f|err]; cbn -[toXeus].
  - exists [], (set_arguments msg
                  (Some (set_source args (Some (toXeus (<[p := f]> (cellToFile a)) s))))).
    rewrite Haddr. split; [done|]. split; [constructor|]. split; [|done].
    intros f' [= <-] Hf. unfold toXeus. rewrite Hp, Htr. cbn [default from_option id].
    rewrite lookup_insert_eq. by rewrite Hf.
  - exists [console_log err], (set_arguments msg
                                 (Some (set_source args (Some (toXeus (cellToFile a) s))))).
    split; [done|]. split; [by repeat constructor|]. split; [done|].
    by intros err' _.
Qed.

Lemma setBreakpoints_dumps_every_time_witness :
  ∃ logged,
    handleMessage (materializeAll new_XeusDebugAdapter distinctFiles) [cell0; cellB]
      (Normal fileB) (setBreakpointsRequest (addressOf cellB))
    = ((dumpCell (materializeAll new_XeusDebugAdapter distinctFiles) [cell0; cellB]
          (addressOf cellB) (Normal fileB)).1,
       customRequest "dumpCell" "y = x + 1"
         :: logged ++ [sendRaw (debugRequest (setBreakpointsRequest fileB))],
       Normal ()).
Proof.
  destruct (setBreakpoints_dumps_every_time
              (materializeAll new_XeusDebugAdapter distinctFiles) [cell0; cellB]
              (Normal fileB) (setBreakpointsRequest (addressOf cellB))
              (set_source noPayload (Some (sourceAt (addressOf cellB))))
              (sourceAt (addressOf cellB)) (addressOf cellB) cellB)
    as (logged & msg' & H & _ & Hf & _); [vm_compute; reflexivity..|].
  exists logged. rewrite H. rewrite (Hf fileB eq_refl eq_refl). reflexivity.
Defined.

(** C2, refuted as stated: the same [setBreakpoints] request handled twice
    by one adapter. The first dump has put the cell in the maps, and the
    second request makes a [dumpCell] request all the same. *)
Lemma second_setBreakpoints_dumps_again :
  cellToFile
    (handleMessage new_XeusDebugAdapter [cell0; cellB] (Normal fileB)
       (setBreakpointsRequest (addressOf cellB))).1.1
  !! addressOf cellB = Some fileB
  ∧ (handleMessage
       (handleMessage new_XeusDebugAdapter [cell0; cellB] (Normal fileB)
          (setBreakpointsRequest (addressOf cellB))).1.1
       [cell0; cellB] (Normal fileB) (setBreakpointsRequest (addressOf cellB))).1.2
    = [customRequest "dumpCell" "y = x + 1";
       sendRaw (debugRequest (setBreakpointsRequest fileB))]
  ∧ List.filter is_customRequest
      (handleMessage
         (handleMessage new_XeusDebugAdapter [cell0; cellB] (Normal fileB)
            (setBreakpointsRequest (addressOf cellB))).1.1
         [cell0; cellB] (Normal fileB) (setBreakpointsRequest (addressOf cellB))).1.2
    ≠ [].
Proof.
  split; [vm_compute; reflexivity|]. split; [vm_compute; reflexivity|].
  vm_compute. discriminate.
Qed.

(** * Further properties of the code *)

(** ** The breakpoint margin *)

Lemma updateDebuggerUI_last (doc : NotebookDocument) (b b' : bool) :
  updateDebuggerUI (updateDebuggerUI doc b') b = updateDebuggerUI doc b.
Proof.
  unfold updateDebuggerUI. cbn. f_equal. rewrite map_map.
  apply map_ext. intros cell. by destruct (cellKind cell) eqn:E; cbn; rewrite ?E.
Qed.

Lemma updateDebuggerUI_addresses (doc : NotebookDocument) (b : bool) :
  cell_uri <$> cells (updateDebuggerUI doc b) = cell_uri <$> cells doc.
Proof.
  unfold updateDebuggerUI. cbn. rewrite <- list_fmap_compose.
  apply list_fmap_ext. intros i cell _. cbn. by destruct (cellKind cell).
Qed.

Lemma forEachCell_addresses (cs cs' : list NotebookCell) :
  cell_uri <$> cs = cell_uri <$> cs' →
  ∀ ix map, forEachCell cs ix map = forEachCell cs' ix map.
Proof.
  revert cs'. induction cs as [|c cs IH]; intros [|c' cs'] H ix map; try done.
  injection H as Hc Hcs. cbn [forEachCell]. unfold fixedUri. rewrite Hc. by apply IH.
Qed.

(** X1: [updateDebuggerUI] writes the margin flag of the code cells and nothing
    else: the cells keep their number, order, identity, address, kind and
    text, cells that are not code keep their flag, a later call overrides
    an earlier one, and the breakpoint repair of the document is the same
    before and after. *)
Theorem updateDebuggerUI_only_margin (doc : NotebookDocument) (b : bool) :
  doc_handle (updateDebuggerUI doc b) = doc_handle doc
  ∧ doc_uri (updateDebuggerUI doc b) = doc_uri doc
  ∧ length (cells (updateDebuggerUI doc b)) = length (cells doc)
  ∧ (∀ i cell, cells doc !! i = Some cell →
       ∃ cell', cells (updateDebuggerUI doc b) !! i = Some cell'
                ∧ handle cell' = handle cell ∧ cell_uri cell' = cell_uri cell
                ∧ cellKind cell' = cellKind cell ∧ text cell' = text cell
                ∧ breakpointMargin cell'
                  = match cellKind cell with
                    | Code => Some b
                    | Markdown => breakpointMargin cell
                    end)
  ∧ (∀ b', updateDebuggerUI (updateDebuggerUI doc b') b = updateDebuggerUI doc b)
  ∧ (∀ store, fixBreakpoints (updateDebuggerUI doc b) store = fixBreakpoints doc store).
Proof.
  split; [done|]. split; [done|]. split; [apply length_map|]. split; [|split].
  - intros i cell Hi. unfold updateDebuggerUI. cbn.
    change (map ?f ?l) with (f <$> l). rewrite list_lookup_fmap, Hi. cbn.
    eexists. split; [done|]. by destruct (cellKind cell) eqn:E; cbn; rewrite ?E.
  - intros b'. apply updateDebuggerUI_last.
  - intros store. unfold fixBreakpoints, staleMap.
    by rewrite (forEachCell_addresses _ _ (updateDebuggerUI_addresses doc b)).
Qed.

(** ** The document -> debugger map under the callbacks *)

Section Registry.

Implicit Types (m pre rest : DebuggerMap) (doc : NotebookDocument) (d : nat).

Lemma Map_get_None m d : Map_get m d = None ↔ d ∉ m.*1.
Proof.
  induction m as [|[k dbg] m IH]; cbn.
  - split; [intros _; apply not_elem_of_nil|done].
  - destruct (Nat.eqb_spec k d) as [->|Hne].
    + split; [done|]. intros H. destruct H. by left.
    + rewrite IH, not_elem_of_cons. split; [by split|by intros [_ ?]].
Qed.

Lemma Map_set_absent m d dbg : d ∉ m.*1 → Map_set m d dbg = m ++ [(d, dbg)].
Proof.
  induction m as [|[k old] m IH]; cbn; [done|].
  intros [Hne Hnot]%not_elem_of_cons.
  destruct (Nat.eqb_spec k d) as [->|_]; [done|]. by rewrite IH.
Qed.

Lemma Map_set_keys m d dbg :
  (Map_set m d dbg).*1 = if decide (d ∈ m.*1) then m.*1 else m.*1 ++ [d].
Proof.
  induction m as [|[k old] m IH]; cbn.
  - rewrite decide_False; [done|apply not_elem_of_nil].
  - destruct (Nat.eqb_spec k d) as [->|Hne]; cbn.
    + rewrite decide_True; [done|by left].
    + rewrite IH. destruct (decide (d ∈ m.*1)) as [Hin|Hnot].
      * rewrite decide_True; [done|by right].
      * rewrite decide_False; [done|]. rewrite not_elem_of_cons. naive_solver.
Qed.

Lemma Map_set_last m d dbg dbg' :
  d ∉ m.*1 → Map_set (m ++ [(d, dbg)]) d dbg' = m ++ [(d, dbg')].
Proof.
  induction m as [|[k old] m IH]; cbn.
  - by rewrite Nat.eqb_refl.
  - intros [Hne Hnot]%not_elem_of_cons.
    destruct (Nat.eqb_spec k d) as [->|_]; [done|]. by rewrite IH.
Qed.

Lemma Map_delete_at pre d dbg rest :
  d ∉ pre.*1 → Map_delete (pre ++ (d, dbg) :: rest) d = pre ++ rest.
Proof.
  induction pre as [|[k old] pre IH]; cbn.
  - by rewrite Nat.eqb_refl.
  - intros [Hne Hnot]%not_elem_of_cons.
    destruct (Nat.eqb_spec k d) as [->|_]; [done|]. by rewrite IH.
Qed.

Lemma toggleDebugging_map m doc active host :
  notebookToDebugger (toggleDebugging m doc active host)
  = Map_set m (doc_handle doc)
      {| document := default (doc_handle doc) (document <$> Map_get m (doc_handle doc));
         session := settled (default Pending (session <$> Map_get m (doc_handle doc))) host |}.
Proof.
  unfold toggleDebugging. destruct (Map_get m (doc_handle doc)) as [dbg|] eqn:Hget.
  - by destruct (Debugger_stop dbg active host).
  - cbn. assert (Hset : ∀ x y, Map_set (Map_set m (doc_handle doc) x) (doc_handle doc) y
                               = Map_set m (doc_handle doc) y).
    { intros x y. apply Map_get_None in Hget.
      by rewrite (Map_set_absent _ _ _ Hget), Map_set_last, Map_set_absent. }
    unfold settled. cbn. destruct host; cbn; apply Hset.
Qed.

(** The sessions that are not the one whose end the host reports. *)
Lemma terminateScan_skip m pre rest s host :
  Forall (fun e => ∃ s', session e.2 = Fulfilled s' ∧ s' ≠ s) pre →
  terminateScan m (pre ++ rest) s host = terminateScan m rest s host.
Proof.
  induction 1 as [|[k dbg] pre (s' & Hs & Hne) _ IH]; [done|].
  cbn in Hs |- *. rewrite Hs. cbn.
  destruct (Nat.eqb_spec s s') as [->|_]; [done|exact IH].
Qed.

End Registry.

(** X2: Whatever the host answers, [toggleDebugging] keeps one entry per
    document: the keys of the map stay as they are when the document is
    registered and get the document appended when it is not, the entries of
    other documents are not touched, and the document is registered
    afterwards. *)
Theorem toggleDebugging_one_entry (m : DebuggerMap) (doc : NotebookDocument)
    (active : option DebugSession) (host : Completion DebugSession) :
  (notebookToDebugger (toggleDebugging m doc active host)).*1
  = (if decide (doc_handle doc ∈ m.*1) then m.*1 else m.*1 ++ [doc_handle doc])
  ∧ (NoDup m.*1 → NoDup (notebookToDebugger (toggleDebugging m doc active host)).*1)
  ∧ (∀ d, d ≠ doc_handle doc →
       Map_get (notebookToDebugger (toggleDebugging m doc active host)) d = Map_get m d)
  ∧ is_Some (Map_get (notebookToDebugger (toggleDebugging m doc active host)) (doc_handle doc)).
Proof.
  rewrite toggleDebugging_map. split; [apply Map_set_keys|]. split; [|split].
  - intros Hnd. rewrite Map_set_keys. case_decide as Hin; [done|].
    apply NoDup_app. split; [done|]. split; [|apply NoDup_singleton].
    intros x Hx ->%list_elem_of_singleton. done.
  - intros d Hne. by apply Map_get_set_ne.
  - rewrite Map_get_set. by eexists.
Qed.

(** The sessions of a map that are running and are not the session [s]. *)
Lemma others_not_registered (m : DebuggerMap) (s : DebugSession) (host : Completion DebugSession) :
  Forall (fun e => ∃ s', session e.2 = Fulfilled s' ∧ s' ≠ s) m →
  onDidTerminateDebugSession m s host
  = {| notebookToDebugger := m; calls := []; completion := Normal () |}.
Proof.
  intros H. unfold onDidTerminateDebugSession.
  rewrite <- (app_nil_r m) at 2. by rewrite terminateScan_skip.
Qed.


(** The scan reaches the first entry of session [s] and deletes it. *)
Lemma onDidTerminate_first_match_aux (pre rest : DebuggerMap) (d : nat) (dbg : Debugger)
    (s : DebugSession) (host : Completion DebugSession) :
  Forall (fun e => ∃ s', session e.2 = Fulfilled s' ∧ s' ≠ s) pre →
  d ∉ pre.*1 → session dbg = Fulfilled s →
  onDidTerminateDebugSession (pre ++ (d, dbg) :: rest) s host
  = {| notebookToDebugger := pre ++ rest;
       calls := [updateUI d false];
       completion := Normal () |}.
Proof.
  intros Hpre Hd Hs. unfold onDidTerminateDebugSession.
  rewrite terminateScan_skip by done. cbn [terminateScan]. rewrite Hs. cbn [await].
  rewrite Nat.eqb_refl. by rewrite Map_delete_at.
Qed.

(** X4: When the host reports the end of session [s], the listener removes the
    first entry whose session is [s] and disables the margin of its
    document; the entries before it (running sessions other than [s]) and
    all entries after it stay, in order. When no entry has the session [s],
    the listener changes nothing and makes no call. *)
Theorem onDidTerminate_first_match (pre rest : DebuggerMap) (d : nat) (dbg : Debugger)
    (s : DebugSession) (host : Completion DebugSession) :
  Forall (fun e => ∃ s', session e.2 = Fulfilled s' ∧ s' ≠ s) pre →
  (d ∉ pre.*1 → session dbg = Fulfilled s →
   onDidTerminateDebugSession (pre ++ (d, dbg) :: rest) s host
   = {| notebookToDebugger := pre ++ rest;
        calls := [updateUI d false];
        completion := Normal () |})
  ∧ onDidTerminateDebugSession pre s host
    = {| notebookToDebugger := pre; calls := []; completion := Normal () |}.
Proof.
  intros Hpre. split.
  - intros Hd Hs. by apply onDidTerminate_first_match_aux.
  - by apply others_not_registered.
Qed.

Lemma onDidTerminate_first_match_witness :
  onDidTerminateDebugSession
    [(1, {| document := 1; session := Fulfilled 40 |});
     (2, {| document := 2; session := Fulfilled 41 |});
     (3, {| document := 3; session := Pending |})] 41 (Normal 42)
  = {| notebookToDebugger :=
         [(1, {| document := 1; session := Fulfilled 40 |});
          (3, {| document := 3; session := Pending |})];
       calls := [updateUI 2 false];
       completion := Normal () |}.
Proof.
  refine (proj1 (onDidTerminate_first_match
                   [(1, {| document := 1; session := Fulfilled 40 |})] _ 2
                   {| document := 2; session := Fulfilled 41 |} 41 (Normal 42) _) _ _).
  - repeat constructor. exists 40. split; [reflexivity|discriminate].
  - intros H. apply list_elem_of_singleton in H. discriminate H.
  - reflexivity.
Defined.

(** X5: An entry whose session was rejected stops the listener: it throws when
    it reaches that entry, leaves the map as it is and updates no margin,
    so an entry behind it is not removed when its session ends. *)
Theorem onDidTerminate_blocked (pre rest : DebuggerMap) (d : nat) (dbg : Debugger)
    (s : DebugSession) (host : Completion DebugSession) (err : string) :
  Forall (fun e => ∃ s', session e.2 = Fulfilled s' ∧ s' ≠ s) pre →
  session dbg = Rejected err →
  onDidTerminateDebugSession (pre ++ (d, dbg) :: rest) s host
  = {| notebookToDebugger := pre ++ (d, dbg) :: rest;
       calls := [];
       completion := Throw err |}.
Proof.
  intros Hpre Hs. unfold onDidTerminateDebugSession.
  rewrite terminateScan_skip by done. cbn [terminateScan]. by rewrite Hs.
Qed.

Lemma onDidTerminate_blocked_witness :
  onDidTerminateDebugSession
    [(2, {| document := 2; session := Rejected kernelStopped |});
     (1, {| document := 1; session := Fulfilled 40 |})] 40 (Normal 40)
  = {| notebookToDebugger :=
         [(2, {| document := 2; session := Rejected kernelStopped |});
          (1, {| document := 1; session := Fulfilled 40 |})];
       calls := [];
       completion := Throw kernelStopped |}.
Proof.
  apply (onDidTerminate_blocked [] [(1, {| document := 1; session := Fulfilled 40 |})] 2
           {| document := 2; session := Rejected kernelStopped |}).
  - constructor.
  - reflexivity.
Defined.

(** X3: A whole cycle on a document that is not registered, beside running
    sessions of other documents: the first toggle registers the document
    and, the host resolving the session, enables the margin; the second
    toggle, the session being the active one, asks the host to stop and
    leaves the map alone; the end of the session, reported by the host,
    unregisters the document and disables the margin. The map is then the
    one the cycle started from. *)
Theorem toggle_cycle (m : DebuggerMap) (doc : NotebookDocument) (s : DebugSession)
    (active : option DebugSession) (host host' : Completion DebugSession) :
  doc_handle doc ∉ m.*1 →
  Forall (fun e => ∃ s', session e.2 = Fulfilled s' ∧ s' ≠ s) m →
  let started := toggleDebugging m doc active (Normal s) in
  let stopping := toggleDebugging (notebookToDebugger started) doc (Some s) host in
  let ended := onDidTerminateDebugSession (notebookToDebugger stopping) s host' in
  notebookToDebugger started
  = m ++ [(doc_handle doc, {| document := doc_handle doc; session := Fulfilled s |})]
  ∧ calls started
    = [startDebugging "xeus" (basename (fileName doc)) "attach" (Uri_toString (doc_uri doc));
       getDocumentKernel (doc_handle doc);
       updateUI (doc_handle doc) true]
  ∧ notebookToDebugger stopping = notebookToDebugger started
  ∧ calls stopping = [executeCommand "workbench.action.debug.stop"]
  ∧ completion stopping = Normal ()
  ∧ notebookToDebugger ended = m
  ∧ calls ended = [updateUI (doc_handle doc) false].
Proof.
  intros Hnot Hm started stopping ended.
  assert (Hstarted : notebookToDebugger started
            = m ++ [(doc_handle doc, {| document := doc_handle doc; session := Fulfilled s |})]).
  { subst started. rewrite toggleDebugging_map.
    rewrite (proj2 (Map_get_None m (doc_handle doc)) Hnot). cbn.
    by apply Map_set_absent. }
  assert (Hget : Map_get (notebookToDebugger started) (doc_handle doc)
                 = Some {| document := doc_handle doc; session := Fulfilled s |}).
  { rewrite Hstarted, <- (Map_set_absent _ _ _ Hnot). apply Map_get_set. }
  assert (Hstopping : notebookToDebugger stopping = notebookToDebugger started).
  { subst stopping. rewrite toggleDebugging_map, Hget. cbn.
    rewrite Hstarted. by apply Map_set_last. }
  split; [done|]. split.
  { subst started. unfold toggleDebugging.
    by rewrite (proj2 (Map_get_None m (doc_handle doc)) Hnot). }
  split; [done|]. split.
  { subst stopping. unfold toggleDebugging. rewrite Hget. cbn.
    by rewrite decide_True. }
  split.
  { subst stopping. unfold toggleDebugging. rewrite Hget. cbn.
    by rewrite decide_True. }
  subst ended. rewrite Hstopping, Hstarted.
  rewrite (onDidTerminate_first_match_aux m [] (doc_handle doc)
             {| document := doc_handle doc; session := Fulfilled s |} s host');
    [|done..].
  by rewrite app_nil_r.
Qed.

Lemma toggle_cycle_witness :
  notebookToDebugger
    (onDidTerminateDebugSession
       (notebookToDebugger
          (toggleDebugging
             (notebookToDebugger
                (toggleDebugging [(1, {| document := 1; session := Fulfilled 40 |})]
                   gapDoc None (Normal 41)))
             gapDoc (Some 41) (Normal 41)))
       41 (Normal 41))
  = [(1, {| document := 1; session := Fulfilled 40 |})].
Proof.
  refine (proj1 (proj2 (proj2 (proj2 (proj2 (proj2
            (toggle_cycle [(1, {| document := 1; session := Fulfilled 40 |})]
               gapDoc 41 None (Normal 41) (Normal 41) _ _))))))).
  - intros H. apply list_elem_of_singleton in H. discriminate H.
  - repeat constructor. exists 40. split; [reflexivity|discriminate].
Defined.

(** ** The adapter factory *)

Section Factory.

Context (uriOf : nat → string).
Implicit Types (m : DebuggerMap) (docUri : string).

Lemma getDebuggerByUri_None m docUri :
  getDebuggerByUri uriOf m docUri = None ↔ ∀ d, d ∈ m.*1 → uriOf d ≠ docUri.
Proof.
  induction m as [|[k dbg] m IH]; cbn.
  - split; [|done]. intros _ d Hd. by apply not_elem_of_nil in Hd.
  - destruct (String.eqb_spec docUri (uriOf k)) as [->|Hne].
    + split; [done|]. intros H. exfalso. apply (H k); [by left|done].
    + rewrite IH. split.
      * intros H d [->|Hd]%elem_of_cons; [done|by apply H].
      * intros H d Hd. apply H. by right.
Qed.

Lemma getDebuggerByUri_Some m docUri dbg :
  getDebuggerByUri uriOf m docUri = Some dbg →
  ∃ pre d rest, m = pre ++ (d, dbg) :: rest ∧ uriOf d = docUri
                ∧ ∀ k, k ∈ pre.*1 → uriOf k ≠ docUri.
Proof.
  induction m as [|[k dbg0] m IH]; cbn; [done|].
  destruct (String.eqb_spec docUri (uriOf k)) as [->|Hne].
  - intros [= ->]. exists [], k, m. split; [done|]. split; [done|].
    intros k' Hk'. by apply not_elem_of_nil in Hk'.
  - intros (pre & d & rest & -> & Hd & Hpre)%IH.
    exists ((k, dbg0) :: pre), d, rest. split; [done|]. split; [done|].
    intros k' [->|Hk']%elem_of_cons; [done|by apply Hpre].
Qed.

Lemma onFound_at pre d dbg rest docUri f :
  uriOf d = docUri → (∀ k, k ∈ pre.*1 → uriOf k ≠ docUri) →
  onFound uriOf (pre ++ (d, dbg) :: rest) docUri f = pre ++ (d, f dbg) :: rest.
Proof.
  intros Hd. induction pre as [|[k dbg0] pre IH]; intros Hpre; cbn.
  - by rewrite <- Hd, String.eqb_refl.
  - destruct (String.eqb_spec docUri (uriOf k)) as [Heq|_].
    + exfalso. apply (Hpre k); [by left|done].
    + rewrite IH; [done|]. intros k' Hk'. apply Hpre. by right.
Qed.

Lemma onFound_keys m docUri f : (onFound uriOf m docUri f).*1 = m.*1.
Proof.
  induction m as [|[k dbg] m IH]; cbn; [done|].
  destruct (String.eqb docUri (uriOf k)); cbn; [done|by rewrite IH].
Qed.

End Factory.

(** X6: The factory looks the debugger up by the address of its document, first
    match first. It never registers or unregisters a document. It returns
    an adapter, for the document of the debugger found, exactly when a
    debugger is found and the kernel is there; with no debugger found it
    does nothing at all. It settles the session of the debugger found only
    if that session is pending (resolved with the host's session when the
    kernel is there, rejected when it is gone); every other entry, and a
    session already settled, is left as it is. *)
Theorem createDebugAdapterDescriptor_settles (uriOf : nat → string) (m : DebuggerMap)
    (session0 : DebugSession) (docUri : string) (kernel : bool) :
  (createDebugAdapterDescriptor uriOf m session0 docUri kernel).1.1.*1 = m.*1
  ∧ ((∀ d, d ∈ m.*1 → uriOf d ≠ docUri) →
     createDebugAdapterDescriptor uriOf m session0 docUri kernel = (m, [], None))
  ∧ (∀ pre d dbg rest,
       m = pre ++ (d, dbg) :: rest → uriOf d = docUri →
       (∀ k, k ∈ pre.*1 → uriOf k ≠ docUri) →
       createDebugAdapterDescriptor uriOf m session0 docUri kernel
       = (pre ++ (d, {| document := document dbg;
                        session := match session dbg with
                                   | Pending =>
                                       if kernel then Fulfilled session0
                                       else Rejected kernelStopped
                                   | p => p
                                   end |}) :: rest,
          [getDocumentKernel (document dbg)],
          if kernel then Some (document dbg, new_XeusDebugAdapter) else None)).
Proof.
  split; [|split].
  - unfold createDebugAdapterDescriptor.
    destruct (getDebuggerByUri uriOf m docUri); [|done].
    destruct kernel; cbn; apply onFound_keys.
  - intros Hnone. unfold createDebugAdapterDescriptor.
    by rewrite (proj2 (getDebuggerByUri_None uriOf m docUri) Hnone).
  - intros pre d dbg rest -> Hd Hpre. unfold createDebugAdapterDescriptor.
    assert (Hget : getDebuggerByUri uriOf (pre ++ (d, dbg) :: rest) docUri = Some dbg).
    { clear -Hd Hpre. induction pre as [|[k dbg0] pre IH]; cbn.
      - by rewrite <- Hd, String.eqb_refl.
      - destruct (String.eqb_spec docUri (uriOf k)) as [Heq|_].
        + exfalso. apply (Hpre k); [by left|done].
        + apply IH. intros k' Hk'. apply Hpre. by right. }
    rewrite Hget. destruct kernel; rewrite (onFound_at uriOf) by done;
      unfold Debugger_resolve, Debugger_reject; by destruct (session dbg).
Qed.

Lemma createDebugAdapterDescriptor_settles_witness :
  createDebugAdapterDescriptor (fun d => if Nat.eqb d 2 then addressOf cell0 else "file:///a.ipynb")
    [(1, {| document := 1; session := Fulfilled 40 |});
     (2, {| document := 2; session := Pending |})]
    41 (addressOf cell0) false
  = ([(1, {| document := 1; session := Fulfilled 40 |});
      (2, {| document := 2; session := Rejected kernelStopped |})],
     [getDocumentKernel 2], None).
Proof.
  refine (proj2 (proj2 (createDebugAdapterDescriptor_settles _ _ 41 _ false))
            [(1, {| document := 1; session := Fulfilled 40 |})] 2
            {| document := 2; session := Pending |} [] eq_refl eq_refl _).
  intros k Hk. apply list_elem_of_singleton in Hk. subst k. vm_compute. discriminate.
Defined.

(** X7: [toggleDebugging] and the factory fit together. While [toggleDebugging]
    waits for the session of the debugger it has just registered, the host
    calls the factory with the address the start request carried. When no
    document registered before has that address, the factory settles that
    very debugger, and the map the factory leaves is the map
    [toggleDebugging] ends with: the session resolved when the kernel is
    there, rejected with the kernel-stopped error when it is gone. *)
Theorem toggleDebugging_meets_factory (uriOf : nat → string) (m : DebuggerMap)
    (doc : NotebookDocument) (active : option DebugSession) (session0 : DebugSession)
    (kernel : bool) :
  doc_handle doc ∉ m.*1 →
  uriOf (doc_handle doc) = Uri_toString (doc_uri doc) →
  (∀ d, d ∈ m.*1 → uriOf d ≠ Uri_toString (doc_uri doc)) →
  let waiting := Map_set m (doc_handle doc) (new_Debugger doc).1 in
  let answer := if kernel then Normal session0 else Throw kernelStopped in
  (new_Debugger doc).2
  = [startDebugging "xeus" (basename (fileName doc)) "attach" (Uri_toString (doc_uri doc))]
  ∧ createDebugAdapterDescriptor uriOf waiting session0 (Uri_toString (doc_uri doc)) kernel
    = (notebookToDebugger (toggleDebugging m doc active answer),
       [getDocumentKernel (doc_handle doc)],
       if kernel then Some (doc_handle doc, new_XeusDebugAdapter) else None)
  ∧ Map_get (notebookToDebugger (toggleDebugging m doc active answer)) (doc_handle doc)
    = Some {| document := doc_handle doc;
              session := if kernel then Fulfilled session0 else Rejected kernelStopped |}.
Proof.
  intros Hnot Huri Hothers waiting answer. split; [done|].
  assert (Hmap : notebookToDebugger (toggleDebugging m doc active answer)
                 = m ++ [(doc_handle doc,
                          {| document := doc_handle doc;
                             session := if kernel then Fulfilled session0
                                        else Rejected kernelStopped |})]).
  { rewrite toggleDebugging_map, (proj2 (Map_get_None m (doc_handle doc)) Hnot). cbn.
    rewrite Map_set_absent by done. subst answer. by destruct kernel. }
  split.
  - subst waiting. cbn [new_Debugger fst]. rewrite Map_set_absent by done.
    unfold createDebugAdapterDescriptor.
    assert (Hget : getDebuggerByUri uriOf
                     (m ++ [(doc_handle doc, {| document := doc_handle doc; session := Pending |})])
                     (Uri_toString (doc_uri doc))
                   = Some {| document := doc_handle doc; session := Pending |}).
    { clear -Huri Hothers. induction m as [|[k dbg0] m IH]; cbn.
      - by rewrite Huri, String.eqb_refl.
      - destruct (String.eqb_spec (Uri_toString (doc_uri doc)) (uriOf k)) as [Heq|_].
        + exfalso. apply (Hothers k); [by left|done].
        + apply IH. intros k' Hk'. apply Hothers. by right. }
    rewrite Hget, Hmap. destruct kernel; by rewrite (onFound_at uriOf).
  - by rewrite Hmap, <- (Map_set_absent _ _ _ Hnot), Map_get_set.
Qed.

Lemma toggleDebugging_meets_factory_witness :
  createDebugAdapterDescriptor
    (fun d => if Nat.eqb d 2 then Uri_toString nbUri else "file:///a.ipynb")
    (Map_set [(1, {| document := 1; session := Fulfilled 40 |})] 2 (new_Debugger gapDoc).1)
    41 (Uri_toString nbUri) true
  = (notebookToDebugger
       (toggleDebugging [(1, {| document := 1; session := Fulfilled 40 |})] gapDoc None
          (Normal 41)),
     [getDocumentKernel 2], Some (2, new_XeusDebugAdapter)).
Proof.
  refine (proj1 (proj2 (toggleDebugging_meets_factory
                          (fun d => if Nat.eqb d 2 then Uri_toString nbUri else "file:///a.ipynb")
                          [(1, {| document := 1; session := Fulfilled 40 |})]
                          gapDoc None 41 true _ _ _))).
  - intros H. apply list_elem_of_singleton in H. discriminate H.
  - reflexivity.
  - intros k Hk. apply list_elem_of_singleton in Hk. subst k. vm_compute. discriminate.
Defined.

(** ** Closing a document *)

(** X8: On the close of a document the listener stops its debugger, if there is
    one, and then repairs the breakpoints; it never unregisters the
    document. With no debugger it only repairs. With a debugger whose
    session was rejected it throws before the repair: no breakpoint call
    is made. With a running debugger it asks the host to stop when that
    session is the active one, logs otherwise, and repairs in both cases. *)
Theorem onDidClose_repairs (m : DebuggerMap) (doc : NotebookDocument)
    (active : option DebugSession) (host : Completion DebugSession)
    (store : list Breakpoint) :
  (onDidCloseNotebookDocument m doc active host store).1.(notebookToDebugger).*1 = m.*1
  ∧ (Map_get m (doc_handle doc) = None →
     onDidCloseNotebookDocument m doc active host store
     = ({| notebookToDebugger := m; calls := []; completion := Normal () |},
        fixBreakpoints doc store))
  ∧ (∀ dbg err, Map_get m (doc_handle doc) = Some dbg → session dbg = Rejected err →
       (onDidCloseNotebookDocument m doc active host store).2 = []
       ∧ (onDidCloseNotebookDocument m doc active host store).1.(calls) = []
       ∧ (onDidCloseNotebookDocument m doc active host store).1.(completion) = Throw err)
  ∧ (∀ dbg s, Map_get m (doc_handle doc) = Some dbg → session dbg = Fulfilled s →
       (onDidCloseNotebookDocument m doc active host store).2 = fixBreakpoints doc store
       ∧ (onDidCloseNotebookDocument m doc active host store).1.(calls)
         = (if decide (active = Some s)
            then [executeCommand "workbench.action.debug.stop"]
            else [consoleLog "cannot stop debugger"])
       ∧ (onDidCloseNotebookDocument m doc active host store).1.(completion) = Normal ()
       ∧ Map_get (onDidCloseNotebookDocument m doc active host store).1.(notebookToDebugger)
           (doc_handle doc) = Some dbg).
Proof.
  split; [|split; [|split]].
  - unfold onDidCloseNotebookDocument.
    destruct (Map_get m (doc_handle doc)) as [dbg|] eqn:Hget; [|done].
    destruct (Debugger_stop dbg active host) as [cs [u|err]]; cbn;
      rewrite Map_set_keys; (rewrite decide_True; [done|]);
      destruct (decide (doc_handle doc ∈ m.*1)) as [|Hnot]; try done;
      apply Map_get_None in Hnot; congruence.
  - intros Hget. unfold onDidCloseNotebookDocument. by rewrite Hget.
  - intros dbg err Hget Hs. unfold onDidCloseNotebookDocument, Debugger_stop.
    by rewrite Hget, Hs.
  - intros dbg s Hget Hs. unfold onDidCloseNotebookDocument, Debugger_stop.
    rewrite Hget, Hs. cbn [await]. destruct dbg as [dd ss]. cbn in Hs. subst ss.
    destruct (decide (active = Some s)); cbn; by rewrite Map_get_set.
Qed.

(** ** More on the source visitor *)

Section VisitorFrame.

Implicit Types (msg : ProtocolMessage) (h g : Hook).

Ltac open_visit :=
  unfold walk, rebuild, visit_source, visit_breakpoint_source, visit_each, visit_sources;
  cbn;
  repeat match goal with
         | |- context [match ?o with Some _ => _ | None => _ end] =>
             match type of o with
             | option Payload => destruct o as [[src bp fr ss scs bps ms]|]
             | option _ => destruct o
             end; cbn
         end;
  first [ discriminate | intros [= <- <-] ].

Lemma walk_header acc msg h log msg' :
  walk acc msg h = Normal (log, msg') →
  seq msg' = seq msg ∧ type msg' = type msg ∧ command msg' = command msg
  ∧ event msg' = event msg ∧ success msg' = success msg
  ∧ request_seq msg' = request_seq msg
  ∧ (members <$> arguments msg') = (members <$> arguments msg)
  ∧ (members <$> body msg') = (members <$> body msg)
  ∧ tableRow msg' = tableRow msg.
Proof.
  destruct msg as [sq ty cmd ev args bd suc rs].
  destruct acc; open_visit; repeat (split; [done|]);
    unfold tableRow, kindOf; cbn; repeat case_decide; try done;
    by destruct suc as [[|]|].
Qed.

Lemma elem_of_fmap_Some {A} (get : A → option Source) (xs : list A) (s : Source) :
  Some s ∈ get <$> xs → s ∈ omap get xs.
Proof.
  intros (x & Hx & Hin)%list_elem_of_fmap. apply list_elem_of_omap. by exists x.
Qed.

Lemma walk_log acc msg h log msg' :
  walk acc msg h = Normal (log, msg') → ∀ s, Some s ∈ log → s ∈ allSources msg.
Proof.
  destruct msg as [sq ty cmd ev args bd suc rs].
  destruct acc; open_visit; intros s Hs; unfold allSources; cbn;
    rewrite ?elem_of_app;
    try (apply list_elem_of_singleton in Hs as <-; cbn; rewrite ?list_elem_of_singleton;
         tauto).
  - do 3 right. left. change (map ?f ?l) with (f <$> l) in Hs. by apply elem_of_fmap_Some.
  - do 3 right. right. left. change (map ?f ?l) with (f <$> l) in Hs.
    apply list_elem_of_fmap in Hs as (x & [= ->] & Hx). done.
  - do 3 right. right. right. left. change (map ?f ?l) with (f <$> l) in Hs.
    by apply elem_of_fmap_Some.
  - do 3 right. right. right. right. change (map ?f ?l) with (f <$> l) in Hs.
    by apply elem_of_fmap_Some.
Qed.

Ltac open_visit_in H :=
  unfold walk, rebuild, visit_source, visit_breakpoint_source, visit_each, visit_sources in H;
  cbn in H;
  repeat match type of H with
         | context [match ?o with Some _ => _ | None => _ end] =>
             match type of o with
             | option Payload => destruct o as [[src bp fr ss scs bps ms]|]
             | option _ => destruct o
             end; cbn in H
         end;
  first [ discriminate H | injection H as <- <- ].

Lemma fmap_twice h g (o : option Source) :
  g <$> (h <$> o) = (fun s => g (h s)) <$> o.
Proof. by destruct o. Qed.

Lemma each_twice {A} (get : A → option Source) (set : A → option Source → A) h g
    (xs : list A) :
  (∀ x o o', set (set x o) o' = set x o') →
  map (fun x => set (set x (h <$> get x)) (g <$> (h <$> get x))) xs
  = map (fun x => set x ((fun s => g (h s)) <$> get x)) xs.
Proof. intros Hss. apply map_ext. intros x. by rewrite Hss, fmap_twice. Qed.

Lemma walk_compose acc msg h g l1 m1 :
  walk acc msg h = Normal (l1, m1) →
  ∃ m2, walk acc m1 g = Normal (map (fun o : option Source => h <$> o) l1, m2)
        ∧ walk acc msg (fun s => g (h s)) = Normal (l1, m2).
Proof.
  intros H. destruct msg as [sq ty cmd ev args bd suc rs].
  destruct acc; open_visit_in H;
    unfold walk, rebuild, visit_source, visit_breakpoint_source, visit_each, visit_sources;
    cbn; eexists; (split; [rewrite ?map_map; reflexivity|]);
    unfold set_body, set_arguments, set_source, set_breakpoint, set_stackFrames,
      set_sources, set_scopes, set_breakpoints; cbn;
    rewrite ?fmap_twice; try reflexivity.
  all: first [ by rewrite (each_twice frame_source set_frame_source)
             | by rewrite (each_twice scope_source set_scope_source)
             | by rewrite (each_twice bp_source set_bp_source)
             | by rewrite ?map_map ].
Qed.

End VisitorFrame.

(** X9: [visitSources] leaves everything but sources alone: when it returns, the
    message has the same sequence number, type, command, event, success
    flag and members of other kinds, the same number of sources, and the
    same row of the table, so that a second walk visits the same places;
    and every source the hook was called on is a source of the message. *)
Theorem visitSources_frame (msg msg' : ProtocolMessage) (hook : Hook)
    (log : list (option Source)) :
  visitSources msg hook = Normal (log, msg') →
  seq msg' = seq msg ∧ type msg' = type msg ∧ command msg' = command msg
  ∧ event msg' = event msg ∧ success msg' = success msg
  ∧ request_seq msg' = request_seq msg
  ∧ (members <$> arguments msg') = (members <$> arguments msg)
  ∧ (members <$> body msg') = (members <$> body msg)
  ∧ tableRow msg' = tableRow msg
  ∧ length (allSources msg') = length (allSources msg)
  ∧ (∀ s, Some s ∈ log → s ∈ allSources msg).
Proof.
  intros Hv. pose proof (visitSources_pointwise _ _ _ _ Hv) as Hpt.
  apply Forall2_length in Hpt.
  rewrite visitSources_by_table in Hv. unfold visitByTable in Hv.
  destruct (tableRow msg) as [acc|] eqn:Hrow.
  - pose proof (walk_header _ _ _ _ _ Hv) as (?&?&?&?&?&?&?&?&?).
    pose proof (walk_log _ _ _ _ _ Hv) as Hlog.
    rewrite Hrow in *. by repeat (split; [done|]).
  - injection Hv as <- <-. rewrite Hrow. repeat (split; [done|]).
    intros s Hs. by apply elem_of_nil in Hs.
Qed.

Lemma visitSources_frame_witness :
  type (set_body (content (loadedSourceEvent fileB))
          (Some (set_source noPayload (Some (sourceAt (addressOf cellB)))))) = "event"
  ∧ tableRow (set_body (content (loadedSourceEvent fileB))
                (Some (set_source noPayload (Some (sourceAt (addressOf cellB))))))
    = Some body_source.
Proof.
  destruct (visitSources_frame (content (loadedSourceEvent fileB))
              (set_body (content (loadedSourceEvent fileB))
                 (Some (set_source noPayload (Some (sourceAt (addressOf cellB))))))
              (fun s => set_path s (addressOf cellB)) [Some (sourceAt fileB)])
    as (_ & Ht & _ & _ & _ & _ & _ & _ & Hrow & _); [vm_compute; reflexivity|].
  split; [exact Ht|]. rewrite Hrow. vm_compute. reflexivity.
Defined.

(** X10: Two walks in a row are one walk with the two hooks in a row: the second
    walk visits the sources the first one left, at the same places. *)
Theorem visitSources_compose (msg m1 : ProtocolMessage) (h g : Hook)
    (l1 : list (option Source)) :
  visitSources msg h = Normal (l1, m1) →
  ∃ m2, visitSources m1 g = Normal (map (fun o : option Source => h <$> o) l1, m2)
        ∧ visitSources msg (fun s => g (h s)) = Normal (l1, m2).
Proof.
  intros Hv. rewrite !visitSources_by_table in *. unfold visitByTable in *.
  destruct (tableRow msg) as [acc|] eqn:Hrow.
  - pose proof (walk_header _ _ _ _ _ Hv) as (_&_&_&_&_&_&_&_&Hrow').
    rewrite Hrow', Hrow. by apply walk_compose.
  - injection Hv as <- <-. rewrite Hrow. by eexists.
Qed.

Lemma visitSources_compose_witness :
  ∃ m2,
    visitSources (setBreakpointsRequest fileB)
      (toVSCode (fileToCell (materializeAll new_XeusDebugAdapter distinctFiles)) [cell0; cellB])
    = Normal ([Some (sourceAt fileB)], m2)
    ∧ visitSources (setBreakpointsRequest (addressOf cellB))
        (fun s => toVSCode (fileToCell (materializeAll new_XeusDebugAdapter distinctFiles))
                    [cell0; cellB]
                    (toXeus (cellToFile (materializeAll new_XeusDebugAdapter distinctFiles)) s))
      = Normal ([Some (sourceAt (addressOf cellB))], m2).
Proof.
  apply (visitSources_compose (setBreakpointsRequest (addressOf cellB))
           (setBreakpointsRequest fileB)
           (toXeus (cellToFile (materializeAll new_XeusDebugAdapter distinctFiles)))
           (toVSCode (fileToCell (materializeAll new_XeusDebugAdapter distinctFiles))
              [cell0; cellB])
           [Some (sourceAt (addressOf cellB))]).
  vm_compute. reflexivity.
Defined.

(** ** An address on its way to the kernel and back *)

(** X11: Once a cell has been dumped with a non-empty file path as the answer,
    a source at the cell's address goes to the kernel as a source at that
    file, and a source at that file comes back to the editor as a source at
    the cell's address again, named after the cell; the other members of
    the source are the same all along. *)
Theorem address_round_trip (a : XeusDebugAdapter) (cs cs' : list NotebookCell)
    (addr f : string) (cell : NotebookCell) (s : Source) :
  findCell cs addr = Some cell → nonEmpty addr = true → nonEmpty f = true →
  source_path s = Some addr →
  let a' := (dumpCell a cs addr (Normal f)).1 in
  toXeus (cellToFile a') s = set_path s f
  ∧ source_path (toVSCode (fileToCell a') cs' (toXeus (cellToFile a') s)) = Some addr
  ∧ source_name (toVSCode (fileToCell a') cs' (toXeus (cellToFile a') s))
    = Some match indexOf cs' cell with
           | Some cellIndex =>
               basename (path (cell_uri cell)) +:+ ", Cell " +:+ toString (cellIndex + 1)
           | None => basename (path (cell_uri cell))
           end
  ∧ sourceReference (toVSCode (fileToCell a') cs' (toXeus (cellToFile a') s))
    = sourceReference s.
Proof.
  intros Hfind Haddr Hf Hp a'. subst a'. rewrite (dumpCell_success _ _ _ _ _ Hfind). cbn.
  assert (Hx : toXeus (<[addr := f]> (cellToFile a)) s = set_path s f).
  { unfold toXeus. rewrite Hp. destruct addr; [done|]. cbn.
    rewrite lookup_insert_eq. by rewrite Hf. }
  rewrite Hx. split; [done|].
  rewrite (toVSCode_mapped _ cs' (set_path s f) f cell); [|done|done|apply lookup_insert_eq].
  cbn. by rewrite <- (findCell_address _ _ _ Hfind).
Qed.

Lemma address_round_trip_witness :
  source_path
    (toVSCode (fileToCell (dumpCell new_XeusDebugAdapter [cell0; cellB] (addressOf cellB)
                             (Normal fileB)).1) [cellB]
       (toXeus (cellToFile (dumpCell new_XeusDebugAdapter [cell0; cellB] (addressOf cellB)
                              (Normal fileB)).1)
          (sourceAt (addressOf cellB))))
  = Some (addressOf cellB).
Proof.
  refine (proj1 (proj2 (address_round_trip new_XeusDebugAdapter [cell0; cellB] [cellB]
                          (addressOf cellB) fileB cellB (sourceAt (addressOf cellB))
                          _ _ _ _)));
    vm_compute; reflexivity.
Defined.

(** ** What [handleMessage] does to the maps *)

Section Runs.

Implicit Types (a : XeusDebugAdapter) (msg : ProtocolMessage).

(** The interception either leaves the adapter alone or is one successful
    dump for a 'setBreakpoints' request at a cell address. *)
Lemma intercept_adapter a cs reply msg a1 pre :
  intercept a cs reply msg = Normal (a1, pre) →
  a1 = a
  ∨ ∃ args s p cell f,
      type msg = "request" ∧ command msg = Some "setBreakpoints"
      ∧ arguments msg = Some args ∧ source args = Some s ∧ source_path s = Some p
      ∧ startsWith "vscode-notebook-cell:" p = true
      ∧ findCell cs p = Some cell ∧ reply = Normal f
      ∧ a1 = {| fileToCell := <[f := cell]> (fileToCell a);
                cellToFile := <[p := f]> (cellToFile a) |}.
Proof.
  unfold intercept.
  destruct (String.eqb_spec (type msg) "request") as [Ht|Hne]; cbn [andb]; cbv iota;
    [|intros [= <- <-]; by left].
  case_bool_decide as Hcmd; [|intros [= <- <-]; by left].
  destruct (arguments msg) as [args|] eqn:Hargs; [|done].
  destruct (source args) as [s|] eqn:Hs; [|intros [= <- <-]; by left].
  destruct (source_path s) as [p|] eqn:Hp; [|intros [= <- <-]; by left].
  destruct (truthy (Some p)) eqn:Htr; cbn [andb]; cbv iota; [|intros [= <- <-]; by left].
  change (default "" (Some p)) with p.
  destruct (startsWith "vscode-notebook-cell:" p) eqn:Hpre;
    [|intros [= <- <-]; by left].
  unfold dumpCell. destruct (findCell cs p) as [cell|] eqn:Hfind;
    [|intros [= <- <-]; by left].
  destruct reply as [f|err]; intros [= <- <-]; [|by left].
  right. exists args, s, p, cell, f. repeat (split; [done|]).
  pose proof (findCell_address _ _ _ Hfind) as Ha. unfold addressOf in Ha. by rewrite Ha.
Qed.

Lemma intercept_throws a cs reply msg err :
  intercept a cs reply msg = Throw err →
  err = TypeError ∧ type msg = "request" ∧ command msg = Some "setBreakpoints"
  ∧ arguments msg = None.
Proof.
  unfold intercept.
  destruct (String.eqb_spec (type msg) "request") as [Ht|Hne]; cbn [andb]; cbv iota; [|done].
  case_bool_decide as Hcmd; [|done].
  destruct (arguments msg) as [args|] eqn:Hargs; [|by intros [= <-]].
  destruct (source args) as [s|]; [|done]. by destruct (_ && _)%bool.
Qed.

Lemma handleMessage_adapter a cs reply msg :
  (handleMessage a cs reply msg).1.1
  = match intercept a cs reply msg with
    | Normal (a1, _) => a1
    | Throw _ => a
    end.
Proof.
  unfold handleMessage. destruct (intercept a cs reply msg) as [[a1 pre]|err]; [|done].
  destruct (visitSources msg (toXeus (cellToFile a1))) as [[log msg']|err]; [|done].
  by repeat destruct (String.eqb _ _).
Qed.

(** One step either leaves the adapter alone or adds the two entries of a
    cell address. *)
Lemma handleOne_cases a (h : Handled) :
  handleOne a h = a
  ∨ ∃ p cell f,
      startsWith "vscode-notebook-cell:" p = true ∧ addressOf cell = p
      ∧ handleOne a h = {| fileToCell := <[f := cell]> (fileToCell a);
                           cellToFile := <[p := f]> (cellToFile a) |}.
Proof.
  unfold handleOne. rewrite handleMessage_adapter.
  destruct (intercept _ _ _ _) as [[a1 pre]|err] eqn:Hi; [|by left].
  apply intercept_adapter in Hi
    as [->|(args & s & p & cell & f & _ & _ & _ & _ & _ & Hpre & Hfind & _ & ->)];
    [by left|].
  right. exists p, cell, f. split; [done|]. split; [|done].
  by eapply findCell_address.
Qed.

Lemma wellKeyed_step a h : wellKeyed a → wellKeyed (handleOne a h).
Proof.
  intros [Hcf Hfc].
  destruct (handleOne_cases a h) as [->|(p & cell & f & Hpre & Haddr & ->)]; [done|].
  split; cbn.
  - intros k f' Hk. destruct (decide (p = k)) as [<-|Hne].
    + rewrite lookup_insert_eq in Hk. injection Hk as <-. split; [done|].
      rewrite lookup_insert_eq. by eexists.
    + rewrite lookup_insert_ne in Hk by done. destruct (Hcf _ _ Hk) as [Hk' Hf'].
      split; [done|]. destruct (decide (f = f')) as [<-|Hnf].
      * rewrite lookup_insert_eq. by eexists.
      * by rewrite lookup_insert_ne.
  - intros f' cell' Hf'. destruct (decide (p = addressOf cell')) as [<-|Hne].
    + rewrite lookup_insert_eq. by eexists.
    + rewrite lookup_insert_ne by done. destruct (decide (f = f')) as [<-|Hnf].
      * rewrite lookup_insert_eq in Hf'. injection Hf' as <-. by destruct Hne.
      * rewrite lookup_insert_ne in Hf' by done. by eapply Hfc.
Qed.

Lemma wellKeyed_run hs : ∀ a, wellKeyed a → wellKeyed (handleAll a hs).
Proof.
  induction hs as [|h hs IH]; intros a Ha; [done|].
  cbn. apply IH. by apply wellKeyed_step.
Qed.

Lemma grows_step a h :
  (∀ k, is_Some (cellToFile a !! k) → is_Some (cellToFile (handleOne a h) !! k))
  ∧ (∀ f, is_Some (fileToCell a !! f) → is_Some (fileToCell (handleOne a h) !! f)).
Proof.
  destruct (handleOne_cases a h) as [->|(p & cell & f & _ & _ & ->)]; [done|].
  split; cbn; intros k Hk.
  - destruct (decide (p = k)) as [<-|Hne];
      [rewrite lookup_insert_eq; by eexists|by rewrite lookup_insert_ne].
  - destruct (decide (f = k)) as [<-|Hne];
      [rewrite lookup_insert_eq; by eexists|by rewrite lookup_insert_ne].
Qed.

End Runs.

(** X12: [handleMessage] writes the maps in one case only: a 'setBreakpoints'
    request whose source is at a notebook-cell address of a cell of the
    document, answered by the session with a file. In every other case the
    adapter is as before: other requests, responses, events, a source at a
    path of another kind, an address that no cell has, a dump that fails.
    A 'setBreakpoints' request without arguments makes it throw before any
    call. *)
Theorem handleMessage_writes_once (a : XeusDebugAdapter) (cs : list NotebookCell)
    (reply : Completion string) (msg : ProtocolMessage) :
  ((handleMessage a cs reply msg).1.1 = a
   ∨ ∃ args s p cell f,
       type msg = "request" ∧ command msg = Some "setBreakpoints"
       ∧ arguments msg = Some args ∧ source args = Some s ∧ source_path s = Some p
       ∧ startsWith "vscode-notebook-cell:" p = true
       ∧ findCell cs p = Some cell ∧ reply = Normal f
       ∧ (handleMessage a cs reply msg).1.1
         = {| fileToCell := <[f := cell]> (fileToCell a);
              cellToFile := <[p := f]> (cellToFile a) |})
  ∧ (type msg = "request" → command msg = Some "setBreakpoints" → arguments msg = None →
     handleMessage a cs reply msg = (a, [], Throw TypeError)).
Proof.
  split.
  - rewrite handleMessage_adapter.
    destruct (intercept a cs reply msg) as [[a1 pre]|err] eqn:Hi; [|by left].
    apply intercept_adapter in Hi as [->|H]; [by left|by right].
  - intros Ht Hc Hargs. unfold handleMessage, intercept. rewrite Ht, Hc, Hargs. cbn.
    by rewrite bool_decide_eq_true_2.
Qed.

(** X13: After any sequence of messages handled by a new adapter, in whatever
    documents and with whatever answers of the session: every key of
    [cellToFile] is a notebook-cell address and is sent to a file that
    [fileToCell] knows, every cell of [fileToCell] has its address in
    [cellToFile], and so a source whose path is not a notebook-cell
    address goes to the kernel as it is. *)
Theorem handled_keys_are_cell_addresses (hs : list Handled) :
  (∀ k f, cellToFile (handleAll new_XeusDebugAdapter hs) !! k = Some f →
     startsWith "vscode-notebook-cell:" k = true
     ∧ is_Some (fileToCell (handleAll new_XeusDebugAdapter hs) !! f))
  ∧ (∀ f cell, fileToCell (handleAll new_XeusDebugAdapter hs) !! f = Some cell →
       is_Some (cellToFile (handleAll new_XeusDebugAdapter hs) !! addressOf cell))
  ∧ (∀ s, (∀ p, source_path s = Some p → startsWith "vscode-notebook-cell:" p = false) →
       toXeus (cellToFile (handleAll new_XeusDebugAdapter hs)) s = s).
Proof.
  assert (Hwk : wellKeyed (handleAll new_XeusDebugAdapter hs)).
  { apply wellKeyed_run. split; intros ? ? H; cbn in H; by rewrite lookup_empty in H. }
  destruct Hwk as [Hcf Hfc]. split; [done|]. split; [done|].
  intros s Hs. apply toXeus_unmapped. intros p Hp.
  destruct (cellToFile (handleAll new_XeusDebugAdapter hs) !! p) as [f|] eqn:Hk; [|done].
  destruct (Hcf _ _ Hk) as [Hpre _]. rewrite (Hs p Hp) in Hpre. discriminate Hpre.
Qed.

(** X14: The maps are never pruned: an address or a file that has an entry keeps
    an entry through every later call of [handleMessage]. *)
Theorem handled_maps_grow (hs : list Handled) (a : XeusDebugAdapter) :
  (∀ k, is_Some (cellToFile a !! k) → is_Some (cellToFile (handleAll a hs) !! k))
  ∧ (∀ f, is_Some (fileToCell a !! f) → is_Some (fileToCell (handleAll a hs) !! f)).
Proof.
  revert a. induction hs as [|h hs IH]; intros a; [done|].
  cbn. destruct (IH (handleOne a h)) as [IH1 IH2]. destruct (grows_step a h) as [H1 H2].
  split; intros k Hk; [apply IH1, H1|apply IH2, H2]; done.
Qed.

(** ** Messages of the kernel *)

(** X15: The subscription emits nothing for a message that is not one of the
    three debug kinds, and for a debug message at most one message, which
    is the content with the same sequence number, type, command, event and
    success flag and as many sources; it emits exactly one when the content
    has the members its kind requires. *)
Theorem onKernelMessage_emits (a : XeusDebugAdapter) (cs : list NotebookCell)
    (evt : JupyterMessage) :
  (msg_type evt ∉ ["debug_request"; "debug_reply"; "debug_event"] →
   onKernelMessage a cs evt = ([], Normal ()))
  ∧ (∀ c, c ∈ (onKernelMessage a cs evt).1 →
       ∃ m, c = fire m ∧ (onKernelMessage a cs evt).1 = [fire m]
            ∧ seq m = seq (content evt) ∧ type m = type (content evt)
            ∧ command m = command (content evt) ∧ event m = event (content evt)
            ∧ success m = success (content evt)
            ∧ length (allSources m) = length (allSources (content evt)))
  ∧ (msg_type evt ∈ ["debug_request"; "debug_reply"; "debug_event"] →
     conforms (content evt) = true →
     ∃ m, onKernelMessage a cs evt = ([fire m], Normal ())).
Proof.
  split; [|split].
  - intros Hnot. unfold onKernelMessage, isDebugMessage, debugEvents.
    by rewrite bool_decide_eq_false_2.
  - intros c. unfold onKernelMessage. destruct (isDebugMessage evt); [|by intros ?%elem_of_nil].
    destruct (visitSources _ _) as [[log m]|err] eqn:Hv; cbn; [|by intros ?%elem_of_nil].
    intros ->%list_elem_of_singleton. exists m. split; [done|]. split; [done|].
    pose proof (visitSources_pointwise _ _ _ _ Hv) as Hlen%Forall2_length.
    rewrite visitSources_by_table in Hv. unfold visitByTable in Hv.
    destruct (tableRow (content evt)) as [acc|].
    + pose proof (walk_header _ _ _ _ _ Hv) as (?&?&?&?&?&_). by repeat (split; [done|]).
    + by injection Hv as _ <-.
  - intros Hin Hc. unfold onKernelMessage, isDebugMessage, debugEvents.
    rewrite bool_decide_eq_true_2 by done.
    destruct (visitSources_total (content evt) (toVSCode (fileToCell a) cs) Hc)
      as (log & m & ->).
    by exists m.
Qed.

(** ** The store after a repair *)

Lemma removal_is_filter (P : Breakpoint → bool) (l l' : list Breakpoint) :
  (∀ b, b ∈ l' → b ∈ l) →
  filter (fun b => b ∉ List.filter P l) l' = List.filter (fun b => negb (P b)) l'.
Proof.
  intros Hsub. induction l' as [|x l' IH]; [done|].
  rewrite filter_cons. cbn [List.filter].
  assert (Hx : x ∈ List.filter P l ↔ P x = true).
  { rewrite list_elem_of_In, filter_In, <- list_elem_of_In.
    split; [by intros [_ ?]|]. intros ?. split; [apply Hsub; by left|done]. }
  rewrite IH by (intros b Hb; apply Hsub; by right).
  destruct (P x) eqn:HP; cbn.
  - rewrite decide_False; [done|]. intros Hn. apply Hn, Hx. done.
  - rewrite decide_True; [done|]. intros Hin%Hx. discriminate Hin.
Qed.

Lemma split_lengths (map : gmap string Uri) (store : list Breakpoint) :
  (length (List.filter (fun b => negb (bool_decide (is_Some (staleTarget map b)))) store)
   + length (omap (reanchored map) store) = length store)%nat.
Proof.
  induction store as [|b store IH]; [done|]. cbn [List.filter omap list_omap].
  destruct b as [loc st|fn st]; cbn [staleTarget reanchored].
  - destruct (map !! Uri_toString (uri loc)) as [u|]; cbn; lia.
  - cbn. lia.
Qed.

(** X16: The breakpoints of the host after a repair are the ones that were not
    stale, as they were and in their order, followed by the re-anchored
    replacements of the stale ones, in their order; there are as many as
    before. *)
Theorem fixBreakpoints_store (doc : NotebookDocument) (store : list Breakpoint) :
  hostRun (fixBreakpoints doc store) store
  = List.filter (fun b => negb (bool_decide (is_Some (staleTarget (staleMap doc) b)))) store
    ++ omap (reanchored (staleMap doc)) store
  ∧ length (hostRun (fixBreakpoints doc store) store) = length store.
Proof.
  assert (Heq : hostRun (fixBreakpoints doc store) store
    = List.filter (fun b => negb (bool_decide (is_Some (staleTarget (staleMap doc) b)))) store
      ++ omap (reanchored (staleMap doc)) store).
  { rewrite fixBreakpoints_calls.
    destruct (scanBreakpoints (staleMap doc) store).1 as [|b0 rm] eqn:E.
    - cbn [hostRun fold_left]. rewrite scan_removed in E.
      assert (Hnone : ∀ b, b ∈ store → staleTarget (staleMap doc) b = None).
      { intros b Hb. destruct (staleTarget (staleMap doc) b) as [u|] eqn:Hu; [|done].
        assert (b ∈ List.filter
                  (fun b => bool_decide (is_Some (staleTarget (staleMap doc) b))) store) as Hin.
        { apply list_elem_of_In, filter_In. split; [by apply list_elem_of_In|].
          apply bool_decide_eq_true. by eexists. }
        rewrite E in Hin. by apply elem_of_nil in Hin. }
      clear E. induction store as [|b store IH]; [done|].
      cbn [List.filter omap list_omap].
      assert (Hb : staleTarget (staleMap doc) b = None) by (apply Hnone; by left).
      assert (Hr : reanchored (staleMap doc) b = None).
      { destruct b; [|done]. cbn in *. by rewrite Hb. }
      rewrite Hr, Hb. cbn. f_equal. apply IH. intros b' Hb'. apply Hnone. by right.
    - rewrite <- E. clear E. cbn [hostRun fold_left hostApply].
      rewrite scan_removed, scan_added. f_equal. by apply removal_is_filter. }
  split; [exact Heq|]. rewrite Heq, length_app. apply split_lengths.
Qed.

(** ** When the repair has nothing to do *)

Lemma forEachCell_in_place (cs : list NotebookCell) : ∀ ix map,
  (∀ j cell, cs !! j = Some cell → mismatched cell (ix + j) = false) →
  forEachCell cs ix map = map.
Proof.
  induction cs as [|c cs IH]; intros ix map H; [done|].
  cbn [forEachCell]. fold (mismatched c ix).
  pose proof (H 0 c eq_refl) as H0. rewrite Nat.add_0_r in H0. rewrite H0.
  apply IH. intros j cell Hj. replace (S ix + j)%nat with (ix + S j)%nat by lia.
  by apply (H (S j)).
Qed.

(** X17: [fixBreakpoints] makes no call when every cell carries a fragment that
    reads as its index, whatever breakpoints are stored; nor when no
    stored source breakpoint is at the address of a cell of the document,
    however the cells are numbered. *)
Theorem fixBreakpoints_nothing_to_do (doc : NotebookDocument) (store : list Breakpoint) :
  (∀ ix cell, cells doc !! ix = Some cell → mismatched cell ix = false)
  ∨ (∀ loc st cell, SourceBreakpoint loc st ∈ store → cell ∈ cells doc →
       Uri_toString (uri loc) ≠ addressOf cell) →
  fixBreakpoints doc store = [].
Proof.
  intros [Hplace|Hother].
  - unfold fixBreakpoints, staleMap. rewrite forEachCell_in_place by done.
    by rewrite map_size_empty.
  - rewrite fixBreakpoints_calls, scan_clean; [done|].
    apply Forall_forall. intros [loc st|fn st] Hb; [|done]. cbn.
    destruct (staleMap doc !! Uri_toString (uri loc)) as [u|] eqn:Hu; [|done].
    apply forEachCell_inv in Hu as [Hu|(j & cell & Hj & _ & Haddr & _)].
    + by rewrite lookup_empty in Hu.
    + exfalso. apply (Hother loc st cell); [done| |done].
      by eapply list_elem_of_lookup_2.
Qed.

Lemma fixBreakpoints_nothing_to_do_witness :
  fixBreakpoints
    {| doc_handle := 3; doc_uri := nbUri; fileName := "/work/nb.ipynb";
       cells := [cell0;
                 {| handle := 13; cell_uri := fixedUri cellB 1; cellKind := Code;
                    text := text cellB; breakpointMargin := None |}] |}
    [bpF; bpB] = [].
Proof.
  apply fixBreakpoints_nothing_to_do. left.
  intros [|[|ix]] cell [= <-]; [vm_compute; reflexivity|].
  apply (fixedUri_in_place
           {| handle := 13; cell_uri := cell_uri cellB; cellKind := Code;
              text := text cellB; breakpointMargin := None |} 1).
Defined.

(** ** The toggle command of the earlier activation code *)

Lemma toggleTimes_spec (n : nat) : ∀ (doc : NotebookDocument) (b : bool),
  (toggleTimes n doc b).1 = (if Nat.even n then b else negb b)
  ∧ (toggleTimes n doc b).2
    = match n with
      | O => doc
      | S _ => updateDebuggerUI doc (toggleTimes n doc b).1
      end.
Proof.
  induction n as [|n IH]; intros doc b; [done|].
  cbn [toggleTimes toggleDebuggingCommand].
  destruct (IH (updateDebuggerUI doc (negb b)) (negb b)) as [IH1 IH2].
  split.
  - rewrite IH1, Nat.even_succ, <- Nat.negb_even.
    destruct (Nat.even n); cbn; [done|by destruct b].
  - rewrite IH2. destruct n as [|n]; [done|]. by rewrite updateDebuggerUI_last.
Qed.

(** X18: The command flips the debugging flag of the kernel and sets the margin
    of the code cells to the new flag, asking the host to start a session
    when the flag is now on and to stop when it is off; without an active
    document, or without a kernel, it only shows an error. After [n]
    invocations the flag is the initial one when [n] is even and its
    negation when [n] is odd, and from the first invocation on the document
    is the initial one with the margin of its code cells equal to the flag. *)
Theorem toggleDebuggingCommand_flips (n : nat) (doc : NotebookDocument) (b : bool) :
  toggleDebuggingCommand None (Some b)
  = (Some b, None, [showErrorMessage "No active notebook document to debug"])
  ∧ toggleDebuggingCommand (Some doc) None
    = (None, Some doc,
       [getDocumentKernel (doc_handle doc);
        showErrorMessage "Kernel appears to have been stopped"])
  ∧ toggleDebuggingCommand (Some doc) (Some b)
    = (Some (negb b), Some (updateDebuggerUI doc (negb b)),
       [getDocumentKernel (doc_handle doc);
        if b then executeCommand "workbench.action.debug.stop"
        else startDebugging "xeus" "xeus debugging" "attach" (Uri_toString (doc_uri doc))])
  ∧ (toggleTimes n doc b).1 = (if Nat.even n then b else negb b)
  ∧ (toggleTimes n doc b).2
    = match n with
      | O => doc
      | S _ => updateDebuggerUI doc (toggleTimes n doc b).1
      end.
Proof.
  split; [done|]. split; [done|]. split; [by destruct b|]. apply toggleTimes_spec.
Qed.
